(** * Execution rules of the dask backend of ibis

    A shallow embedding of [ibis/dask/client.py] (the type coercion layer)
    and [ibis/dask/execution/generic.py] (the generic execution rules),
    together with the properties the specification states about them.

    Python values are modelled by inductive types, raised exceptions by the
    [Raise] constructor of [result], dictionaries by finite maps or by the
    list of their items, and the classes that multiple dispatch works on by
    an enumeration with its subclass relation. *)

From Stdlib Require Import ZArith Bool List Ascii String Lia.
From stdpp Require Import base decidable option list gmap strings.
Import ListNotations.

Local Open Scope string_scope.
Local Open Scope list_scope.
Local Open Scope Z_scope.

(** ** Python exceptions and results *)

Module Py.

Inductive exn : Type :=
| TypeError (msg : string)
| ValueError (msg : string)
| KeyError (key : string)
| AttributeError (msg : string)
| AssertionError (msg : string)
| NotImplementedError (msg : string)
| IbisError (msg : string)
| OperationNotDefinedError (msg : string)
| UnsupportedOperationError (msg : string)
| IndexingError (msg : string)
| OverflowError (msg : string).

(** The outcome of a Python call: a returned value or a raised exception. *)
Inductive result (A : Type) : Type :=
| Ok (a : A)
| Raise (e : exn).

Arguments Ok {A} a.
Arguments Raise {A} e.

Definition bind {A B : Type} (r : result A) (k : A -> result B) : result B :=
  match r with
  | Ok a => k a
  | Raise e => Raise e
  end.

Definition returns {A : Type} (r : result A) : bool :=
  match r with Ok _ => true | Raise _ => false end.

(** [for x in xs: f x], stopping at the first exception. *)
Fixpoint traverse {A B : Type} (f : A -> result B) (xs : list A)
  : result (list B) :=
  match xs with
  | [] => Ok []
  | x :: rest =>
      bind (f x) (fun y => bind (traverse f rest) (fun ys => Ok (y :: ys)))
  end.

End Py.

Export Py.

Notation "x <- r ;; k" := (Py.bind r (fun x => k))
  (at level 100, r at next level, right associativity).

(** Substring test, used to read the error messages. *)
Fixpoint contains (needle s : string) : bool :=
  if String.prefix needle s then true
  else match s with
       | EmptyString => false
       | String _ rest => contains needle rest
       end.

(** ** Runtime classes *)

Module Classes.

(** Modelled from the spec: [ibis.expr.datatypes] and
    [ibis.expr.operations] are not among the sources; the classes of theirs
    that the sources name are declared here, next to the classes of Python,
    numpy, pandas and dask that [isinstance], [type(...)] and the
    dispatchers look at.  The logical types form a hierarchy (a sized
    integer is a signed or unsigned integer, which is an integer, which is
    a primitive type), and every operation is a node. *)
Inductive cls : Type :=
(* builtins and abstract base classes *)
| py_object | py_NoneType | py_bool | py_int | py_float | py_str | py_list
| numbers_Real | abc_Sequence
(* numpy scalars *)
| np_generic | np_bool_ | np_integer | np_int64 | np_floating | np_float64
(* datetime and pandas scalars *)
| dt_date | dt_datetime | dt_time | dt_timedelta | pd_Timestamp | pd_Timedelta
(* dask containers *)
| dd_Series | dd_DataFrame | SeriesGroupBy | DataFrameGroupBy | dd_Scalar
(* ibis.expr.datatypes *)
| DataType | Primitive | Variadic | Null | Boolean | Integer
| SignedInteger | UnsignedInteger
| Int8 | Int16 | Int32 | Int64 | UInt8 | UInt16 | UInt32 | UInt64
| Floating | Float16 | Float32 | Float64
| String | Binary | Date | Time | Timestamp | Interval | Decimal | Category
| Array | Struct
(* ibis.expr.operations *)
| Node | ValueOp | Literal | Cast | Where.

#[global] Instance cls_eq_dec : EqDecision cls.
Proof. solve_decision. Defined.

Definition cls_eqb (a b : cls) : bool := bool_decide (a = b).

(** Direct base classes ([__bases__], and the abstract base classes a class
    is registered with). *)
Definition bases (c : cls) : list cls :=
  match c with
  | py_object => []
  | py_bool => [py_int]
  | py_int | py_float => [numbers_Real]
  | py_str | py_list => [abc_Sequence]
  | np_bool_ => [np_generic]
  | np_integer | np_floating => [np_generic; numbers_Real]
  | np_int64 => [np_integer]
  | np_float64 => [np_floating; py_float]
  | dt_datetime => [dt_date]
  | pd_Timestamp => [dt_datetime]
  | pd_Timedelta => [dt_timedelta]
  | Primitive | Variadic | Null | Timestamp | Interval | Decimal | Category
  | Struct => [DataType]
  | Boolean | Integer | Floating | Date | Time => [Primitive]
  | SignedInteger | UnsignedInteger => [Integer]
  | Int8 | Int16 | Int32 | Int64 => [SignedInteger]
  | UInt8 | UInt16 | UInt32 | UInt64 => [UnsignedInteger]
  | Float16 | Float32 | Float64 => [Floating]
  | String | Binary | Array => [Variadic]
  | ValueOp => [Node]
  | Literal | Cast | Where => [ValueOp]
  | _ => [py_object]
  end.

(** [issubclass(a, b)]: [b] is reached from [a] through base classes.  The
    hierarchy is five levels deep, so the fuel of [issubclass] suffices. *)
Fixpoint issubclass_fuel (fuel : nat) (a b : cls) : bool :=
  cls_eqb a b ||
  match fuel with
  | O => false
  | S n => existsb (fun base => issubclass_fuel n base b) (bases a)
  end.

Definition issubclass (a b : cls) : bool := issubclass_fuel 6 a b.

End Classes.

(** ** Logical types and native dtypes ([ibis/dask/client.py]) *)

Module Datatypes.

(** Modelled from the spec: [ibis.expr.datatypes] is not among the
    sources.  A logical type is a tagged value (boolean, integer width,
    floating width, string, timestamp with timezone, interval with unit,
    array, struct, decimal, null, category), compared structurally; it
    carries the fields the sources read: [timezone], [unit] and
    [value_type]. *)
Inductive dtype : Type :=
| Null | Boolean
| Int8 | Int16 | Int32 | Int64 | UInt8 | UInt16 | UInt32 | UInt64
| Float16 | Float32 | Float64
| String | Binary | Date | Time
| Timestamp (timezone : option string)
| Interval (unit : string)
| Decimal (precision scale : Z)
| Category
| Array (value_type : dtype)
| Struct (fields : struct_fields)
with struct_fields : Type :=
| FNil
| FCons (name : string) (type : dtype) (rest : struct_fields).

Fixpoint dtype_eq_dec (a b : dtype) : {a = b} + {a <> b}
with struct_fields_eq_dec (a b : struct_fields) : {a = b} + {a <> b}.
Proof.
  - decide equality; try apply Z.eq_dec; try apply string_dec.
    decide equality; apply string_dec.
  - decide equality; apply string_dec.
Defined.

#[global] Instance dtype_eqdec : EqDecision dtype := dtype_eq_dec.

(** [a.equals(b)]: structural comparison of logical types. *)
Definition equals (a b : dtype) : bool := bool_decide (a = b).

(** [type(ibis_dtype)]. *)
Definition type_of (t : dtype) : Classes.cls :=
  match t with
  | Null => Classes.Null | Boolean => Classes.Boolean
  | Int8 => Classes.Int8 | Int16 => Classes.Int16
  | Int32 => Classes.Int32 | Int64 => Classes.Int64
  | UInt8 => Classes.UInt8 | UInt16 => Classes.UInt16
  | UInt32 => Classes.UInt32 | UInt64 => Classes.UInt64
  | Float16 => Classes.Float16 | Float32 => Classes.Float32
  | Float64 => Classes.Float64
  | String => Classes.String | Binary => Classes.Binary
  | Date => Classes.Date | Time => Classes.Time
  | Timestamp _ => Classes.Timestamp
  | Interval _ => Classes.Interval
  | Decimal _ _ => Classes.Decimal
  | Category => Classes.Category
  | Array _ => Classes.Array
  | Struct _ => Classes.Struct
  end.

Definition isinstance (t : dtype) (c : Classes.cls) : bool :=
  Classes.issubclass (type_of t) c.

(** The singletons [dt.timestamp] and [dt.interval] ([Timestamp()] and
    [Interval()], whose default unit is seconds). *)
Definition timestamp : dtype := Timestamp None.
Definition interval : dtype := Interval "s".

(** numpy dtypes.  [np_str] is the unicode dtype that [np.dtype('str')] and
    [np.dtype('unicode')] denote; datetime64 and timedelta64 carry their
    unit, [None] for the generic dtype written without brackets. *)
Inductive np_dtype : Type :=
| np_bool
| np_int8 | np_int16 | np_int32 | np_int64
| np_uint8 | np_uint16 | np_uint32 | np_uint64
| np_float16 | np_float32 | np_float64
| np_object | np_str
| np_datetime64 (unit : option string)
| np_timedelta64 (unit : option string).

#[global] Instance np_dtype_eq_dec : EqDecision np_dtype.
Proof. solve_decision. Defined.

(** What [to_dask] returns: a numpy dtype or one of the two pandas
    extension dtypes.  The timezone of a [DatetimeTZDtype] is a tzinfo
    object; it is held here by the name it prints as, [str(tz)]. *)
Inductive native : Type :=
| NumpyDtype (d : np_dtype)
| DatetimeTZDtype (unit : string) (tz : string)
| CategoricalDtype.

#[global] Instance native_eq_dec : EqDecision native.
Proof. solve_decision. Defined.

(** A dict built from a list of items: a later item replaces an earlier
    one with the same key. *)
Fixpoint dict_get {K V : Type} `{EqDecision K} (items : list (K * V)) (k : K)
  : option V :=
  match items with
  | [] => None
  | (k', v) :: rest =>
      match dict_get rest k with
      | Some v' => Some v'
      | None => if bool_decide (k' = k) then Some v else None
      end
  end.

(** [client.py], lines 32 to 56. *)
Definition _ibis_dtypes : list (Classes.cls * np_dtype) :=
  [ (Classes.Boolean, np_bool);
    (Classes.Null, np_object);
    (Classes.Array, np_object);
    (Classes.String, np_object);
    (Classes.Binary, np_object);
    (Classes.Date, np_datetime64 (Some "ns"));
    (Classes.Time, np_timedelta64 (Some "ns"));
    (Classes.Timestamp, np_datetime64 (Some "ns"));
    (Classes.Int8, np_int8);
    (Classes.Int16, np_int16);
    (Classes.Int32, np_int32);
    (Classes.Int64, np_int64);
    (Classes.UInt8, np_uint8);
    (Classes.UInt16, np_uint16);
    (Classes.UInt32, np_uint32);
    (Classes.UInt64, np_uint64);
    (Classes.Float32, np_float32);
    (Classes.Float64, np_float64);
    (Classes.Decimal, np_object);
    (Classes.Struct, np_object) ].

(** [client.py], lines 59 to 82. *)
Definition _numpy_dtypes : list (np_dtype * dtype) :=
  [ (np_bool, Boolean);
    (np_int8, Int8);
    (np_int16, Int16);
    (np_int32, Int32);
    (np_int64, Int64);
    (np_uint8, UInt8);
    (np_uint16, UInt16);
    (np_uint32, UInt32);
    (np_uint64, UInt64);
    (np_float16, Float16);
    (np_float32, Float32);
    (np_float64, Float64);
    (np_float64, Float64) (* 'double' *);
    (np_str, String) (* 'unicode' *);
    (np_str, String) (* 'str' *);
    (np_datetime64 None, timestamp);
    (np_datetime64 (Some "ns"), timestamp);
    (np_timedelta64 None, interval);
    (np_timedelta64 (Some "ns"), Interval "ns") ].

(** [client.py], lines 94 to 103. *)
Definition from_numpy_dtype (value : np_dtype) : result dtype :=
  match dict_get _numpy_dtypes value with
  | Some t => Ok t
  | None => Raise (TypeError "numpy dtype is not supported in the dask backend")
  end.

(** [client.py], lines 106 to 108: [tz] is [str(value.tz)], the name the
    zone of the dtype prints as. *)
Definition from_dask_tzdtype (tz : string) : result dtype :=
  Ok (Timestamp (Some tz)).

Definition from_dask_categorical : result dtype := Ok Category.

(** [dt.dtype(value)], dispatched on the class of the native dtype. *)
Definition dt_dtype (value : native) : result dtype :=
  match value with
  | NumpyDtype d => from_numpy_dtype d
  | DatetimeTZDtype _ tz => from_dask_tzdtype tz
  | CategoricalDtype => from_dask_categorical
  end.

(** The fields [ibis_dtype.timezone] and [ibis_dtype.unit]. *)
Definition timezone (t : dtype) : option string :=
  match t with Timestamp tz => tz | _ => None end.

Definition interval_unit (t : dtype) : string :=
  match t with Interval u => u | _ => "" end.

(** Truth value of an optional string: neither [None] nor empty. *)
Definition truthy (s : option string) : bool :=
  match s with
  | Some s => negb (bool_decide (s = ""))
  | None => false
  end.

(** The constructors of pandas and numpy that parse a string, which are
    parameters of the model. *)
Record dtype_kernels : Type := {
  (* the zone of [DatetimeTZDtype('ns', tz)], by the name it prints as;
     pandas raises for a string that names no zone *)
  zone_name : string -> result string;
  (* [np.dtype('timedelta64[unit]')], by the unit of the dtype that numpy
     builds; numpy raises for a unit it does not know *)
  timedelta64_unit : string -> result string
}.

Section Native.
Variable D : dtype_kernels.

(** [DatetimeTZDtype('ns', tz)]. *)
Definition make_datetimetz (tz : string) : result native :=
  name <- zone_name D tz ;; Ok (DatetimeTZDtype "ns" name).

(** [client.py], lines 182 to 195. *)
Definition ibis_dtype_to_dask (ibis_dtype : dtype) : result native :=
  if isinstance ibis_dtype Classes.Timestamp && truthy (timezone ibis_dtype)
  then make_datetimetz (default "" (timezone ibis_dtype))
  else if isinstance ibis_dtype Classes.Interval
  then
    unit <- timedelta64_unit D (interval_unit ibis_dtype) ;;
    Ok (NumpyDtype (np_timedelta64 (Some unit)))
  else if isinstance ibis_dtype Classes.Category
  then Ok CategoricalDtype
  else match dict_get _ibis_dtypes (type_of ibis_dtype) with
       | Some d => Ok (NumpyDtype d)
       | None => Ok (NumpyDtype np_object)
       end.

(** Logical to native and back. *)
Definition round_trip (t : dtype) : result dtype :=
  d <- ibis_dtype_to_dask t ;; dt_dtype d.

End Native.

(** The classes below [dt.Primitive]. *)
Definition primitive (t : dtype) : bool := isinstance t Classes.Primitive.

(** The types for which the specification allows a loss of metadata:
    those carrying a timezone or an interval unit. *)
Definition carries_metadata (t : dtype) : bool :=
  isinstance t Classes.Timestamp || isinstance t Classes.Interval.

(** [Decimal(9, 2)]. *)
Definition Decimal_9_2 : dtype := Decimal 9 2.

(** The types that map to a native dtype of their own, from which the
    reverse mapping finds them again, whatever pandas and numpy parse. *)
Definition round_trips (t : dtype) : bool :=
  match t with
  | Boolean
  | Int8 | Int16 | Int32 | Int64 | UInt8 | UInt16 | UInt32 | UInt64
  | Float32 | Float64 | Category => true
  | Timestamp None => true
  | _ => false
  end.

(** Kernels for examples.  The zones: ["UTC"] prints as it is written, the
    offset ["+01:00"] prints as ["UTC+01:00"], and any other string names
    no zone (the error of pytz is a [KeyError]).  The units: those of
    numpy print as they are written, and ["Q"], which ibis has and numpy
    has not, raises. *)
Definition sample_dtype_kernels : dtype_kernels :=
  {| zone_name := fun tz =>
       if bool_decide (tz = "UTC") then Ok "UTC"
       else if bool_decide (tz = "+01:00") then Ok "UTC+01:00"
       else Raise (KeyError tz);
     timedelta64_unit := fun unit =>
       if bool_decide
            (unit ∈ ["Y"; "M"; "W"; "D"; "h"; "m"; "s"; "ms"; "us"; "ns"])
       then Ok unit
       else Raise (TypeError "Invalid datetime unit in metadata string") |}.

(** The types that [_ibis_dtypes] stores as Python objects. *)
Definition stored_as_object (t : dtype) : bool :=
  bool_decide (dict_get _ibis_dtypes (type_of t) = Some np_object).

End Datatypes.

(** ** Multiple dispatch *)

Module Dispatch.
Import Classes.

(** A registered signature: one class per argument, the operation class
    first. *)
Definition signature : Type := list cls.

Section Registry.
Context {H : Type}.

(** The table of a dispatcher: registered signatures with their
    implementations, in registration order. *)
Definition funcs : Type := list (signature * H).

(** [register] accepts a tuple of alternatives at each position and
    registers every combination. *)
Fixpoint expand (types : list (list cls)) : list signature :=
  match types with
  | [] => [[]]
  | alternatives :: rest =>
      flat_map (fun c => map (cons c) (expand rest)) alternatives
  end.

(** Registering a signature that is already in the table replaces its
    implementation; a new signature is added after the others. *)
Fixpoint add (table : funcs) (sig : signature) (impl : H) : funcs :=
  match table with
  | [] => [(sig, impl)]
  | (sig', impl') :: rest =>
      if bool_decide (sig' = sig) then (sig, impl) :: rest
      else (sig', impl') :: add rest sig impl
  end.

Definition register (types : list (list cls)) (impl : H) (table : funcs)
  : funcs :=
  fold_left (fun t sig => add t sig impl) (expand types) table.

(** The same implementation registered once per element of a tuple of
    types, as the [for scalar_type in scalar_types] loops do. *)
Definition register_each (each : list cls) (types : cls -> list (list cls))
    (impl : H) (table : funcs) : funcs :=
  fold_left (fun t c => register (types c) impl t) each table.

(** A signature matches the classes of the arguments when it has their
    number and each argument class is a subclass of the signature's. *)
Fixpoint matches (types sig : signature) : bool :=
  match types, sig with
  | [], [] => true
  | t :: types', s :: sig' => issubclass t s && matches types' sig'
  | _, _ => false
  end.

(** [a] is at least as specific as [b]. *)
Definition supercedes (a b : signature) : bool := matches a b.

Definition strictly_supercedes (a b : signature) : bool :=
  supercedes a b && negb (supercedes b a).

Definition candidates (table : funcs) (types : signature) : funcs :=
  filter (fun e => matches types (fst e)) table.

(** The candidates that no other candidate is strictly more specific
    than. *)
Definition most_specific (cands : funcs) : funcs :=
  filter (fun e =>
            negb (existsb (fun e' => strictly_supercedes (fst e') (fst e))
                    cands))
         cands.

(** Modelled from the spec: the dispatcher objects [execute_node] and
    [execute_literal] are created in [ibis.dask.dispatch], which is not
    among the sources.  Resolution selects the most specific registered
    signature whose patterns all match the runtime classes of the
    arguments, position by position; a tie is broken by registration
    order, the later registration winning; [None] stands for
    [NoImplementationFound]. *)
Definition resolve (table : funcs) (types : signature) : option H :=
  option_map snd (last (most_specific (candidates table types))).

End Registry.

Arguments funcs H : clear implicits.

End Dispatch.

(** ** The type tuples of [ibis.dask.core] *)

Module Core.
Import Classes.

(** The tuples of classes that [generic.py] imports from [ibis.dask.core],
    which is not among the sources.  Each tuple holds the runtime classes
    its name states. *)

(** Modelled from the spec: [integer_types] of [ibis.dask.core]; the
    classes of integer scalars. *)
Definition integer_types : list cls := [np_integer; py_int].

(** Modelled from the spec: [floating_types] of [ibis.dask.core]; the
    class of real numbers. *)
Definition floating_types : list cls := [numbers_Real].

(** Modelled from the spec: [numeric_types] of [ibis.dask.core]; integer
    and floating scalars. *)
Definition numeric_types : list cls := integer_types ++ floating_types.

(** Modelled from the spec: [boolean_types] of [ibis.dask.core]; the
    classes of boolean scalars. *)
Definition boolean_types : list cls := [py_bool; np_bool_].

(** Modelled from the spec: [fixed_width_types] of [ibis.dask.core];
    numeric and boolean scalars. *)
Definition fixed_width_types : list cls := numeric_types ++ boolean_types.

(** Modelled from the spec: [timedelta_types] of [ibis.dask.core]; the
    classes of timedelta scalars. *)
Definition timedelta_types : list cls := [pd_Timedelta; dt_timedelta].

(** Modelled from the spec: the temporal scalars of [ibis.dask.core];
    dates, times, timestamps and timedeltas. *)
Definition temporal_types : list cls :=
  [dt_date; dt_time; pd_Timestamp; dt_datetime] ++ timedelta_types.

(** Modelled from the spec: [scalar_types] of [ibis.dask.core]; a scalar
    is a native numeric, boolean or temporal value. *)
Definition scalar_types : list cls := fixed_width_types ++ temporal_types.

(** Modelled from the spec: [simple_types] of [ibis.dask.core]; a scalar,
    a string or [None]. *)
Definition simple_types : list cls := scalar_types ++ [py_str; py_NoneType].

End Core.

(** ** Materialized values *)

Module Values.
Import Datatypes.

(** Scalars.  A float is its IEEE 754 binary64 bit pattern; a timestamp is
    its number of nanoseconds since the epoch with its timezone; a
    timedelta is a number of nanoseconds. *)
Inductive scalar : Type :=
| PyNone
| PyBool (b : bool)
| PyInt (z : Z)
| PyFloat (bits : Z)
| PyStr (s : string)
| NpBool (b : bool)
| NpInt64 (z : Z)
| NpFloat64 (bits : Z)
| PdTimestamp (value : Z) (tz : option string)
| PdTimedelta (value : Z).

#[global] Instance scalar_eq_dec : EqDecision scalar.
Proof. solve_decision. Defined.

(** A float is NaN when its exponent bits are all ones and its fraction is
    not zero. *)
Definition float_is_nan (bits : Z) : bool :=
  (Z.land (Z.shiftr bits 52) 2047 =? 2047) &&
  negb (Z.land bits (2 ^ 52 - 1) =? 0).

Definition float_is_zero (bits : Z) : bool :=
  Z.land bits (2 ^ 63 - 1) =? 0.

(** [pandas.isnull] on a scalar. *)
Definition isnull (v : scalar) : bool :=
  match v with
  | PyNone => true
  | PyFloat bits | NpFloat64 bits => float_is_nan bits
  | _ => false
  end.

(** Truth value of a scalar, as [if v], [not v] and [bool(v)] read it. *)
Definition truth (v : scalar) : bool :=
  match v with
  | PyNone => false
  | PyBool b | NpBool b => b
  | PyInt z | NpInt64 z => negb (z =? 0)
  | PyFloat bits | NpFloat64 bits => negb (float_is_zero bits)
  | PyStr s => negb (bool_decide (s = ""))
  | PdTimestamp _ _ => true
  | PdTimedelta value => negb (value =? 0)
  end.

Definition scalar_class (v : scalar) : Classes.cls :=
  match v with
  | PyNone => Classes.py_NoneType
  | PyBool _ => Classes.py_bool
  | PyInt _ => Classes.py_int
  | PyFloat _ => Classes.py_float
  | PyStr _ => Classes.py_str
  | NpBool _ => Classes.np_bool_
  | NpInt64 _ => Classes.np_int64
  | NpFloat64 _ => Classes.np_float64
  | PdTimestamp _ _ => Classes.pd_Timestamp
  | PdTimedelta _ => Classes.pd_Timedelta
  end.

(** The dtype of the array numpy builds from a scalar. *)
Definition scalar_dtype (v : scalar) : native :=
  match v with
  | PyBool _ | NpBool _ => NumpyDtype np_bool
  | PyInt _ | NpInt64 _ => NumpyDtype np_int64
  | PyFloat _ | NpFloat64 _ => NumpyDtype np_float64
  | PdTimestamp _ None => NumpyDtype (np_datetime64 (Some "ns"))
  | PdTimestamp _ (Some tz) => DatetimeTZDtype "ns" tz
  | PdTimedelta _ => NumpyDtype (np_timedelta64 (Some "ns"))
  | PyNone | PyStr _ => NumpyDtype np_object
  end.

(** A column: its name, dtype, index labels and values, the two lists of
    the same length.  The dask containers are modelled by the pandas
    objects they compute to. *)
Record Series : Type := mkSeries {
  s_name : option string;
  s_dtype : native;
  s_index : list Z;
  s_values : list scalar
}.

(** [len(series)]. *)
Definition series_len (s : Series) : nat := length (s_values s).

(** [dd.Series(data)]: the constructor of a dask series takes a graph, a
    name, a meta and divisions; called with the data alone it raises a
    [TypeError]. *)
Definition dd_Series {A : Type} (data : A) : result Series :=
  Raise (TypeError "__init__() missing required positional arguments").

(** [RangeIndex(n)]. *)
Definition range_index (n : nat) : list Z := map Z.of_nat (seq 0 n).

(** The value of a series at an index label. *)
Fixpoint label_get (index : list Z) (values : list scalar) (label : Z)
  : option scalar :=
  match index, values with
  | i :: index', v :: values' =>
      if i =? label then Some v else label_get index' values' label
  | _, _ => None
  end.

Definition series_at (s : Series) (label : Z) : option scalar :=
  label_get (s_index s) (s_values s) label.

(** A grouping key: a column name or a computed series. *)
Inductive grouping : Type :=
| ByName (name : string)
| BySeries (key : Series).

(** [series.groupby(groupings)]: the series with the keys that partition
    it ([obj] and [grouper.groupings]). *)
Record SeriesGroupBy : Type := mkSeriesGroupBy {
  sg_obj : Series;
  sg_groupings : list grouping
}.

(** A table: column names with their dtypes, and rows, each row with its
    index label and one cell per column. *)
Record DataFrame : Type := mkDataFrame {
  df_columns : list string;
  df_dtypes : list native;
  df_rows : list (Z * list scalar)
}.

(** [len(df)]. *)
Definition frame_len (df : DataFrame) : nat := length (df_rows df).

Record DataFrameGroupBy : Type := mkDataFrameGroupBy {
  dg_obj : DataFrame;
  dg_groupings : list grouping
}.

Inductive value : Type :=
| VScalar (v : scalar)
| VSeries (s : Series)
| VSeriesGroupBy (g : SeriesGroupBy)
| VFrame (df : DataFrame)
| VFrameGroupBy (g : DataFrameGroupBy).

(** [type(value)]. *)
Definition class_of (v : value) : Classes.cls :=
  match v with
  | VScalar s => scalar_class s
  | VSeries _ => Classes.dd_Series
  | VSeriesGroupBy _ => Classes.SeriesGroupBy
  | VFrame _ => Classes.dd_DataFrame
  | VFrameGroupBy _ => Classes.DataFrameGroupBy
  end.

(** [isinstance(x, Sized)]: the classes that define [__len__] are the
    series, the tables and the strings. *)
Definition is_sized (v : value) : bool :=
  match v with
  | VSeries _ | VFrame _ | VScalar (PyStr _) => true
  | _ => false
  end.

(** [len(x)]. *)
Definition py_len (v : value) : result nat :=
  match v with
  | VSeries s => Ok (series_len s)
  | VFrame df => Ok (frame_len df)
  | VScalar (PyStr s) => Ok (String.length s)
  | VSeriesGroupBy _ | VFrameGroupBy _ | VScalar _ =>
      Raise (TypeError "object has no len()")
  end.

(** Series of integers and of booleans over a [RangeIndex]. *)
Definition int_series (xs : list Z) : Series :=
  mkSeries None (NumpyDtype np_int64) (range_index (length xs))
    (map NpInt64 xs).

Definition bool_series (bs : list bool) : Series :=
  mkSeries None (NumpyDtype np_bool) (range_index (length bs))
    (map NpBool bs).

(** Attribute access that succeeds on a series only. *)
Definition as_series (v : value) : result Series :=
  match v with
  | VSeries s => Ok s
  | _ => Raise (AttributeError "object is not a Series")
  end.

Definition as_series_groupby (v : value) : result SeriesGroupBy :=
  match v with
  | VSeriesGroupBy g => Ok g
  | _ => Raise (AttributeError "object is not a SeriesGroupBy")
  end.

Definition as_scalar (v : value) : result scalar :=
  match v with
  | VScalar s => Ok s
  | _ => Raise (TypeError "object is not a scalar")
  end.

End Values.

(** ** Literals *)

Module Literals.
Import Datatypes Values Dispatch.

(** The conversions of Python and pandas that are kept abstract: the
    rounding of an integer to a float, the truncation of a float, the
    parsing of numerals and the [Timedelta] constructor. *)
Record numerics : Type := {
  float_of_int : Z -> result Z;
  int_of_float : Z -> result Z;
  int_of_str : string -> result Z;
  float_of_str : string -> result Z;
  make_timedelta : scalar -> string -> result scalar
}.

Section WithNumerics.
Variable N : numerics.

(** [int(value)]. *)
Definition py_int (v : scalar) : result scalar :=
  match v with
  | PyBool b | NpBool b => Ok (PyInt (if b then 1 else 0))
  | PyInt z | NpInt64 z => Ok (PyInt z)
  | PyFloat bits | NpFloat64 bits =>
      z <- int_of_float N bits ;; Ok (PyInt z)
  | PyStr s => z <- int_of_str N s ;; Ok (PyInt z)
  | PyNone | PdTimestamp _ _ | PdTimedelta _ =>
      Raise (TypeError "int() argument must be a string or a number")
  end.

(** [bool(value)]. *)
Definition py_bool (v : scalar) : result scalar := Ok (PyBool (truth v)).

(** [float(value)]. *)
Definition py_float (v : scalar) : result scalar :=
  match v with
  | PyBool b | NpBool b =>
      f <- float_of_int N (if b then 1 else 0) ;; Ok (PyFloat f)
  | PyInt z | NpInt64 z => f <- float_of_int N z ;; Ok (PyFloat f)
  | PyFloat bits | NpFloat64 bits => Ok (PyFloat bits)
  | PyStr s => f <- float_of_str N s ;; Ok (PyFloat f)
  | PyNone | PdTimestamp _ _ | PdTimedelta _ =>
      Raise (TypeError "float() argument must be a string or a number")
  end.

(** A [Literal] node: the stored value and the declared logical type. *)
Record Literal : Type := mkLiteral {
  lit_value : scalar;
  lit_dtype : dtype
}.

(** [generic.py], lines 51 to 72: the rules for literals. *)
Definition execute_node_literal_value_datatype
    (op : Literal) (value : scalar) (datatype : dtype) : result scalar :=
  Ok value.

Definition execute_node_literal_any_integer_datatype
    (op : Literal) (value : scalar) (datatype : dtype) : result scalar :=
  py_int value.

Definition execute_node_literal_any_boolean_datatype
    (op : Literal) (value : scalar) (datatype : dtype) : result scalar :=
  py_bool value.

Definition execute_node_literal_any_floating_datatype
    (op : Literal) (value : scalar) (datatype : dtype) : result scalar :=
  py_float value.

(** [Timedelta(value, dtype.unit)]. *)
Definition execute_interval_literal
    (op : Literal) (value : scalar) (datatype : dtype) : result scalar :=
  make_timedelta N value (interval_unit datatype).

(** The implementations registered with [execute_literal] for three
    arguments. *)
Inductive literal_impl : Type :=
| literal_value_datatype
| literal_any_integer_datatype
| literal_any_boolean_datatype
| literal_any_floating_datatype
| interval_literal.

Definition run_literal (impl : literal_impl)
  : Literal -> scalar -> dtype -> result scalar :=
  match impl with
  | literal_value_datatype => execute_node_literal_value_datatype
  | literal_any_integer_datatype => execute_node_literal_any_integer_datatype
  | literal_any_boolean_datatype => execute_node_literal_any_boolean_datatype
  | literal_any_floating_datatype => execute_node_literal_any_floating_datatype
  | interval_literal => execute_interval_literal
  end.

(** The registrations of [execute_literal] in [generic.py], in source
    order.  (The two-argument rule for [(Literal, DataType)] has another
    arity and never matches a three-argument call.) *)
Definition execute_literal_funcs : funcs literal_impl :=
  register [[Classes.Literal];
            Core.timedelta_types ++ [Classes.py_str] ++ Core.integer_types;
            [Classes.Interval]] interval_literal
  (register [[Classes.Literal]; [Classes.py_object]; [Classes.Floating]]
     literal_any_floating_datatype
  (register [[Classes.Literal]; [Classes.py_object]; [Classes.Boolean]]
     literal_any_boolean_datatype
  (register [[Classes.Literal]; [Classes.py_object]; [Classes.Integer]]
     literal_any_integer_datatype
  (register [[Classes.Literal]; [Classes.py_object]; [Classes.DataType]]
     literal_value_datatype [])))).

(** [execute_literal(op, op.value, datatype)]. *)
Definition execute_literal (op : Literal) : result scalar :=
  match resolve execute_literal_funcs
          [Classes.Literal; scalar_class (lit_value op);
           type_of (lit_dtype op)] with
  | Some impl => run_literal impl op (lit_value op) (lit_dtype op)
  | None => Raise (NotImplementedError "Could not find signature")
  end.

End WithNumerics.

(** A kernel that rejects every conversion it is asked for; it serves
    where no conversion is needed. *)
Definition no_numerics : numerics :=
  {| float_of_int := fun _ => Raise (NotImplementedError "float_of_int");
     int_of_float := fun _ => Raise (NotImplementedError "int_of_float");
     int_of_str := fun _ => Raise (NotImplementedError "int_of_str");
     float_of_str := fun _ => Raise (NotImplementedError "float_of_str");
     make_timedelta := fun _ _ => Raise (NotImplementedError "Timedelta") |}.

End Literals.

(** ** Cast rules *)

Module Casts.
Import Datatypes Values.

(** The pandas and numpy kernels the cast rules call.  The rules decide
    which kernel runs; the kernels themselves are parameters. *)
Record kernels : Type := {
  (* conversion of the values of a column between two different dtypes *)
  astype_values : native -> native -> list scalar -> result (list scalar);
  (* [map_partitions(to_datetime, ...)], with the unit when one is given *)
  to_datetime : option string -> Series -> result Series;
  series_tz_convert : option string -> Series -> result Series;
  series_tz_localize : option string -> Series -> result Series;
  series_normalize : Series -> result Series;
  (* [data.map(lambda array: list(map(numpy_type, array)))] *)
  map_arrays : native -> Series -> result Series;
  (* [Timestamp(data, tz=tz)] and [str(data)] *)
  make_timestamp : scalar -> option string -> result scalar;
  timestamp_tz_localize : scalar -> option string -> result scalar;
  (* [data.tz_convert(tz)], which raises for a string that names no zone *)
  timestamp_tz_convert : scalar -> string -> result scalar;
  to_pydatetime : scalar -> result scalar;
  py_str : scalar -> string;
  (* the constructors of dtypes *)
  dtypes : dtype_kernels
}.

(** The tables of [ibis.dask.execution.constants], which is not among the
    sources: they are parameters of the rules. *)
Record constants : Type := {
  IBIS_TYPE_TO_DASK_TYPE : dtype -> option native;
  IBIS_TO_PYTHON_LITERAL_TYPES : dtype -> option (scalar -> result scalar)
}.

(** A [Cast] node: the logical type of its argument ([op.arg.type()]) and
    the target type. *)
Record Cast : Type := mkCast {
  arg_type : dtype;
  to : dtype
}.

Section Rules.
Variable K : kernels.
Variable C : constants.

(** [series.astype(dtype)]: a series that already has the dtype comes back
    with the same values. *)
Definition astype (data : Series) (d : native) : result Series :=
  if bool_decide (s_dtype data = d) then Ok data
  else
    values <- astype_values K (s_dtype data) d (s_values data) ;;
    Ok (mkSeries (s_name data) d (s_index data) values).

(** [series.groupby(groupings)]. *)
Definition groupby (s : Series) (groupings : list grouping) : SeriesGroupBy :=
  mkSeriesGroupBy s groupings.

(** [generic.py], lines 98 to 100. *)
Definition execute_cast_series_generic
    (op : Cast) (data : Series) (type : dtype) : result Series :=
  match IBIS_TYPE_TO_DASK_TYPE C type with
  | Some d => astype data d
  | None => Raise (KeyError "IBIS_TYPE_TO_DASK_TYPE")
  end.

(** [data.grouper]: a dask [SeriesGroupBy] has no attribute of that name
    (the grouper is an attribute of the pandas class). *)
Definition grouper (data : SeriesGroupBy) : result (list grouping) :=
  Raise (AttributeError "'SeriesGroupBy' object has no attribute 'grouper'").

(** [generic.py], lines 92 to 95. *)
Definition execute_cast_series_group_by
    (op : Cast) (data : SeriesGroupBy) (type : dtype) : result SeriesGroupBy :=
  result <- execute_cast_series_generic op (sg_obj data) type ;;
  groupings <- grouper data ;;
  Ok (groupby result groupings).

(** [generic.py], lines 103 to 114. *)
Definition execute_cast_series_array
    (op : Cast) (data : Series) (type : dtype) : result Series :=
  match type with
  | Array value_type =>
      match IBIS_TYPE_TO_DASK_TYPE C value_type with
      | None =>
          Raise (ValueError
                   "Array value type must be a primitive type (e.g., number, string, or timestamp)")
      | Some numpy_type => map_arrays K numpy_type data
      end
  | _ => Raise (AttributeError "value_type")
  end.

(** [generic.py], lines 117 to 144. *)
Definition execute_cast_series_timestamp
    (op : Cast) (data : Series) (type : dtype) : result Series :=
  let from_type := arg_type op in
  if equals from_type type then Ok data
  else
    let tz := timezone type in
    if isinstance from_type Classes.Timestamp
       || isinstance from_type Classes.Date
    then
      target <- match tz with
                | None => Ok (NumpyDtype (np_datetime64 (Some "ns")))
                | Some zone => make_datetimetz (dtypes K) zone
                end ;;
      astype data target
    else if isinstance from_type Classes.String
            || isinstance from_type Classes.Integer
    then
      timestamps <- to_datetime K None data ;;
      timestamps <- astype timestamps (s_dtype timestamps) ;;
      match s_dtype timestamps with
      | DatetimeTZDtype _ _ => series_tz_convert K tz timestamps
      | _ => series_tz_localize K tz timestamps
      end
    else Raise (TypeError "Don't know how to cast").

(** [generic.py], lines 147 to 181; only a [TypeError] of [tz_convert]
    is passed over. *)
Definition execute_cast_series_date
    (op : Cast) (data : Series) (type : dtype) : result Series :=
  let from_type := arg_type op in
  if equals from_type type then Ok data
  else if isinstance from_type Classes.Timestamp
  then series_normalize K data
  else if equals from_type String
  then
    datetimes <- to_datetime K None data ;;
    match series_tz_convert K None datetimes with
    | Ok converted => series_normalize K converted
    | Raise (TypeError _) => series_normalize K datetimes
    | Raise e => Raise e
    end
  else if isinstance from_type Classes.Integer
  then to_datetime K (Some "D") data
  else Raise (TypeError "Don't know how to cast").

(** [generic.py], lines 298 to 318: the casts of [None], datetimes and
    timestamps. *)
Definition execute_cast_null_to_anything
    (op : Cast) (data : scalar) (type : dtype) : result scalar :=
  Ok PyNone.

Definition execute_cast_datetime_or_timestamp_to_string
    (op : Cast) (data : scalar) (type : dtype) : result scalar :=
  Ok (PyStr (py_str K data)).

Definition execute_cast_datetime_to_integer
    (op : Cast) (data : scalar) (type : dtype) : result scalar :=
  stamp <- make_timestamp K data None ;;
  match stamp with
  | PdTimestamp value _ => Ok (PyInt value)
  | _ => Raise (AttributeError "value")
  end.

Definition execute_cast_timestamp_to_integer
    (op : Cast) (data : scalar) (type : dtype) : result scalar :=
  match data with
  | PdTimestamp value _ => Ok (PyInt value)
  | _ => Raise (AttributeError "value")
  end.

(** [generic.py], lines 321 to 338: the messages and the two rules that
    reject a boolean. *)
Definition bool_to_timestamp_message : string :=
  "Casting boolean values to timestamps does not make sense. If you really want to cast boolean values to timestamps please cast to int64 first then to timestamp: value.cast('int64').cast('timestamp')".

Definition bool_to_interval_message : string :=
  "Casting boolean values to intervals does not make sense. If you really want to cast boolean values to intervals please cast to int64 first then to interval: value.cast('int64').cast(ibis.expr.datatypes.Interval(...))".

Definition execute_cast_bool_to_timestamp
    (op : Cast) (data : scalar) (type : dtype) : result scalar :=
  Raise (TypeError bool_to_timestamp_message).

Definition execute_cast_bool_to_interval
    (op : Cast) (data : scalar) (type : dtype) : result scalar :=
  Raise (TypeError bool_to_interval_message).

(** [generic.py], lines 341 to 344. *)
Definition execute_cast_simple_literal_to_timestamp
    (op : Cast) (data : scalar) (type : dtype) : result scalar :=
  make_timestamp K data (timezone type).

(** [generic.py], lines 347 to 359.  [data.tz] is a tzinfo object and
    [type.timezone] a string or [None]: the two compare equal only when
    both are [None]. *)
Definition execute_cast_timestamp_to_timestamp
    (op : Cast) (data : scalar) (type : dtype) : result scalar :=
  match data with
  | PdTimestamp value input_timezone =>
      let target_timezone := timezone type in
      match input_timezone, target_timezone with
      | None, None => Ok data
      | None, _ | _, None => timestamp_tz_localize K data target_timezone
      | Some _, Some target => timestamp_tz_convert K data target
      end
  | _ => Raise (AttributeError "tz")
  end.

(** [generic.py], lines 362 to 366. *)
Definition execute_cast_datetime_to_datetime
    (op : Cast) (data : scalar) (type : dtype) : result scalar :=
  converted <- execute_cast_timestamp_to_timestamp op data type ;;
  to_pydatetime K converted.

(** [generic.py], lines 369 to 378: a missing key is reported as a
    [TypeError]. *)
Definition execute_cast_string_literal
    (op : Cast) (data : scalar) (type : dtype) : result scalar :=
  match IBIS_TO_PYTHON_LITERAL_TYPES C type with
  | None => Raise (TypeError "Don't know how to cast")
  | Some cast_function => cast_function data
  end.

End Rules.

(** Kernels that reject every call; they serve where no kernel is
    reached. *)
Definition no_kernels : kernels :=
  {| astype_values := fun _ _ _ => Raise (NotImplementedError "astype");
     to_datetime := fun _ _ => Raise (NotImplementedError "to_datetime");
     series_tz_convert := fun _ _ => Raise (NotImplementedError "tz_convert");
     series_tz_localize := fun _ _ => Raise (NotImplementedError "tz_localize");
     series_normalize := fun _ => Raise (NotImplementedError "normalize");
     map_arrays := fun _ _ => Raise (NotImplementedError "map");
     make_timestamp := fun _ _ => Raise (NotImplementedError "Timestamp");
     timestamp_tz_localize :=
       fun _ _ => Raise (NotImplementedError "tz_localize");
     timestamp_tz_convert :=
       fun _ _ => Raise (NotImplementedError "tz_convert");
     to_pydatetime := fun _ => Raise (NotImplementedError "to_pydatetime");
     py_str := fun _ => "";
     dtypes := sample_dtype_kernels |}.

(** Modelled from the spec: the tables of [ibis.dask.execution.constants]
    are not among the sources.  [IBIS_TYPE_TO_DASK_TYPE] holds the
    primitive types (numbers, strings, timestamps), as the message of
    [execute_cast_series_array] says of it, and
    [IBIS_TO_PYTHON_LITERAL_TYPES] the Python constructors of the boolean,
    integer and floating types. *)
Definition primitive_constants : constants :=
  {| IBIS_TYPE_TO_DASK_TYPE := fun t =>
       match t with
       | Boolean => Some (NumpyDtype np_bool)
       | Int8 => Some (NumpyDtype np_int8)
       | Int16 => Some (NumpyDtype np_int16)
       | Int32 => Some (NumpyDtype np_int32)
       | Int64 => Some (NumpyDtype np_int64)
       | Float32 => Some (NumpyDtype np_float32)
       | Float64 => Some (NumpyDtype np_float64)
       | String => Some (NumpyDtype np_str)
       | Timestamp None => Some (NumpyDtype (np_datetime64 (Some "ns")))
       | _ => None
       end;
     IBIS_TO_PYTHON_LITERAL_TYPES := fun t =>
       match t with
       | Boolean => Some Literals.py_bool
       | Int8 | Int16 | Int32 | Int64 =>
           Some (Literals.py_int Literals.no_numerics)
       | Float32 | Float64 => Some (Literals.py_float Literals.no_numerics)
       | _ => None
       end |}.

End Casts.

(** ** Where rules *)

Module Wheres.
Import Datatypes Values.

Section Rules.
(** numpy's dtype promotion for the column that [where] builds from the
    kept values and the replacement. *)
Variable result_type : native -> native -> native.

(** [np.repeat(obj, n)] on a scalar. *)
Definition np_repeat (obj : scalar) (n : nat) : list scalar := repeat obj n.

(** [dd.from_array(values)]: a new series over an array, with the default
    name and a [RangeIndex]. *)
Definition series_of_array (d : native) (values : list scalar) : Series :=
  mkSeries None d (range_index (length values)) values.

(** The NaN that pandas fills in where an aligned operand has no value. *)
Definition nan : scalar := PyFloat 9221120237041090560.

(** [self.where(cond, other)]: at each label of [self], the value of [self]
    where [cond] holds and the replacement elsewhere.  [cond] and a series
    replacement are aligned on the labels of [self]; where [cond] has no
    value for a label it counts as false. *)
Definition series_where (self cond : Series) (other : value)
  : result Series :=
  match other with
  | VScalar o =>
      Ok (mkSeries (s_name self) (result_type (s_dtype self) (scalar_dtype o))
            (s_index self)
            (map (fun '(label, x) =>
                    if truth (default (PyBool false) (series_at cond label))
                    then x else o)
               (combine (s_index self) (s_values self))))
  | VSeries o =>
      Ok (mkSeries (s_name self) (result_type (s_dtype self) (s_dtype o))
            (s_index self)
            (map (fun '(label, x) =>
                    if truth (default (PyBool false) (series_at cond label))
                    then x else default nan (series_at o label))
               (combine (s_index self) (s_values self))))
  | _ => Raise (ValueError "other must be a scalar or a series")
  end.

(** Registered for (Series, Series, Series) and (Series, Series, scalar). *)
Definition execute_node_where_series_series_series
    (cond true_ false_ : value) : result value :=
  self <- as_series true_ ;;
  cond <- as_series cond ;;
  out <- series_where self cond false_ ;;
  Ok (VSeries out).

(** Registered for (Series, scalar, scalar), once per scalar type:
    [dd.Series(np.repeat(true, len(cond))).where(cond, other=false)]. *)
Definition execute_node_where_series_scalar_scalar
    (cond true_ false_ : value) : result value :=
  n <- py_len cond ;;
  t <- as_scalar true_ ;;
  repeated <- dd_Series (np_repeat t n) ;;
  cond <- as_series cond ;;
  out <- series_where repeated cond false_ ;;
  Ok (VSeries out).

(** Truth value of a condition: a scalar's, while a series of more than one
    element has none. *)
Definition value_truth (v : value) : result bool :=
  match v with
  | VScalar s => Ok (truth s)
  | _ => Raise (ValueError "The truth value of a Series is ambiguous")
  end.

(** Registered for (boolean, Series, Series) and for (boolean, scalar,
    scalar), once per scalar type. *)
Definition execute_node_where_scalar_scalar_scalar
    (cond true_ false_ : value) : result value :=
  c <- value_truth cond ;;
  Ok (if c then true_ else false_).

(** Registered for (boolean, Series, scalar). *)
Definition execute_node_where_scalar_series_scalar
    (cond true_ false_ : value) : result value :=
  c <- value_truth cond ;;
  if c then Ok true_
  else
    n <- py_len true_ ;;
    f <- as_scalar false_ ;;
    self <- as_series true_ ;;
    Ok (VSeries (mkSeries None (scalar_dtype f) (s_index self)
                   (np_repeat f n))).

(** Registered for (boolean, scalar, Series). *)
Definition execute_node_where_scalar_scalar_series
    (cond true_ false_ : value) : result value :=
  c <- value_truth cond ;;
  if c then
    n <- py_len false_ ;;
    t <- as_scalar true_ ;;
    Ok (VSeries (series_of_array (scalar_dtype t) (np_repeat t n)))
  else Ok false_.

End Rules.

End Wheres.

(** ** The [execute_node] dispatcher *)

Module ExecuteNode.
Import Datatypes Values Dispatch Casts Wheres.

(** The rules of [generic.py] registered for [Cast] and [Where]. *)
Inductive impl : Type :=
| cast_series_group_by
| cast_series_generic
| cast_series_array
| cast_series_timestamp
| cast_series_date
| cast_null_to_anything
| cast_datetime_or_timestamp_to_string
| cast_datetime_to_integer
| cast_timestamp_to_integer
| cast_bool_to_timestamp
| cast_bool_to_interval
| cast_simple_literal_to_timestamp
| cast_timestamp_to_timestamp
| cast_datetime_to_datetime
| cast_string_literal
| where_series_series_series
| where_series_scalar_scalar
| where_scalar_scalar_scalar
| where_scalar_series_scalar
| where_scalar_scalar_series.

#[global] Instance impl_eq_dec : EqDecision impl.
Proof. solve_decision. Defined.

(** The registrations for [Cast] and [Where], in source order (stacked
    decorators register bottom-up).  The rules for the other operations
    are registered under operation classes that are not base classes of
    [Cast] or [Where], and so never match a call for these two. *)
Definition execute_node_funcs : funcs impl :=
  let S := [Classes.dd_Series] in
  let W := [Classes.Where] in
  let Ca := [Classes.Cast] in
  fold_left (fun table r => r table)
    [ register [Ca; [Classes.SeriesGroupBy]; [Classes.DataType]]
        cast_series_group_by;
      register [Ca; S; [Classes.DataType]] cast_series_generic;
      register [Ca; S; [Classes.Array]] cast_series_array;
      register [Ca; S; [Classes.Timestamp]] cast_series_timestamp;
      register [Ca; S; [Classes.Date]] cast_series_date;
      register [Ca; [Classes.py_NoneType]; [Classes.DataType]]
        cast_null_to_anything;
      register [Ca; [Classes.dt_datetime]; [Classes.String]]
        cast_datetime_or_timestamp_to_string;
      register [Ca; [Classes.dt_datetime]; [Classes.Int64]]
        cast_datetime_to_integer;
      register [Ca; [Classes.pd_Timestamp]; [Classes.Int64]]
        cast_timestamp_to_integer;
      register [Ca; [Classes.np_bool_; Classes.py_bool]; [Classes.Timestamp]]
        cast_bool_to_timestamp;
      register [Ca; [Classes.np_bool_; Classes.py_bool]; [Classes.Interval]]
        cast_bool_to_interval;
      register [Ca; Core.integer_types ++ [Classes.py_str];
                [Classes.Timestamp]]
        cast_simple_literal_to_timestamp;
      register [Ca; [Classes.pd_Timestamp]; [Classes.Timestamp]]
        cast_timestamp_to_timestamp;
      register [Ca; [Classes.dt_datetime]; [Classes.Timestamp]]
        cast_datetime_to_datetime;
      register [Ca; Core.fixed_width_types ++ [Classes.py_str];
                [Classes.DataType]]
        cast_string_literal;
      register [W; S; S; Core.scalar_types] where_series_series_series;
      register [W; S; S; S] where_series_series_series;
      register_each Core.scalar_types
        (fun scalar_type => [W; S; [scalar_type]; [scalar_type]])
        where_series_scalar_scalar;
      register [W; Core.boolean_types; S; S] where_scalar_scalar_scalar;
      register_each Core.scalar_types
        (fun scalar_type =>
           [W; Core.boolean_types; [scalar_type]; [scalar_type]])
        where_scalar_scalar_scalar;
      register [W; Core.boolean_types; S; Core.scalar_types]
        where_scalar_series_scalar;
      register [W; Core.boolean_types; Core.scalar_types; S]
        where_scalar_scalar_series ]
    [].

(** The only registration that matches a grouped series under [Cast]. *)
Definition grouped_entry : signature * impl :=
  ([Classes.Cast; Classes.SeriesGroupBy; Classes.DataType],
   cast_series_group_by).

(** Resolution is unambiguous for the classes [types] when at most one
    matching registration is most specific, so that no tie has to be
    broken. *)
Definition unambiguous (types : signature) : bool :=
  Nat.leb (length (most_specific (candidates execute_node_funcs types))) 1.

(** The classes of the materialized values and of the logical types. *)
Definition value_classes : list Classes.cls :=
  [ Classes.py_NoneType; Classes.py_bool; Classes.py_int; Classes.py_float;
    Classes.py_str; Classes.np_bool_; Classes.np_int64; Classes.np_float64;
    Classes.pd_Timestamp; Classes.pd_Timedelta; Classes.dd_Series;
    Classes.SeriesGroupBy; Classes.dd_DataFrame; Classes.DataFrameGroupBy ].

Definition dtype_classes : list Classes.cls :=
  [ Classes.Null; Classes.Boolean; Classes.Int8; Classes.Int16;
    Classes.Int32; Classes.Int64; Classes.UInt8; Classes.UInt16;
    Classes.UInt32; Classes.UInt64; Classes.Float16; Classes.Float32;
    Classes.Float64; Classes.String; Classes.Binary; Classes.Date;
    Classes.Time; Classes.Timestamp; Classes.Interval; Classes.Decimal;
    Classes.Category; Classes.Array; Classes.Struct ].

(** The operation node of a call. *)
Inductive node : Type :=
| NCast (op : Cast)
| NWhere.

Definition node_class (n : node) : Classes.cls :=
  match n with
  | NCast _ => Classes.Cast
  | NWhere => Classes.Where
  end.

(** An evaluated operand: a materialized value, or a logical type (the
    target of a cast is passed as it is). *)
Inductive arg : Type :=
| AValue (v : value)
| AType (t : dtype).

Definition arg_class (a : arg) : Classes.cls :=
  match a with
  | AValue v => class_of v
  | AType t => type_of t
  end.

Section Run.
Variable K : kernels.
Variable C : constants.
Variable result_type : native -> native -> native.

Definition on_series (f : Series -> result Series) (v : value)
  : result value :=
  s <- as_series v ;; out <- f s ;; Ok (VSeries out).

Definition on_scalar (f : scalar -> result scalar) (v : value)
  : result value :=
  s <- as_scalar v ;; out <- f s ;; Ok (VScalar out).

Definition run_cast (i : impl) (op : Cast) (data : value) (type : dtype)
  : result value :=
  match i with
  | cast_series_group_by =>
      g <- as_series_groupby data ;;
      out <- execute_cast_series_group_by K C op g type ;;
      Ok (VSeriesGroupBy out)
  | cast_series_generic =>
      on_series (fun s => execute_cast_series_generic K C op s type) data
  | cast_series_array =>
      on_series (fun s => execute_cast_series_array K C op s type) data
  | cast_series_timestamp =>
      on_series (fun s => execute_cast_series_timestamp K op s type) data
  | cast_series_date =>
      on_series (fun s => execute_cast_series_date K op s type) data
  | cast_null_to_anything =>
      on_scalar (fun s => execute_cast_null_to_anything op s type) data
  | cast_datetime_or_timestamp_to_string =>
      on_scalar
        (fun s => execute_cast_datetime_or_timestamp_to_string K op s type)
        data
  | cast_datetime_to_integer =>
      on_scalar (fun s => execute_cast_datetime_to_integer K op s type) data
  | cast_timestamp_to_integer =>
      on_scalar (fun s => execute_cast_timestamp_to_integer op s type) data
  | cast_bool_to_timestamp =>
      on_scalar (fun s => execute_cast_bool_to_timestamp op s type) data
  | cast_bool_to_interval =>
      on_scalar (fun s => execute_cast_bool_to_interval op s type) data
  | cast_simple_literal_to_timestamp =>
      on_scalar
        (fun s => execute_cast_simple_literal_to_timestamp K op s type) data
  | cast_timestamp_to_timestamp =>
      on_scalar (fun s => execute_cast_timestamp_to_timestamp K op s type)
        data
  | cast_datetime_to_datetime =>
      on_scalar (fun s => execute_cast_datetime_to_datetime K op s type) data
  | cast_string_literal =>
      on_scalar (fun s => execute_cast_string_literal C op s type) data
  | _ => Raise (TypeError "not a rule for Cast")
  end.

Definition run_where (i : impl) (cond true_ false_ : value) : result value :=
  match i with
  | where_series_series_series =>
      execute_node_where_series_series_series result_type cond true_ false_
  | where_series_scalar_scalar =>
      execute_node_where_series_scalar_scalar result_type cond true_ false_
  | where_scalar_scalar_scalar =>
      execute_node_where_scalar_scalar_scalar cond true_ false_
  | where_scalar_series_scalar =>
      execute_node_where_scalar_series_scalar cond true_ false_
  | where_scalar_scalar_series =>
      execute_node_where_scalar_scalar_series cond true_ false_
  | _ => Raise (TypeError "not a rule for Where")
  end.

(** Calling a rule with the node and its evaluated operands. *)
Definition run (i : impl) (op : node) (args : list arg) : result value :=
  match op, args with
  | NCast c, [AValue data; AType type] => run_cast i c data type
  | NWhere, [AValue cond; AValue true_; AValue false_] =>
      run_where i cond true_ false_
  | _, _ => Raise (TypeError "wrong arguments for the rule")
  end.

(** [execute_node(op, args...)]: resolve on the classes of the node and of
    its operands, then call the rule found. *)
Definition execute_node (op : node) (args : list arg) : result value :=
  match resolve execute_node_funcs (node_class op :: map arg_class args) with
  | Some i => run i op args
  | None => Raise (NotImplementedError "Could not find signature")
  end.

(** The evaluation of a [Where] node on its three evaluated operands. *)
Definition execute_where (cond true_ false_ : value) : result value :=
  execute_node NWhere [AValue cond; AValue true_; AValue false_].

End Run.

End ExecuteNode.

(** ** Tables: selection, comparison and the table leaf *)

Module Frames.
Import Datatypes Values.

(** A number as [mantissa * 2 ^ exponent], or an infinity. *)
Inductive number : Type :=
| Finite (mantissa exponent : Z)
| Infinite (negative : bool).

(** The number a non-NaN float denotes. *)
Definition float_number (bits : Z) : number :=
  let negative := Z.testbit bits 63 in
  let e := Z.land (Z.shiftr bits 52) 2047 in
  let f := Z.land bits (2 ^ 52 - 1) in
  let sign := if negative then -1 else 1 in
  if e =? 2047 then Infinite negative
  else if e =? 0 then Finite (sign * f) (-1074)
  else Finite (sign * (f + 2 ^ 52)) (e - 1075).

Definition number_compare (a b : number) : comparison :=
  match a, b with
  | Infinite x, Infinite y =>
      if bool_decide (x = y) then Eq else if x then Lt else Gt
  | Infinite x, Finite _ _ => if x then Lt else Gt
  | Finite _ _, Infinite y => if y then Gt else Lt
  | Finite m1 e1, Finite m2 e2 =>
      let e := Z.min e1 e2 in
      Z.compare (m1 * 2 ^ (e1 - e)) (m2 * 2 ^ (e2 - e))
  end.

(** The number of a numeric scalar; [None] for the others and for NaN. *)
Definition numeric (v : scalar) : option number :=
  match v with
  | PyBool b | NpBool b => Some (Finite (if b then 1 else 0) 0)
  | PyInt z | NpInt64 z => Some (Finite z 0)
  | PyFloat bits | NpFloat64 bits =>
      if float_is_nan bits then None else Some (float_number bits)
  | _ => None
  end.

Definition is_numeric (v : scalar) : bool :=
  match v with
  | PyBool _ | NpBool _ | PyInt _ | NpInt64 _ | PyFloat _ | NpFloat64 _ => true
  | _ => false
  end.

(** Ordering of two cells: [None] when one of them is null (every
    comparison with a null is false); a [TypeError] for operands that
    Python does not order. *)
Definition cell_compare (a b : scalar) : result (option comparison) :=
  if isnull a || isnull b then Ok None
  else
    match a, b with
    | PdTimestamp x tzx, PdTimestamp y tzy =>
        if bool_decide (is_Some tzx <-> is_Some tzy)
        then Ok (Some (Z.compare x y))
        else Raise (TypeError
                      "Cannot compare tz-naive and tz-aware timestamps")
    | PdTimedelta x, PdTimedelta y => Ok (Some (Z.compare x y))
    | PyStr x, PyStr y => Ok (Some (String.compare x y))
    | _, _ =>
        match numeric a, numeric b with
        | Some x, Some y => Ok (Some (number_compare x y))
        | _, _ => Raise (TypeError "'<=' not supported between instances")
        end
    end.

(** [a <= b]. *)
Definition cell_le (a b : scalar) : result bool :=
  c <- cell_compare a b ;;
  Ok match c with
     | Some Lt | Some Eq => true
     | _ => false
     end.

(** [series.between(left, right)]: both bounds are inclusive. *)
Definition between (s : Series) (left right : scalar) : result Series :=
  mask <- traverse (fun x =>
                      ge <- cell_le left x ;;
                      le <- cell_le x right ;;
                      Ok (NpBool (ge && le)))
            (s_values s) ;;
  Ok (mkSeries (s_name s) (NumpyDtype np_bool) (s_index s) mask).

Fixpoint column_position (name : string) (columns : list string)
  : option nat :=
  match columns with
  | [] => None
  | c :: rest =>
      if bool_decide (c = name) then Some O
      else option_map S (column_position name rest)
  end.

(** [name in df]. *)
Definition has_column (df : DataFrame) (name : string) : bool :=
  bool_decide (is_Some (column_position name (df_columns df))).

Definition frame_index (df : DataFrame) : list Z := map fst (df_rows df).

(** [df[name]]. *)
Definition getitem (df : DataFrame) (name : string) : result Series :=
  match column_position name (df_columns df) with
  | None => Raise (KeyError name)
  | Some k =>
      Ok (mkSeries (Some name)
            (nth k (df_dtypes df) (NumpyDtype np_object))
            (frame_index df)
            (map (fun row => nth k (snd row) PyNone) (df_rows df)))
  end.

Definition is_bool_cell (v : scalar) : bool :=
  match v with
  | PyBool _ | NpBool _ => true
  | _ => false
  end.

(** The rows at the positions where the mask holds. *)
Fixpoint select {A : Type} (rows : list A) (mask : list bool) : list A :=
  match rows, mask with
  | r :: rows', m :: mask' =>
      if m then r :: select rows' mask' else select rows' mask'
  | _, _ => []
  end.

Section Selection.
(** Selection by labels, which [loc] does when its key is not boolean, is
    left to pandas. *)
Variable loc_labels : DataFrame -> list scalar -> result DataFrame.

(** [df.loc[mask]] for a series: a boolean mask with the index of the table
    selects by position; another boolean mask is first aligned on the
    labels of the table and must cover them. *)
Definition loc_series (df : DataFrame) (mask : Series) : result DataFrame :=
  if forallb is_bool_cell (s_values mask) then
    if bool_decide (s_index mask = frame_index df) then
      Ok (mkDataFrame (df_columns df) (df_dtypes df)
            (select (df_rows df) (map truth (s_values mask))))
    else
      aligned <- traverse
                   (fun label =>
                      match series_at mask label with
                      | Some c => Ok (truth c)
                      | None =>
                          Raise (IndexingError
                                   "Unalignable boolean Series provided as indexer")
                      end)
                   (frame_index df) ;;
      Ok (mkDataFrame (df_columns df) (df_dtypes df)
            (select (df_rows df) aligned))
  else loc_labels df (s_values mask).

(** [df.loc[array]] for an array: a boolean array must have the length of
    the table and selects by position. *)
Definition loc_array (df : DataFrame) (mask : list scalar)
  : result DataFrame :=
  if forallb is_bool_cell mask then
    if bool_decide (length mask = frame_len df) then
      Ok (mkDataFrame (df_columns df) (df_dtypes df)
            (select (df_rows df) (map truth mask)))
    else Raise (IndexingError "Boolean index has wrong length")
  else loc_labels df mask.

End Selection.

(** The columns of a table that carry the name [name], as a table. *)
Definition columns_named (df : DataFrame) (name : string) : DataFrame :=
  let mask := map (fun c => bool_decide (c = name)) (df_columns df) in
  mkDataFrame (select (df_columns df) mask) (select (df_dtypes df) mask)
    (map (fun row => (fst row, select (snd row) mask)) (df_rows df)).

(** [df[name]] where a name may label several columns: a name that labels
    one column selects it as a series, a name that labels several selects
    them as a table. *)
Definition getitem_value (df : DataFrame) (name : string) : result value :=
  if Nat.leb 2 (length (df_columns (columns_named df name)))
  then Ok (VFrame (columns_named df name))
  else s <- getitem df name ;; Ok (VSeries s).

(** What [df.reset_index(drop=True)] gives on a table of one partition:
    the rows are labelled from zero.  (On a table of several partitions
    dask starts again from zero in each partition.) *)
Definition reset_index_one_partition (df : DataFrame) : DataFrame :=
  mkDataFrame (df_columns df) (df_dtypes df)
    (combine (range_index (frame_len df)) (map snd (df_rows df))).

(** A client holds its tables by name. *)
Record DaskClient : Type := mkDaskClient {
  dictionary : gmap string DataFrame
}.

(** A table node: the name of its table. *)
Record DaskTable : Type := mkDaskTable {
  name : string
}.

(** A time context: the pair [(begin, end)]. *)
Definition TimeContext : Type := (scalar * scalar)%type.

Section Leaf.
Variable loc_labels : DataFrame -> list scalar -> result DataFrame.
(** [df.reset_index(drop=True)] of dask, which keeps the rows and gives
    them new labels, partition by partition; how a table is partitioned
    is not part of this model of a table. *)
Variable reset_index_drop : DataFrame -> DataFrame.
(** [ibis.expr.timecontext.TIME_COL], the name of the time column. *)
Variable TIME_COL : string.

(** [generic.py], lines 942 to 959. *)
Definition execute_database_table_client
    (op : DaskTable) (client : DaskClient) (timecontext : option TimeContext)
  : result DataFrame :=
  match dictionary client !! name op with
  | None => Raise (KeyError (name op))
  | Some df =>
      match timecontext with
      | Some (begin, end_) =>
          if negb (has_column df TIME_COL) then
            Raise (IbisError
                     "Table must have a time column to execute with time context.")
          else
            column <- getitem_value df TIME_COL ;;
            match column with
            | VSeries column =>
                mask <- between column begin end_ ;;
                selected <- loc_series loc_labels df mask ;;
                Ok (reset_index_drop selected)
            | _ =>
                Raise (AttributeError
                         "'DataFrame' object has no attribute 'between'")
            end
      | None => Ok df
      end
  end.

End Leaf.

(** The instant of a timestamp, with whether it carries a timezone. *)
Definition instant (c : scalar) : option (Z * bool) :=
  match c with
  | PdTimestamp value tz => Some (value, bool_decide (is_Some tz))
  | _ => None
  end.

(** The cell is a timestamp at an instant [t] with [b <= t <= e]. *)
Definition within (b e : Z) (c : scalar) : bool :=
  match instant c with
  | Some (t, _) => (b <=? t) && (t <=? e)
  | None => false
  end.

(** The cell of a row in the column at position [k]. *)
Definition cell (k : nat) (row : Z * list scalar) : scalar :=
  nth k (snd row) PyNone.

(** A table of two columns, the time column and a value column, with one
    row per pair, labelled from zero. *)
Definition timed_table (rows : list (Z * Z)) : DataFrame :=
  mkDataFrame ["time"; "v"]
    [NumpyDtype (np_datetime64 (Some "ns")); NumpyDtype np_int64]
    (combine (range_index (length rows))
       (map (fun '(t, v) => [PdTimestamp t None; NpInt64 v]) rows)).

(** A selection by labels that is never reached. *)
Definition no_loc_labels (df : DataFrame) (key : list scalar)
  : result DataFrame :=
  Raise (NotImplementedError "loc").

End Frames.

(** ** The aggregation rule *)

Module Aggregations.
Import Datatypes Values Frames.

(** An [Aggregation] node over expressions of type [Expr]. *)
Record Aggregation (Expr : Type) : Type := mkAggregation {
  table : Expr;
  metrics : list Expr;
  by_ : list Expr;
  having : list Expr;
  predicates : list Expr;
  sort_keys : list Expr
}.

Arguments mkAggregation {Expr}.
Arguments table {Expr}.
Arguments metrics {Expr}.
Arguments by_ {Expr}.
Arguments having {Expr}.
Arguments predicates {Expr}.
Arguments sort_keys {Expr}.

(** What the rule uses of the expression layer and of the evaluator
    ([ibis.dask.core.execute], [ibis.expr.scope]), none of which is among
    the sources. *)
Record evaluator (Expr Scope : Type) : Type := {
  execute : Expr -> Scope -> option TimeContext -> result value;
  get_name : Expr -> string;
  (* the column name when [by.op()] is a [TableColumn] *)
  table_column_name : Expr -> option string;
  (* [by.op().name] when the operation has a name *)
  op_name : Expr -> option string;
  make_scope : Expr -> value -> option TimeContext -> Scope;
  merge_scope : Scope -> Scope -> Scope
}.

Arguments execute {Expr Scope}.
Arguments get_name {Expr Scope}.
Arguments table_column_name {Expr Scope}.
Arguments op_name {Expr Scope}.
Arguments make_scope {Expr Scope}.
Arguments merge_scope {Expr Scope}.

(** The pandas kernels the rule calls. *)
Record pandas : Type := {
  (* [dd.concat(pieces, axis=1)] *)
  concat : list value -> result DataFrame;
  (* [result.reset_index()], which turns the group keys into columns *)
  reset_index : DataFrame -> DataFrame;
  loc_labels : DataFrame -> list scalar -> result DataFrame;
  (* [a & b] for two series with different indexes *)
  align_and : Series -> Series -> result Series;
  result_type : native -> native -> native
}.

Section Rule.
Context {Expr Scope : Type}.
Variable E : evaluator Expr Scope.
Variable P : pandas.

Definition bool_like (v : scalar) : option bool :=
  match v with
  | PyBool b | NpBool b => Some b
  | _ => None
  end.

Definition int_like (v : scalar) : option Z :=
  match v with
  | PyBool b | NpBool b => Some (if b then 1 else 0)
  | PyInt z | NpInt64 z => Some z
  | _ => None
  end.

(** [a & b] on scalars: conjunction of booleans, bitwise and of
    integers. *)
Definition cell_and (a b : scalar) : result scalar :=
  match bool_like a, bool_like b with
  | Some x, Some y => Ok (NpBool (x && y))
  | _, _ =>
      match int_like a, int_like b with
      | Some x, Some y => Ok (PyInt (Z.land x y))
      | _, _ => Raise (TypeError "unsupported operand type(s) for &")
      end
  end.

Fixpoint zip_and (xs ys : list scalar) : result (list scalar) :=
  match xs, ys with
  | x :: xs', y :: ys' =>
      c <- cell_and x y ;; rest <- zip_and xs' ys' ;; Ok (c :: rest)
  | _, _ => Ok []
  end.

(** [operator.and_(a, b)]. *)
Definition and_ (a b : value) : result value :=
  match a, b with
  | VScalar x, VScalar y => c <- cell_and x y ;; Ok (VScalar c)
  | VSeries x, VSeries y =>
      if bool_decide (s_index x = s_index y) then
        values <- zip_and (s_values x) (s_values y) ;;
        Ok (VSeries (mkSeries (s_name x)
                       (result_type P (s_dtype x) (s_dtype y))
                       (s_index x) values))
      else out <- align_and P x y ;; Ok (VSeries out)
  | VSeries x, VScalar y =>
      values <- traverse (fun c => cell_and c y) (s_values x) ;;
      Ok (VSeries (mkSeries (s_name x)
                     (result_type P (s_dtype x) (scalar_dtype y))
                     (s_index x) values))
  | VScalar x, VSeries y =>
      values <- traverse (fun c => cell_and x c) (s_values y) ;;
      Ok (VSeries (mkSeries (s_name y)
                     (result_type P (scalar_dtype x) (s_dtype y))
                     (s_index y) values))
  | _, _ => Raise (TypeError "unsupported operand type(s) for &")
  end.

(** [functools.reduce(operator.and_, (execute(e, ...) for e in exprs))]:
    the generator is consumed as the reduction goes. *)
Fixpoint reduce_and (acc : value) (exprs : list Expr)
    (scope : Scope) (timecontext : option TimeContext) : result value :=
  match exprs with
  | [] => Ok acc
  | e :: rest =>
      v <- execute E e scope timecontext ;;
      acc' <- and_ acc v ;;
      reduce_and acc' rest scope timecontext
  end.

Definition conjunction (exprs : list Expr)
    (scope : Scope) (timecontext : option TimeContext) : result value :=
  match exprs with
  | [] => Raise (TypeError "reduce() of empty sequence with no initial value")
  | e :: rest =>
      v <- execute E e scope timecontext ;;
      reduce_and v rest scope timecontext
  end.

(** [data.loc[predicate]]. *)
Definition loc (data : DataFrame) (predicate : value) : result DataFrame :=
  match predicate with
  | VSeries mask => loc_series (loc_labels P) data mask
  | VScalar c => loc_labels P data [c]
  | _ => Raise (TypeError "unhashable indexer")
  end.

(** Lines 412 to 421: the predicates filter the input table. *)
Definition filter_predicates (op : Aggregation Expr) (data : DataFrame)
    (scope : Scope) (timecontext : option TimeContext) : result DataFrame :=
  match predicates op with
  | [] => Ok data
  | _ :: _ =>
      predicate <- conjunction (predicates op) scope timecontext ;;
      loc data predicate
  end.

Definition rename (s : Series) (name : string) : Series :=
  mkSeries (Some name) (s_dtype s) (s_index s) (s_values s).

(** Lines 425 to 444: the source the metrics are computed on. *)
Definition group (op : Aggregation Expr) (data : DataFrame)
    (scope : Scope) (timecontext : option TimeContext) : result value :=
  match by_ op with
  | [] => Ok (VFrame data)
  | _ :: _ =>
      grouping_keys <-
        traverse
          (fun key =>
             match table_column_name E key with
             | Some column => Ok (ByName column)
             | None =>
                 v <- execute E key scope timecontext ;;
                 s <- as_series v ;;
                 Ok (BySeries (rename s (get_name E key)))
             end)
          (by_ op) ;;
      Ok (VFrameGroupBy (mkDataFrameGroupBy data grouping_keys))
  end.

(** The names the group keys get in the result. *)
Definition key_columns (op : Aggregation Expr) : list (string * string) :=
  omap (fun key => option_map (fun n => (n, get_name E key)) (op_name E key))
    (by_ op).

(** [piece.name = name]: a series takes the name, a scalar has no such
    attribute. *)
Definition set_name (piece : value) (name : string) : result value :=
  match piece with
  | VSeries s => Ok (VSeries (rename s name))
  | VScalar _ => Raise (AttributeError "name")
  | other => Ok other
  end.

(** Lines 405 to 461: the aggregated table before the having clause, with
    the scope the metrics were computed in. *)
Definition aggregate (op : Aggregation Expr) (data : DataFrame)
    (scope : Scope) (timecontext : option TimeContext)
  : result (DataFrame * Scope) :=
  match metrics op with
  | [] => Raise (AssertionError "no metrics found during aggregation execution")
  | _ :: _ =>
      match sort_keys op with
      | _ :: _ =>
          Raise (NotImplementedError
                   "sorting on aggregations not yet implemented")
      | [] =>
          data <- filter_predicates op data scope timecontext ;;
          source <- group op data scope timecontext ;;
          let columns := key_columns op in
          let scope :=
            merge_scope E scope (make_scope E (table op) source timecontext) in
          pieces <- traverse
                      (fun metric =>
                         piece <- execute E metric scope timecontext ;;
                         set_name piece (get_name E metric))
                      (metrics op) ;;
          result <- concat P pieces ;;
          let result :=
            match by_ op with
            | [] => result
            | _ :: _ => reset_index P result
            end in
          let result :=
            mkDataFrame
              (map (fun c => default c (dict_get columns c))
                 (df_columns result))
              (df_dtypes result) (df_rows result) in
          Ok (result, scope)
      end
  end.

(** Lines 453 to 461, on the table that [concat] returned: with a group
    key the index is reset, and the columns of the keys take the names of
    the key expressions. *)
Definition aggregated_table (op : Aggregation Expr) (result : DataFrame)
  : DataFrame :=
  let result :=
    match by_ op with
    | [] => result
    | _ :: _ => reset_index P result
    end in
  mkDataFrame
    (map (fun c => default c (dict_get (key_columns op) c))
       (df_columns result))
    (df_dtypes result) (df_rows result).

Definition having_message : string :=
  "Filtering out aggregation values is not allowed without at least one grouping key".

(** [predicate.values]. *)
Definition values (predicate : value) : result (list scalar) :=
  match predicate with
  | VSeries s => Ok (s_values s)
  | _ => Raise (AttributeError "values")
  end.

(** Lines 463 to 483: the having clause filters the aggregated table. *)
Definition filter_having (op : Aggregation Expr) (result : DataFrame)
    (scope : Scope) (timecontext : option TimeContext) : Py.result DataFrame :=
  match having op with
  | [] => Ok result
  | _ :: _ =>
      match by_ op with
      | [] => Raise (ValueError having_message)
      | _ :: _ =>
          predicate <- conjunction (having op) scope timecontext ;;
          n <- py_len predicate ;;
          if negb (bool_decide (n = frame_len result)) then
            Raise (AssertionError
                     "length of predicate does not match length of DataFrame")
          else
            mask <- values predicate ;;
            loc_array (loc_labels P) result mask
      end
  end.

(** [generic.py], lines 401 to 484. *)
Definition execute_aggregation_dataframe (op : Aggregation Expr)
    (data : DataFrame) (scope : Scope) (timecontext : option TimeContext)
  : result DataFrame :=
  aggregated <- aggregate op data scope timecontext ;;
  filter_having op (fst aggregated) (snd aggregated) timecontext.

(** The table a source wraps. *)
Definition frame_of (source : value) : option DataFrame :=
  match source with
  | VFrame df => Some df
  | VFrameGroupBy g => Some (dg_obj g)
  | _ => None
  end.

(** The expression evaluates to a boolean mask over the rows of [data]:
    a series with the index of the table whose values are the booleans
    [mask]. *)
Definition evaluates_to_mask (data : DataFrame) (scope : Scope)
    (timecontext : option TimeContext) (e : Expr) (mask : list bool) : Prop :=
  exists s,
    execute E e scope timecontext = Ok (VSeries s) /\
    s_index s = frame_index data /\
    s_values s = map NpBool mask /\
    length mask = frame_len data.

End Rule.

(** The conjunction of boolean masks, position by position. *)
Definition mask_and (a b : list bool) : list bool := zip_with andb a b.

Definition all_masks (first : list bool) (rest : list (list bool))
  : list bool :=
  fold_left mask_and rest first.

(** The number of true values of a mask. *)
Definition true_count (mask : list scalar) : nat :=
  length (List.filter truth mask).

Section Arbitrary.
(** [data[mask]] and [data.iloc[index]] of pandas. *)
Variable getitem_mask : Series -> Series -> result Series.
Variable iloc : Series -> Z -> result scalar.

(** [generic.py], lines 602 to 614: the rule for [Arbitrary] on a series
    and a mask or [None]; [how] is [op.how]. *)
Definition execute_arbitrary_series_mask (how : option string)
    (data : Series) (mask : option Series) : result scalar :=
  index <- (if bool_decide (how = Some "first") then Ok 0
            else if bool_decide (how = Some "last") then Ok (-1)
            else
              Raise (OperationNotDefinedError
                       match how with
                       | Some h => "Arbitrary '" ++ h ++ "' is not supported"
                       | None => "Arbitrary None is not supported"
                       end)) ;;
  data <- match mask with
          | Some m => getitem_mask data m
          | None => Ok data
          end ;;
  iloc data index.

End Arbitrary.

(** A small expression layer for examples: a table column or a named
    expression, each evaluated by looking its name up in an environment,
    and the reduction [Arbitrary] of a named series, evaluated by its
    rule; the scope plays no part, and the two kernels of the rule are not
    reached. *)
Inductive sample_expr : Type :=
| Column (name : string)
| Named (name : string)
| ArbitraryOf (name : string) (how : option string).

Definition sample_name (e : sample_expr) : string :=
  match e with
  | Column n | Named n => n
  | ArbitraryOf _ _ => "arbitrary"
  end.

Definition sample_execute (env : list (string * value)) (e : sample_expr)
  : result value :=
  match e with
  | Column n | Named n =>
      match dict_get env n with
      | Some v => Ok v
      | None => Raise (KeyError n)
      end
  | ArbitraryOf n how =>
      match dict_get env n with
      | Some v =>
          data <- as_series v ;;
          out <- execute_arbitrary_series_mask
                   (fun _ _ => Raise (NotImplementedError "getitem"))
                   (fun _ _ => Raise (NotImplementedError "iloc"))
                   how data None ;;
          Ok (VScalar out)
      | None => Raise (KeyError n)
      end
  end.

Definition sample_evaluator (env : list (string * value))
  : evaluator sample_expr unit :=
  {| execute := fun e _ _ => sample_execute env e;
     get_name := sample_name;
     table_column_name := fun e =>
       match e with Column n => Some n | _ => None end;
     op_name := fun e =>
       match e with Column n => Some n | _ => None end;
     make_scope := fun _ _ _ => tt;
     merge_scope := fun _ _ => tt |}.

(** Kernels for examples: [concat] puts series that share one index side
    by side, one column per series, and the other kernels are not
    reached. *)
Definition sample_concat (pieces : list value) : result DataFrame :=
  match pieces with
  | VSeries first :: _ =>
      columns <- traverse
                   (fun piece =>
                      s <- as_series piece ;;
                      if bool_decide (s_index s = s_index first)
                      then Ok s
                      else Raise (NotImplementedError "concat"))
                   pieces ;;
      Ok (mkDataFrame
            (map (fun s => default "" (s_name s)) columns)
            (map s_dtype columns)
            (imap (fun i label =>
                     (label,
                      map (fun s => nth i (s_values s) PyNone) columns))
               (s_index first)))
  | _ => Raise (NotImplementedError "concat")
  end.

Definition sample_pandas : pandas :=
  {| concat := sample_concat;
     reset_index := fun df => df;
     loc_labels := no_loc_labels;
     align_and := fun _ _ => Raise (NotImplementedError "align");
     result_type := fun a _ => a |}.

(** An example: a table of three rows, a predicate that keeps the first
    two, one grouping column, one metric with a value per group and a
    having clause that keeps the first group. *)
Definition sample_table : DataFrame :=
  mkDataFrame ["g"; "v"] [NumpyDtype np_int64; NumpyDtype np_int64]
    [(0, [NpInt64 1; NpInt64 1]); (1, [NpInt64 2; NpInt64 2]);
     (2, [NpInt64 2; NpInt64 3])].

Definition sample_env : list (string * value) :=
  [("p", VSeries (mkSeries None (NumpyDtype np_bool) [0; 1; 2]
                    [NpBool true; NpBool true; NpBool false]));
   ("m", VSeries (mkSeries None (NumpyDtype np_int64) [0; 1]
                    [NpInt64 1; NpInt64 2]));
   ("h", VSeries (mkSeries None (NumpyDtype np_bool) [0; 1]
                    [NpBool true; NpBool false]));
   ("v", VSeries (mkSeries (Some "v") (NumpyDtype np_int64) [0; 1; 2]
                    [NpInt64 1; NpInt64 2; NpInt64 3]))].

Definition sample_aggregation : Aggregation sample_expr :=
  mkAggregation (Named "t") [Named "m"] [Column "g"] [Named "h"] [Named "p"]
    [].

(** The same node without grouping key, and with the metric
    [arbitrary(how='heavy')] of the column ["v"] instead. *)
Definition sample_ungrouped : Aggregation sample_expr :=
  mkAggregation (Named "t") [Named "m"] [] [Named "h"] [Named "p"] [].

Definition sample_ungrouped_arbitrary : Aggregation sample_expr :=
  mkAggregation (Named "t") [ArbitraryOf "v" (Some "heavy")] []
    [Named "h"] [] [].

End Aggregations.

(** ** Row-wise reductions: Greatest, Least, Coalesce *)

Module RowReductions.
Import Datatypes Values.

(** What a reduction is applied to: the operands as they are, or numpy
    arrays. *)
Inductive operand : Type :=
| Plain (v : value)
| NdArray (a : list scalar).

(** [x if not isnull(x) else y].  The truth value of an array is that of
    its only element; an empty array is false and a longer one has no
    truth value. *)
Definition first_not_null (x y : operand) : result operand :=
  match x with
  | Plain (VScalar c) => Ok (if negb (isnull c) then x else y)
  | Plain (VSeries _) | Plain (VFrame _) =>
      Raise (ValueError "The truth value of a Series is ambiguous")
  | Plain _ => Ok x
  | NdArray [] => Ok x
  | NdArray [c] => Ok (if negb (isnull c) then x else y)
  | NdArray _ =>
      Raise (ValueError
               "The truth value of an array with more than one element is ambiguous")
  end.

Fixpoint reduce_first_not_null (acc : operand) (rest : list operand)
  : result operand :=
  match rest with
  | [] => Ok acc
  | y :: rest' =>
      acc' <- first_not_null acc y ;; reduce_first_not_null acc' rest'
  end.

Definition coalesce (values : list operand) : result operand :=
  match values with
  | [] => Raise (TypeError "reduce() of empty sequence with no initial value")
  | x :: rest => reduce_first_not_null x rest
  end.

Section Reduction.
(** The numpy kernels: [np.maximum.reduce] and [np.minimum.reduce] along
    the first axis, and [np.repeat] on an object that is not a scalar. *)
Variable np_maximum_reduce : list operand -> result operand.
Variable np_minimum_reduce : list operand -> result operand.
Variable np_repeat_object : value -> nat -> result (list scalar).

(** [generic.py], lines 1034 to 1036. *)
Definition promote_to_sequence (length : nat) (obj : value) : result operand :=
  match obj with
  | VSeries s => Ok (NdArray (s_values s))
  | VScalar c => Ok (NdArray (repeat c length))
  | _ => a <- np_repeat_object obj length ;; Ok (NdArray a)
  end.

(** The length that an operand contributes to [final_sizes]: [len(x)]
    when [isinstance(x, Sized)]. *)
Definition sized_len (x : Values.value) : option nat :=
  if is_sized x then
    match py_len x with Ok n => Some n | Raise _ => None end
  else None.

(** [{len(x) for x in value if isinstance(x, Sized)}]. *)
Definition final_sizes (value : list Values.value) : gset nat :=
  list_to_set (omap sized_len value).

(** [series.squeeze()]: a series of one element is squeezed to its
    element. *)
Definition squeeze (s : Series) : value :=
  match s_values s with
  | [c] => VScalar c
  | _ => VSeries s
  end.

(** [generic.py], lines 1039 to 1045: the unpacking of [final_sizes] needs
    exactly one size, and the result of the reduction is passed to
    [dd.Series]. *)
Definition compute_row_reduction
    (func : list operand -> result operand) (value : list Values.value)
  : result operand :=
  let final_sizes := final_sizes value in
  if bool_decide (final_sizes = ∅) then func (map Plain value)
  else
    match elements final_sizes with
    | [final_size] =>
        promoted <- traverse (promote_to_sequence final_size) value ;;
        raw <- func promoted ;;
        s <- dd_Series raw ;;
        Ok (Plain (squeeze s))
    | _ => Raise (ValueError "too many values to unpack (expected 1)")
    end.

Definition execute_node_greatest_list (value : list Values.value)
  : result operand :=
  compute_row_reduction np_maximum_reduce value.

Definition execute_node_least_list (value : list Values.value)
  : result operand :=
  compute_row_reduction np_minimum_reduce value.

Definition execute_node_coalesce (values : list Values.value)
  : result operand :=
  compute_row_reduction coalesce values.

End Reduction.

End RowReductions.

(** ** Schemas and the client ([ibis/dask/client.py]) *)

Module Schemas.
Import Datatypes Values Frames.

(** The names and types of a schema, in order: the pairs that
    [sch.schema] is built from and that [schema.items()] yields.  The
    class [Schema] itself is in [ibis.expr.schema], outside the sources. *)
Definition Schema : Type := list (string * dtype).

(** [client.py], lines 198 to 199. *)
Definition ibis_schema_to_dask (D : dtype_kernels) (schema : Schema)
  : result (list (string * native)) :=
  traverse (fun ct => d <- ibis_dtype_to_dask D (snd ct) ;; Ok (fst ct, d))
    schema.

(** [client.py], lines 85 to 91. *)
Definition _inferable_dask_dtypes : list (string * dtype) :=
  [ ("boolean", Boolean);
    ("string", String);
    ("unicode", String);
    ("bytes", String);
    ("empty", String) ].

(** [df.dtypes.iteritems()]: the column names with their dtypes. *)
Definition frame_dtypes (df : DataFrame) : list (string * native) :=
  combine (df_columns df) (df_dtypes df).

Section Inference.
(** [pandas.api.types.infer_dtype(column, skipna=True)]: the name of the
    kind of values an object column holds. *)
Variable infer_dask_dtype : value -> string.

(** The logical type of one column ([client.py], lines 159 to 175): the
    type the caller gave for the column if there is one, for an object
    column the type inferred from its values, and otherwise the logical
    type of its dtype. *)
Definition infer_column (df : DataFrame) (schema : gmap string dtype)
    (column_name : string) (dask_dtype : native) : result dtype :=
  match schema !! column_name with
  | Some given => Ok given
  | None =>
      if bool_decide (dask_dtype = NumpyDtype np_object) then
        column <- getitem_value df column_name ;;
        let inferred_dtype := infer_dask_dtype column in
        if bool_decide (inferred_dtype = "mixed")
           || bool_decide (inferred_dtype = "decimal")
        then Raise (TypeError "Unable to infer type of column")
        else
          match dict_get _inferable_dask_dtypes inferred_dtype with
          | Some t => Ok t
          | None => Raise (KeyError inferred_dtype)
          end
      else dt_dtype dask_dtype
  end.

(** [client.py], lines 148 to 179.  Column names are strings in this
    model, so the check of their class always passes; [schema=None]
    stands for the empty dict, and the types given in [schema] are
    logical types already. *)
Definition infer_dask_schema (df : DataFrame)
    (schema : option (gmap string dtype)) : result Schema :=
  let schema := default ∅ schema in
  traverse
    (fun '(column_name, dask_dtype) =>
       ibis_dtype <- infer_column df schema column_name dask_dtype ;;
       Ok (column_name, ibis_dtype))
    (frame_dtypes df).

End Inference.

Section Apply.
Variable D : dtype_kernels.
(** The [convert] dispatcher ([client.py], lines 202 to 302), whose rules
    call pandas and return a series or an array, and the assignment
    [df[column] = converted]. *)
Variable Converted : Type.
Variable convert : native -> dtype -> Series -> result Converted.
Variable setitem : DataFrame -> string -> Converted -> result DataFrame.

(** One turn of the loop of [ibis_schema_apply_to].  The comparison of the
    two dtypes that raises a [TypeError] counts as unequal, as an unequal
    comparison does. *)
Definition apply_column (df : DataFrame) (column : string) (type : dtype)
  : result DataFrame :=
  dask_dtype <- ibis_dtype_to_dask D type ;;
  col <- getitem_value df column ;;
  match col with
  | VSeries col =>
      let col_dtype := s_dtype col in
      let not_equal := negb (bool_decide (dask_dtype = col_dtype)) in
      if not_equal || isinstance type Classes.String then
        converted <- convert col_dtype type col ;;
        setitem df column converted
      else Ok df
  | _ => Raise (AttributeError "'DataFrame' object has no attribute 'dtype'")
  end.

(** [client.py], lines 305 to 336: the table is updated column by column
    and returned. *)
Fixpoint ibis_schema_apply_to (schema : Schema) (df : DataFrame)
  : result DataFrame :=
  match schema with
  | [] => Ok df
  | (column, type) :: rest =>
      df <- apply_column df column type ;;
      ibis_schema_apply_to rest df
  end.

End Apply.

(** A table expression: the [DaskTable] node with the schema it was built
    with.  (The node also refers to its client, which is passed along
    here.) *)
Record TableExpr : Type := mkTableExpr {
  expr_op : DaskTable;
  expr_schema : Schema
}.

Section Client.
Variable infer_dask_dtype : value -> string.

(** [connect(dictionary)] ([backends/dask/__init__.py], lines 25 to 36). *)
Definition connect (dictionary : gmap string DataFrame) : DaskClient :=
  mkDaskClient dictionary.

(** [client.table(name, schema)] ([client.py], lines 355 to 358). *)
Definition table (client : DaskClient) (name : string)
    (schema : option (gmap string dtype)) : result TableExpr :=
  match dictionary client !! name with
  | None => Raise (KeyError name)
  | Some df =>
      schema <- infer_dask_schema infer_dask_dtype df schema ;;
      Ok (mkTableExpr (mkDaskTable name) schema)
  end.

(** [client.load_data(table_name, obj)] ([client.py], lines 397 to 407):
    the client after the call. *)
Definition load_data (client : DaskClient) (table_name : string)
    (obj : DataFrame) : DaskClient :=
  mkDaskClient (<[table_name := obj]> (dictionary client)).

(** [client.get_schema(table_name)] ([client.py], lines 425 to 439). *)
Definition get_schema (client : DaskClient) (table_name : string)
  : result Schema :=
  match dictionary client !! table_name with
  | None => Raise (KeyError table_name)
  | Some df => infer_dask_schema infer_dask_dtype df None
  end.

(** [from_dataframe(df, name, client)] ([backends/dask/__init__.py],
    lines 39 to 62): the client that holds the table after the call (a new
    client when none is given, and the given client with the table stored
    in it otherwise) and the table expression or the exception of
    [client.table]. *)
Definition from_dataframe (df : DataFrame) (name : string)
    (client : option DaskClient) : DaskClient * result TableExpr :=
  match client with
  | None =>
      let client := connect {[ name := df ]} in
      (client, table client name None)
  | Some client =>
      let client := load_data client name df in
      (client, table client name None)
  end.

End Client.

Section CreateTable.
Variable D : dtype_kernels.
Variable Converted : Type.
Variable convert : native -> dtype -> Series -> result Converted.
Variable setitem : DataFrame -> string -> Converted -> result DataFrame.
(** [dd.DataFrame(columns=names)]. *)
Variable new_frame : list string -> result DataFrame.

(** [client.create_table(table_name, obj, schema)] ([client.py], lines 409
    to 423): the client after the call. *)
Definition create_table (client : DaskClient) (table_name : string)
    (obj : option DataFrame) (schema : option Schema) : result DaskClient :=
  match obj, schema with
  | None, None => Raise (IbisError "Must pass expr or schema")
  | Some df, _ => Ok (load_data client table_name df)
  | None, Some schema =>
      dtypes <- ibis_schema_to_dask D schema ;;
      empty <- new_frame (map fst dtypes) ;;
      df <- ibis_schema_apply_to D Converted convert setitem schema empty ;;
      Ok (load_data client table_name df)
  end.

End CreateTable.

(** [client.py], lines 116 to 126: the logical type of a numpy scalar is
    that of its dtype. *)
Definition infer_numpy_scalar (value : scalar) : result dtype :=
  match value with
  | NpBool _ | NpInt64 _ | NpFloat64 _ => dt_dtype (scalar_dtype value)
  | _ => Raise (AttributeError "dtype")
  end.

(** [client.py], lines 129 to 134. *)
Definition infer_dask_timestamp (value : scalar) : result dtype :=
  match value with
  | PdTimestamp _ (Some tz) => Ok (Timestamp (Some tz))
  | PdTimestamp _ None => Ok timestamp
  | _ => Raise (AttributeError "tz")
  end.

(** The native dtype that the logical type of a native dtype is stored
    as. *)
Definition native_round_trip (D : dtype_kernels) (d : native)
  : result native :=
  t <- dt_dtype d ;; ibis_dtype_to_dask D t.

(** The numpy dtypes that come back from their logical type whatever
    pandas and numpy parse: the boolean, the integers, the floats of 32
    and 64 bits and the datetime in nanoseconds. *)
Definition native_round_trips (d : np_dtype) : bool :=
  match d with
  | np_datetime64 u => bool_decide (u = Some "ns")
  | np_float16 | np_object | np_str | np_timedelta64 _ => false
  | _ => true
  end.

(** A column of the table that is stored as its schema type asks for, and
    that is not a string column. *)
Definition settled (D : dtype_kernels) (df : DataFrame)
    (ct : string * dtype) : Prop :=
  exists col : Series,
    getitem_value df (fst ct) = Ok (VSeries col) /\
    ibis_dtype_to_dask D (snd ct) = Ok (s_dtype col) /\
    isinstance (snd ct) Classes.String = false.

(** A table of an integer column ["a"] and an object column ["s"]. *)
Definition sample_frame : DataFrame :=
  mkDataFrame ["a"; "s"] [NumpyDtype np_int64; NumpyDtype np_object]
    [ (0, [NpInt64 1; PyStr "x"]); (1, [NpInt64 2; PyInt 5]) ].

(** Inference that finds every object column mixed. *)
Definition always_mixed (column : value) : string := "mixed".

End Schemas.

(** ** Limit ([generic.py], lines 87 to 89) *)

Module Limits.
Import Datatypes Values Frames.

(** [index.is_monotonic_increasing]. *)
Fixpoint is_monotonic_increasing (index : list Z) : bool :=
  match index with
  | a :: rest =>
      match rest with
      | b :: _ => (a <=? b) && is_monotonic_increasing rest
      | [] => true
      end
  | [] => true
  end.

Section Limit.
(** A slice of labels on an index that is not sorted is left to pandas. *)
Variable loc_slice_unsorted : DataFrame -> Z -> Z -> result DataFrame.

(** [df.loc[start:stop]]: a slice of labels includes both of its ends; on
    a sorted index it selects the rows whose label lies between them. *)
Definition loc_slice (df : DataFrame) (start stop : Z) : result DataFrame :=
  if is_monotonic_increasing (frame_index df) then
    Ok (mkDataFrame (df_columns df) (df_dtypes df)
          (List.filter
             (fun row => (start <=? fst row) && (fst row <=? stop))
             (df_rows df)))
  else loc_slice_unsorted df start stop.

(** [generic.py], lines 87 to 89; [nrows] and [offset] are the integers
    that the node holds. *)
Definition execute_limit_frame (data : DataFrame) (nrows offset : Z)
  : result DataFrame :=
  loc_slice data offset (offset + nrows).

End Limit.

(** A slice that is never reached. *)
Definition no_loc_slice (df : DataFrame) (start stop : Z)
  : result DataFrame :=
  Raise (NotImplementedError "loc").

(** A table of one integer column with the values given, labelled from
    zero. *)
Definition counted_table (values : list Z) : DataFrame :=
  mkDataFrame ["v"] [NumpyDtype np_int64]
    (combine (range_index (length values))
       (map (fun v => [NpInt64 v]) values)).

End Limits.

(** ** Null handling on scalars ([generic.py], lines 1002 to 1009) *)

Module Nulls.
Import Datatypes Values.

Section Scalars.
(** Python's [==] on two scalars. *)
Variable eq : scalar -> scalar -> bool.

(** [generic.py], lines 1002 to 1004. *)
Definition execute_node_if_scalars (value replacement : scalar) : scalar :=
  if isnull value then replacement else value.

(** [generic.py], lines 1007 to 1009; [np.nan] is a float. *)
Definition execute_node_nullif_scalars (value1 value2 : scalar) : scalar :=
  if eq value1 value2 then Wheres.nan else value1.

End Scalars.

End Nulls.

(** ** String concatenation ([generic.py], lines 863 to 865) *)

Module Strings.
Import Datatypes Values.

Section Rules.
(** [operator.add] on two operands that are not both strings. *)
Variable add_other : scalar -> scalar -> result scalar.

(** [operator.add]. *)
Definition add (a b : scalar) : result scalar :=
  match a, b with
  | PyStr x, PyStr y => Ok (PyStr (x ++ y))
  | _, _ => add_other a b
  end.

Fixpoint reduce_add (acc : scalar) (rest : list scalar) : result scalar :=
  match rest with
  | [] => Ok acc
  | y :: rest' => acc' <- add acc y ;; reduce_add acc' rest'
  end.

(** [generic.py], lines 863 to 865: [functools.reduce(operator.add, args)]. *)
Definition execute_node_string_concat (args : list scalar) : result scalar :=
  match args with
  | [] => Raise (TypeError "reduce() of empty sequence with no initial value")
  | x :: rest => reduce_add x rest
  end.

End Rules.

(** An addition that is never reached. *)
Definition no_add (a b : scalar) : result scalar :=
  Raise (TypeError "unsupported operand type(s) for +").

End Strings.

(** ** Mathematical functions of a number ([generic.py], lines 962 to 979) *)

Module Maths.
Import Datatypes Values Frames.

(** The operations of [MATH_FUNCTIONS]. *)
Inductive math_op : Type :=
| Floor | Ln | Log2 | Log10 | Exp | Sqrt | Abs | Ceil | Sign.

(** [x < 0]: false for a NaN, a [TypeError] for an operand that Python
    does not order with an integer. *)
Definition lt_zero (x : scalar) : result bool :=
  match x with
  | PyNone | PyStr _ | PdTimestamp _ _ | PdTimedelta _ =>
      Raise (TypeError "'<' not supported between instances")
  | _ =>
      Ok match numeric x with
         | Some n => bool_decide (number_compare n (Finite 0 0) = Lt)
         | None => false
         end
  end.

(** [lambda x: 0 if not x else -1 if x < 0 else 1] ([generic.py], line
    971). *)
Definition sign (x : scalar) : result scalar :=
  if negb (truth x) then Ok (PyInt 0)
  else
    negative <- lt_zero x ;;
    Ok (PyInt (if negative then -1 else 1)).

Section Rule.
(** The functions of [math] and the builtin [abs]. *)
Variable libm : math_op -> scalar -> result scalar.

Definition MATH_FUNCTIONS (op : math_op) : scalar -> result scalar :=
  match op with
  | Sign => sign
  | _ => libm op
  end.

(** [generic.py], lines 977 to 979, registered for the numeric types. *)
Definition execute_node_math_function_number (op : math_op) (value : scalar)
  : result scalar :=
  MATH_FUNCTIONS op value.

End Rule.

End Maths.

(** * Properties *)

(** ** The type coercion layer *)

Module TypeCoercion.
Import Datatypes.

Section RoundTrip.
Variable D : dtype_kernels.

(** A timestamp with a timezone comes back with the name its zone prints
    as. *)
Lemma round_trip_timestamp (tz : string) :
  tz <> "" ->
  round_trip D (Timestamp (Some tz))
  = (name <- zone_name D tz ;; Ok (Timestamp (Some name))).
Proof.
  intros Htz. unfold round_trip, ibis_dtype_to_dask, make_datetimetz.
  change (isinstance (Timestamp (Some tz)) Classes.Timestamp) with true.
  change (default "" (timezone (Timestamp (Some tz)))) with tz.
  cbn [timezone truthy].
  rewrite bool_decide_eq_false_2 by exact Htz. cbn [negb andb].
  destruct (zone_name D tz); reflexivity.
Qed.

(** An interval comes back for the unit ns only. *)
Lemma round_trip_interval (u : string) :
  round_trip D (Interval u)
  = (unit <- timedelta64_unit D u ;;
     if bool_decide (unit = "ns") then Ok (Interval "ns")
     else Raise (TypeError "numpy dtype is not supported in the dask backend")).
Proof.
  unfold round_trip, ibis_dtype_to_dask.
  change (isinstance (Interval u) Classes.Timestamp) with false.
  change (isinstance (Interval u) Classes.Interval) with true.
  cbn [andb interval_unit].
  destruct (timedelta64_unit D u) as [unit|e]; [|reflexivity].
  cbn [bind dt_dtype]. unfold from_numpy_dtype.
  destruct (decide (unit = "ns")) as [->|Hne].
  - rewrite bool_decide_eq_true_2 by reflexivity. vm_compute. reflexivity.
  - rewrite bool_decide_eq_false_2 by exact Hne.
    cbn [_numpy_dtypes dict_get].
    rewrite !bool_decide_eq_false_2 by congruence. reflexivity.
Qed.

End RoundTrip.

(** C4, as stated, fails: a date and a string are logical types without
    timezone or interval unit, yet a date comes back from its native dtype
    as a timestamp and a string, stored as an object, does not come back
    at all. *)
Lemma round_trip_date_and_string :
  primitive Date = true /\ carries_metadata Date = false /\
  round_trip sample_dtype_kernels Date = Ok timestamp /\
  timestamp <> Date /\
  carries_metadata String = false /\
  ibis_dtype_to_dask sample_dtype_kernels String
  = Ok (NumpyDtype np_object) /\
  round_trip sample_dtype_kernels String =
    Raise (TypeError "numpy dtype is not supported in the dask backend").
Proof. repeat split; try reflexivity. discriminate. Qed.

(** C4, amended: mapping a logical type to its native dtype and back
    returns an equal type for boolean, the signed and unsigned integers of
    8 to 64 bits, float32, float64, category and a naive timestamp.  A
    timestamp with a non-empty timezone comes back with the name its zone
    prints as, which is the timezone it had only when the zone prints as
    it was written, and the mapping raises what pandas raises when the
    string names no zone; with the empty string as timezone it comes back
    naive.  An interval goes through the unit of the dtype numpy builds,
    and comes back, as the interval of nanoseconds, for the unit ns only:
    for another unit the reverse mapping raises [TypeError], and for a
    unit numpy does not know the forward mapping raises.  A date comes
    back as a naive timestamp, a time as an interval of nanoseconds, and a
    type stored as an object (string, binary, null, decimal, array,
    struct) raises [TypeError] on the way back. *)
Theorem round_trip_amended :
  forall D : dtype_kernels,
    (forall t, round_trips t = true -> round_trip D t = Ok t) /\
    (forall tz,
       tz <> "" ->
       round_trip D (Timestamp (Some tz))
       = (name <- zone_name D tz ;; Ok (Timestamp (Some name)))) /\
    round_trip D (Timestamp (Some "")) = Ok timestamp /\
    (forall u,
       round_trip D (Interval u)
       = (unit <- timedelta64_unit D u ;;
          if bool_decide (unit = "ns") then Ok (Interval "ns")
          else Raise (TypeError
                        "numpy dtype is not supported in the dask backend"))) /\
    round_trip D Date = Ok timestamp /\
    round_trip D Time = Ok (Interval "ns") /\
    (forall t, stored_as_object t = true ->
       ibis_dtype_to_dask D t = Ok (NumpyDtype np_object) /\
       round_trip D t =
         Raise (TypeError "numpy dtype is not supported in the dask backend")).
Proof.
  intros D.
  split; [|split; [|split; [|split; [|split; [|split]]]]];
    try reflexivity.
  - intros t Ht. destruct t as [| | | | | | | | | | | | | | | | |tz| | | | |];
      try discriminate Ht; try reflexivity.
    destruct tz; [discriminate Ht|reflexivity].
  - apply round_trip_timestamp.
  - apply round_trip_interval.
  - intros t Ht. destruct t; try discriminate Ht; split; reflexivity.
Qed.

Lemma round_trip_amended_witness :
  round_trip sample_dtype_kernels Int64 = Ok Int64 /\
  round_trip sample_dtype_kernels (Timestamp (Some "UTC"))
  = Ok (Timestamp (Some "UTC")) /\
  round_trip sample_dtype_kernels (Timestamp (Some "+01:00"))
  = Ok (Timestamp (Some "UTC+01:00")) /\
  round_trip sample_dtype_kernels (Timestamp (Some "Nowhere/Land"))
  = Raise (KeyError "Nowhere/Land") /\
  round_trip sample_dtype_kernels (Array Int64) =
    Raise (TypeError "numpy dtype is not supported in the dask backend").
Proof.
  pose proof (round_trip_amended sample_dtype_kernels)
    as (Hplain & Hzone & _ & _ & _ & _ & Hobject).
  split; [|split; [|split; [|split]]].
  - apply (Hplain Int64). reflexivity.
  - rewrite (Hzone "UTC") by discriminate. reflexivity.
  - rewrite (Hzone "+01:00") by discriminate. reflexivity.
  - rewrite (Hzone "Nowhere/Land") by discriminate. reflexivity.
  - apply (Hobject (Array Int64)). reflexivity.
Defined.

End TypeCoercion.

(** ** Dispatch of casts and literals *)

Module DispatchFacts.
Import Datatypes Values Dispatch Casts ExecuteNode Literals.

Lemma grouped_candidates (t : dtype) :
  candidates execute_node_funcs
    [Classes.Cast; Classes.SeriesGroupBy; type_of t] = [grouped_entry].
Proof. destruct t; vm_compute; reflexivity. Qed.

Lemma resolve_single {H : Type} (table : funcs H) (types : signature)
    (e : signature * H) :
  candidates table types = [e] -> resolve table types = Some (snd e).
Proof.
  intros Hc. unfold resolve. rewrite Hc. unfold most_specific.
  cbn [filter list_filter existsb].
  destruct (decide _) as [_|Hn]; [reflexivity|].
  exfalso. apply Hn. unfold strictly_supercedes.
  destruct (supercedes (fst e) (fst e)); exact I.
Qed.

(** C1: for a grouped series operand and every target type, resolution
    selects the grouped rule: it is the only registration that matches, so
    the selection does not depend on the order in which the table is
    traversed or filled, and with only the generic and the grouped rule
    registered, in either order, the grouped rule is selected too.  The
    rule casts the underlying series, and then fails to group the result
    again: it reads the groupings from [data.grouper], which a dask
    grouped series does not have, so that a cast of a grouped series
    raises the error of the generic cast or else an [AttributeError], and
    never returns; so does the cast to [int64] of a column of [int64]
    values grouped by a column. *)
Theorem grouped_cast_dispatch :
  (forall (t : dtype) (table : funcs impl),
     table ≡ₚ execute_node_funcs ->
     resolve table [Classes.Cast; Classes.SeriesGroupBy; type_of t]
     = Some cast_series_group_by) /\
  (forall t : dtype,
     let generic :=
       register [[Classes.Cast]; [Classes.dd_Series]; [Classes.DataType]]
         cast_series_generic in
     let grouped :=
       register [[Classes.Cast]; [Classes.SeriesGroupBy]; [Classes.DataType]]
         cast_series_group_by in
     let types := [Classes.Cast; Classes.SeriesGroupBy; type_of t] in
     resolve (grouped (generic [])) types = Some cast_series_group_by /\
     resolve (generic (grouped [])) types = Some cast_series_group_by) /\
  (forall K C result_type op (g : SeriesGroupBy) (t : dtype),
     execute_node K C result_type (NCast op)
       [AValue (VSeriesGroupBy g); AType t]
     = (_ <- execute_cast_series_generic K C op (sg_obj g) t ;;
        Raise (AttributeError
                 "'SeriesGroupBy' object has no attribute 'grouper'")) /\
     returns (execute_node K C result_type (NCast op)
                [AValue (VSeriesGroupBy g); AType t]) = false) /\
  execute_node no_kernels primitive_constants (fun a _ => a)
    (NCast (mkCast Int64 Int64))
    [AValue (VSeriesGroupBy
               (mkSeriesGroupBy (int_series [1; 2; 3]) [ByName "g"]));
     AType Int64]
  = Raise (AttributeError "'SeriesGroupBy' object has no attribute 'grouper'").
Proof.
  split; [|split; [|split]].
  - intros t table Hperm.
    change cast_series_group_by with (snd grouped_entry).
    apply resolve_single. unfold candidates.
    apply Permutation_singleton_r.
    rewrite Hperm. fold (candidates execute_node_funcs
      [Classes.Cast; Classes.SeriesGroupBy; type_of t]).
    now rewrite grouped_candidates.
  - intros t. destruct t; vm_compute; split; reflexivity.
  - intros K C rt op g t. unfold execute_node.
    cbn [map node_class arg_class class_of].
    rewrite (resolve_single _ _ grouped_entry (grouped_candidates t)).
    cbn [snd grouped_entry run run_cast as_series_groupby bind].
    unfold execute_cast_series_group_by, grouper.
    destruct (execute_cast_series_generic K C op (sg_obj g) t);
      split; reflexivity.
  - vm_compute. reflexivity.
Qed.

Lemma grouped_cast_dispatch_witness :
  resolve execute_node_funcs
    [Classes.Cast; Classes.SeriesGroupBy; type_of (Timestamp (Some "UTC"))]
  = Some cast_series_group_by.
Proof.
  apply (proj1 grouped_cast_dispatch (Timestamp (Some "UTC"))
           execute_node_funcs).
  reflexivity.
Defined.


Lemma class_of_value (v : value) : In (class_of v) value_classes.
Proof.
  destruct v as [s| | | |]; [destruct s|..]; cbn; tauto.
Qed.

Lemma type_of_dtype (t : dtype) : In (type_of t) dtype_classes.
Proof. destruct t; cbn; tauto. Qed.

(** X7: resolution for [Cast] and [Where] never has to break a tie: for
    every operand value and target type of a cast, and for every three
    operand values of a where, at most one matching registration is most
    specific. *)
Theorem resolution_unambiguous :
  forall (data cond true_ false_ : value) (t : dtype),
    unambiguous [Classes.Cast; class_of data; type_of t] = true /\
    unambiguous [Classes.Where; class_of cond; class_of true_;
                 class_of false_] = true.
Proof.
  intros data cond true_ false_ t. split.
  - assert (Hall :
      forallb (fun a =>
        forallb (fun b => unambiguous [Classes.Cast; a; b]) dtype_classes)
        value_classes = true) by (vm_compute; reflexivity).
    rewrite forallb_forall in Hall.
    specialize (Hall _ (class_of_value data)).
    rewrite forallb_forall in Hall. exact (Hall _ (type_of_dtype t)).
  - assert (Hall :
      forallb (fun a =>
        forallb (fun b =>
          forallb (fun c => unambiguous [Classes.Where; a; b; c])
            value_classes) value_classes) value_classes = true)
      by (vm_compute; reflexivity).
    rewrite forallb_forall in Hall.
    specialize (Hall _ (class_of_value cond)).
    rewrite forallb_forall in Hall.
    specialize (Hall _ (class_of_value true_)).
    rewrite forallb_forall in Hall. exact (Hall _ (class_of_value false_)).
Qed.

(** The messages of the two rules that reject a boolean. *)
Lemma bool_cast_messages :
  contains "cast to int64 first" bool_to_timestamp_message = true /\
  contains "cast to int64 first" bool_to_interval_message = true.
Proof. split; vm_compute; reflexivity. Qed.

(** The rule for a series and a timestamp type, on a series of
    booleans. *)
Lemma bool_series_to_timestamp K C result_type (op : Cast) (data : Series)
    (tz : option string) :
  arg_type op = Boolean ->
  execute_node K C result_type (NCast op)
    [AValue (VSeries data); AType (Timestamp tz)]
  = Raise (TypeError "Don't know how to cast").
Proof.
  intros Hfrom. unfold execute_node.
  cbn [map node_class arg_class class_of type_of].
  replace (resolve execute_node_funcs
             [Classes.Cast; Classes.dd_Series; Classes.Timestamp])
    with (Some cast_series_timestamp) by (vm_compute; reflexivity).
  cbn [run run_cast on_series as_series bind].
  unfold execute_cast_series_timestamp. rewrite Hfrom.
  replace (equals Boolean (Timestamp tz)) with false.
  - reflexivity.
  - symmetry. unfold equals. now apply bool_decide_eq_false.
Qed.

(** C9, as stated, fails: the two rules that tell to cast to int64 first
    are registered for boolean scalars.  A series of booleans cast to a
    timestamp type goes to the rule for a series, which raises the
    [TypeError] it has for the source types it does not know; the fixed
    part of its message, kept here, is followed by the names of the two
    types and says nothing of int64. *)
Lemma bool_series_cast_without_hint :
  execute_node no_kernels primitive_constants (fun a _ => a)
    (NCast (mkCast Boolean (Timestamp None)))
    [AValue (VSeries (bool_series [true; false])); AType (Timestamp None)]
  = Raise (TypeError "Don't know how to cast") /\
  contains "int64" "Don't know how to cast" = false /\
  contains "int64" bool_to_timestamp_message = true.
Proof. repeat split; vm_compute; reflexivity. Qed.

(** C9, amended: a cast of a boolean scalar, of class [bool] or
    [np.bool_], to a timestamp type (with any timezone) or to an interval
    type (with any unit) resolves to the rule that raises a [TypeError]
    whose message tells to cast to int64 first, and no such cast returns a
    value; a cast of a series of booleans to a timestamp type raises a
    [TypeError] too, that of the rule for a series. *)
Theorem bool_cast_rejected :
  forall K C result_type op (b : bool) (tz : option string) (u : string),
    let cast v t :=
      execute_node K C result_type (NCast op) [AValue (VScalar v); AType t] in
    (cast (PyBool b) (Timestamp tz) = Raise (TypeError bool_to_timestamp_message) /\
     cast (NpBool b) (Timestamp tz) = Raise (TypeError bool_to_timestamp_message) /\
     cast (PyBool b) (Interval u) = Raise (TypeError bool_to_interval_message) /\
     cast (NpBool b) (Interval u) = Raise (TypeError bool_to_interval_message)) /\
    contains "cast to int64 first" bool_to_timestamp_message = true /\
    contains "cast to int64 first" bool_to_interval_message = true /\
    (forall data : Series,
       arg_type op = Boolean ->
       execute_node K C result_type (NCast op)
         [AValue (VSeries data); AType (Timestamp tz)]
       = Raise (TypeError "Don't know how to cast")).
Proof.
  intros K C rt op b tz u cast.
  split; [repeat split; reflexivity|].
  split; [exact (proj1 bool_cast_messages)|].
  split; [exact (proj2 bool_cast_messages)|].
  intros data Hfrom. now apply bool_series_to_timestamp.
Qed.

Lemma bool_cast_rejected_witness :
  execute_node no_kernels primitive_constants (fun a _ => a)
    (NCast (mkCast Boolean (Timestamp (Some "UTC"))))
    [AValue (VSeries (bool_series [true])); AType (Timestamp (Some "UTC"))]
  = Raise (TypeError "Don't know how to cast").
Proof.
  refine (proj2 (proj2 (proj2
            (bool_cast_rejected no_kernels primitive_constants
               (fun a _ => a) (mkCast Boolean (Timestamp (Some "UTC")))
               true (Some "UTC") "s")))
            (bool_series [true]) _).
  reflexivity.
Defined.

(** The integer types, the boolean type and the floating types. *)
Lemma integer_types_enumerated (t : dtype) :
  isinstance t Classes.Integer = true ->
  In t [Int8; Int16; Int32; Int64; UInt8; UInt16; UInt32; UInt64].
Proof. destruct t; try discriminate; intros _; cbn; tauto. Qed.

Lemma floating_types_enumerated (t : dtype) :
  isinstance t Classes.Floating = true -> In t [Float16; Float32; Float64].
Proof. destruct t; try discriminate; intros _; cbn; tauto. Qed.

(** C10: a literal evaluates to the coercion of its stored value to the
    native type of its declared type: [int(value)] for an integer type,
    [bool(value)] for the boolean type, [float(value)] for a floating
    type, whatever the class of the stored value (the coercion's own
    exception included); so [True] typed as an integer evaluates to the
    integer 1. *)
Theorem literal_coerced :
  forall (N : numerics) (v : scalar) (t : dtype),
    (isinstance t Classes.Integer = true ->
     execute_literal N (mkLiteral v t) = py_int N v) /\
    (isinstance t Classes.Boolean = true ->
     execute_literal N (mkLiteral v t) = py_bool v) /\
    (isinstance t Classes.Floating = true ->
     execute_literal N (mkLiteral v t) = py_float N v) /\
    execute_literal N (mkLiteral (PyBool true) Int64) = Ok (PyInt 1).
Proof.
  intros N v t. repeat split.
  - intros Ht. apply integer_types_enumerated in Ht. cbn in Ht.
    repeat (destruct Ht as [<-|Ht]; [destruct v; reflexivity|]).
    contradiction.
  - destruct t; try discriminate. intros _. destruct v; reflexivity.
  - intros Ht. apply floating_types_enumerated in Ht. cbn in Ht.
    repeat (destruct Ht as [<-|Ht]; [destruct v; reflexivity|]).
    contradiction.
Qed.

Lemma literal_coerced_witness :
  execute_literal no_numerics (mkLiteral (NpBool true) UInt8) = Ok (PyInt 1) /\
  execute_literal no_numerics (mkLiteral (PyInt 0) Boolean)
  = Ok (PyBool false) /\
  execute_literal no_numerics (mkLiteral (PyFloat 0) Float64)
  = Ok (PyFloat 0).
Proof.
  split; [|split].
  - apply (proj1 (literal_coerced no_numerics (NpBool true) UInt8)).
    reflexivity.
  - apply (proj1 (proj2 (literal_coerced no_numerics (PyInt 0) Boolean))).
    reflexivity.
  - apply (proj1 (proj2 (proj2
             (literal_coerced no_numerics (PyFloat 0) Float64)))).
    reflexivity.
Defined.

End DispatchFacts.

(** ** Casts between equal types *)

Module CastFacts.
Import Datatypes Values Dispatch Casts ExecuteNode.

Lemma resolve_series_timestamp (t : dtype) :
  isinstance t Classes.Timestamp = true ->
  resolve execute_node_funcs [Classes.Cast; Classes.dd_Series; type_of t]
  = Some cast_series_timestamp.
Proof. destruct t; try discriminate; intros _; vm_compute; reflexivity. Qed.

Lemma resolve_series_date (t : dtype) :
  isinstance t Classes.Date = true ->
  resolve execute_node_funcs [Classes.Cast; Classes.dd_Series; type_of t]
  = Some cast_series_date.
Proof. destruct t; try discriminate; intros _; vm_compute; reflexivity. Qed.

Lemma resolve_series_generic (t : dtype) :
  isinstance t Classes.Timestamp = false ->
  isinstance t Classes.Date = false ->
  isinstance t Classes.Array = false ->
  resolve execute_node_funcs [Classes.Cast; Classes.dd_Series; type_of t]
  = Some cast_series_generic.
Proof.
  destruct t; try discriminate; intros _ _ _; vm_compute; reflexivity.
Qed.

Lemma equals_refl (t : dtype) : equals t t = true.
Proof. unfold equals. now apply bool_decide_eq_true. Qed.

(** [astype] with the dtype the series already has. *)
Lemma astype_same (K : kernels) (data : Series) :
  astype K data (s_dtype data) = Ok data.
Proof. unfold astype. now rewrite bool_decide_eq_true_2. Qed.

(** C5: the generic rule and the array rule have no guard for equal
    types, such as the rules for a timestamp and for a date target have.
    With a table of primitive types, a series of structs cast to the
    struct type it has raises [KeyError], and a series of arrays of arrays
    cast to the type it has raises [ValueError], where the series was to
    come back as it is. *)
Theorem cast_to_same_type_raises :
  let nested := Array (Array Int64) in
  let record := Struct (FCons "a" Int64 FNil) in
  let data := mkSeries (Some "s") (NumpyDtype np_object) [0; 1]
                [PyNone; PyNone] in
  let cast t :=
    execute_node no_kernels primitive_constants (fun a _ => a)
      (NCast (mkCast t t)) [AValue (VSeries data); AType t] in
  cast record = Raise (KeyError "IBIS_TYPE_TO_DASK_TYPE") /\
  cast nested =
    Raise (ValueError
             "Array value type must be a primitive type (e.g., number, string, or timestamp)").
Proof. split; vm_compute; reflexivity. Qed.

(** X27: where a cast between equal types does nothing.  The rules for a
    series and a timestamp or a date target return the series as it is
    (their guard), and the cast of [None] is [None]; for a series and
    another target type that is not an array type the generic rule looks
    the type up in [IBIS_TYPE_TO_DASK_TYPE] and applies [astype], which
    returns the series unchanged when the table gives the dtype the series
    has, and raises [KeyError] when the table does not hold the type. *)
Theorem cast_to_same_type :
  forall K C result_type (op : Cast) (data : Series),
    arg_type op = to op ->
    let t := to op in
    let cast v :=
      execute_node K C result_type (NCast op) [AValue v; AType t] in
    (isinstance t Classes.Timestamp = true \/ isinstance t Classes.Date = true ->
     cast (VSeries data) = Ok (VSeries data)) /\
    cast (VScalar PyNone) = Ok (VScalar PyNone) /\
    (isinstance t Classes.Timestamp = false ->
     isinstance t Classes.Date = false ->
     isinstance t Classes.Array = false ->
     (IBIS_TYPE_TO_DASK_TYPE C t = Some (s_dtype data) ->
      cast (VSeries data) = Ok (VSeries data)) /\
     (IBIS_TYPE_TO_DASK_TYPE C t = None ->
      cast (VSeries data) = Raise (KeyError "IBIS_TYPE_TO_DASK_TYPE"))).
Proof.
  intros K C rt op data Hsame t cast. subst t cast.
  destruct op as [from target]. cbn [arg_type to] in *. subst from.
  unfold execute_node. cbn [map node_class arg_class class_of scalar_class].
  split; [|split].
  - intros [Ht|Ht].
    + rewrite (resolve_series_timestamp _ Ht).
      cbn [run run_cast on_series as_series bind].
      unfold execute_cast_series_timestamp. cbn [arg_type].
      now rewrite equals_refl.
    + rewrite (resolve_series_date _ Ht).
      cbn [run run_cast on_series as_series bind].
      unfold execute_cast_series_date. cbn [arg_type].
      now rewrite equals_refl.
  - destruct target; vm_compute; reflexivity.
  - intros H1 H2 H3. rewrite (resolve_series_generic _ H1 H2 H3).
    cbn [run run_cast on_series as_series bind].
    unfold execute_cast_series_generic. split; intros ->.
    + now rewrite astype_same.
    + reflexivity.
Qed.

Lemma cast_to_same_type_witness :
  let data :=
    mkSeries (Some "a") (NumpyDtype np_int64) [0; 1] [NpInt64 3; NpInt64 4] in
  let stamps :=
    mkSeries (Some "t") (DatetimeTZDtype "ns" "UTC") [0]
      [PdTimestamp 5 (Some "UTC")] in
  let cast t v :=
    execute_node no_kernels primitive_constants (fun a _ => a)
      (NCast (mkCast t t)) [AValue v; AType t] in
  cast (Timestamp (Some "UTC")) (VSeries stamps) = Ok (VSeries stamps) /\
  cast Int64 (VSeries data) = Ok (VSeries data) /\
  cast Decimal_9_2 (VSeries data) = Raise (KeyError "IBIS_TYPE_TO_DASK_TYPE").
Proof.
  cbv zeta. split; [|split].
  - apply (proj1 (cast_to_same_type no_kernels primitive_constants
                    (fun a _ => a) (mkCast (Timestamp (Some "UTC")) _)
                    _ eq_refl)).
    left. reflexivity.
  - apply (proj2 (proj2
             (cast_to_same_type no_kernels primitive_constants
                (fun a _ => a) (mkCast Int64 Int64) _ eq_refl)));
      reflexivity.
  - apply (proj2 (proj2
             (cast_to_same_type no_kernels primitive_constants
                (fun a _ => a) (mkCast Decimal_9_2 Decimal_9_2) _ eq_refl)));
      reflexivity.
Defined.

End CastFacts.

(** ** Where *)

Module WhereFacts.
Import Datatypes Values Dispatch Casts Wheres ExecuteNode.

Section Examples.
Variable K : kernels.
Variable C : constants.
Variable result_type : native -> native -> native.

Local Abbreviation where_ := (execute_where K C result_type).

(** An instance: a series condition [[True, False]] with the series branches
    [[1, 2]] and [[9, 9]] gives [[1, 9]]. *)
Lemma where_three_series :
  where_ (VSeries (bool_series [true; false]))
         (VSeries (int_series [1; 2])) (VSeries (int_series [9; 9]))
  = Ok (VSeries (mkSeries None
                   (result_type (NumpyDtype np_int64) (NumpyDtype np_int64))
                   [0; 1] [NpInt64 1; NpInt64 9])).
Proof. vm_compute. reflexivity. Qed.

(** X4: a scalar condition with two series branches returns the selected
    branch as it is. *)
Lemma where_scalar_condition (b : bool) (true_ false_ : Series) :
  where_ (VScalar (PyBool b)) (VSeries true_) (VSeries false_)
  = Ok (VSeries (if b then true_ else false_)) /\
  where_ (VScalar (NpBool b)) (VSeries true_) (VSeries false_)
  = Ok (VSeries (if b then true_ else false_)).
Proof. destruct b; split; vm_compute; reflexivity. Qed.

(** A series condition with a scalar true branch and a series false branch
    has no rule: the loop that registers
    [execute_node_where_series_scalar_scalar] registers it for two scalars
    of the same type only. *)
Lemma where_series_scalar_series_unregistered
    (cond false_ : Series) (true_ : scalar) :
  where_ (VSeries cond) (VScalar true_) (VSeries false_)
  = Raise (NotImplementedError "Could not find signature").
Proof. destruct true_; vm_compute; reflexivity. Qed.

End Examples.

Section Broadcast.
Variable result_type : native -> native -> native.

Lemma label_get_range (cells : list scalar) :
  forall (k i : nat) (c : scalar),
    nth_error cells i = Some c ->
    label_get (map Z.of_nat (seq k (length cells))) cells (Z.of_nat (k + i))
    = Some c.
Proof.
  induction cells as [|x cells IH]; intros k i c Hc.
  - destruct i; discriminate.
  - cbn [length seq map label_get]. destruct i as [|i].
    + cbn in Hc. injection Hc as ->.
      rewrite Nat.add_0_r, Z.eqb_refl. reflexivity.
    + cbn in Hc. destruct (Z.of_nat k =? Z.of_nat (k + S i)) eqn:Heq.
      * apply Z.eqb_eq in Heq. lia.
      * replace (k + S i)%nat with (S k + i)%nat by lia. now apply IH.
Qed.

Lemma where_values (G : Z -> bool) (o : scalar) :
  forall (cs : list bool) (vs : list scalar) (k : nat),
    length vs = length cs ->
    (forall i c, nth_error cs i = Some c -> G (Z.of_nat (k + i)) = c) ->
    map (fun '(label, x) => if G label then x else o)
      (combine (map Z.of_nat (seq k (length vs))) vs)
    = zip_with (fun (c : bool) x => if c then x else o) cs vs.
Proof.
  induction cs as [|c cs IH]; intros [|v vs] k Hlen HG;
    try discriminate; [reflexivity|].
  cbn [length seq map combine zip_with].
  rewrite <- (Nat.add_0_r k) at 1. rewrite (HG 0%nat c eq_refl).
  f_equal. apply IH.
  - now injection Hlen.
  - intros i c' Hc'. replace (S k + i)%nat with (k + S i)%nat by lia.
    now apply HG.
Qed.

(** [where] on a series and a condition that share a [RangeIndex], with a
    scalar replacement: position by position, the value where the
    condition holds and the replacement elsewhere. *)
Lemma where_aligned (cond : list bool) (o : scalar) (d : native)
    (name0 : option string) (values : list scalar) :
  length values = length cond ->
  series_where result_type
    (mkSeries name0 d (range_index (length values)) values)
    (bool_series cond) (VScalar o)
  = Ok (mkSeries name0 (result_type d (scalar_dtype o))
          (range_index (length values))
          (zip_with (fun (c : bool) x => if c then x else o) cond values)).
Proof.
  intros Hlen. unfold series_where. cbn [s_name s_dtype s_index s_values].
  f_equal. f_equal. unfold range_index.
  apply (where_values
           (fun label =>
              truth (default (PyBool false)
                       (series_at (bool_series cond) label)))
           o cond values 0%nat Hlen).
  intros i c Hc. unfold series_at, bool_series, range_index.
  cbn [s_index s_values].
  rewrite <- (length_map NpBool cond).
  rewrite (label_get_range (map NpBool cond) 0 i (NpBool c)).
  - reflexivity.
  - rewrite nth_error_map, Hc. reflexivity.
Qed.

Lemma zip_with_repeat (t o : scalar) (cond : list bool) :
  zip_with (fun (c : bool) x => if c then x else o) cond
    (repeat t (length cond))
  = map (fun c : bool => if c then t else o) cond.
Proof. induction cond as [|c cond IH]; [reflexivity|]. cbn. now rewrite IH. Qed.

(** X5: the mixed cases that have a rule.  With a series condition and
    two scalar branches the rule repeats the true branch to the length of
    the condition and passes the array to [dd.Series], which raises a
    [TypeError]: the case never returns.  With a scalar condition, the
    branch that is not selected as it is gets the scalar repeated to the
    length of the series branch. *)
Theorem where_broadcast :
  forall (cond : Series) (t f : scalar) (s : Series),
    execute_node_where_series_scalar_scalar result_type
      (VSeries cond) (VScalar t) (VScalar f)
    = Raise (TypeError "__init__() missing required positional arguments") /\
    execute_node_where_scalar_series_scalar
      (VScalar (PyBool false)) (VSeries s) (VScalar f)
    = Ok (VSeries (mkSeries None (scalar_dtype f) (s_index s)
                     (repeat f (series_len s)))) /\
    execute_node_where_scalar_scalar_series
      (VScalar (PyBool true)) (VScalar t) (VSeries s)
    = Ok (VSeries (mkSeries None (scalar_dtype t)
                     (range_index (series_len s))
                     (repeat t (series_len s)))).
Proof.
  intros cond t f s. split; [|split].
  - reflexivity.
  - reflexivity.
  - unfold execute_node_where_scalar_scalar_series.
    cbn [value_truth truth bind py_len as_scalar].
    unfold series_of_array, np_repeat. now rewrite repeat_length.
Qed.

End Broadcast.

(** C8 at the input where the code departs from it: condition
    [[True, False]], true branch the scalar 1, false branch [[9, 9]]. *)
Theorem where_series_scalar_series_fails :
  forall K C result_type,
    execute_where K C result_type (VSeries (bool_series [true; false]))
      (VScalar (PyInt 1)) (VSeries (int_series [9; 9]))
    = Raise (NotImplementedError "Could not find signature").
Proof. intros. apply where_series_scalar_series_unregistered. Qed.

End WhereFacts.

(** ** Row-wise reductions *)

Module RowReductionFacts.
Import Datatypes Values RowReductions.

Section Facts.
Variable np_repeat_object : value -> nat -> result (list scalar).
Variable func : list operand -> result operand.

Local Abbreviation reduction :=
  (compute_row_reduction np_repeat_object func).

Lemma elem_of_final_sizes (value : list Values.value) (n : nat) :
  n ∈ final_sizes value <-> exists x, x ∈ value /\ sized_len x = Some n.
Proof.
  unfold final_sizes. rewrite elem_of_list_to_set, list_elem_of_omap.
  reflexivity.
Qed.

(** X1: without a sized operand the reduction is applied to the operands
    as they are. *)
Lemma reduction_of_scalars (value : list Values.value) :
  (forall x, x ∈ value -> is_sized x = false) ->
  reduction value = func (map Plain value).
Proof.
  intros Hnone. unfold compute_row_reduction.
  rewrite bool_decide_eq_true_2; [reflexivity|].
  apply set_eq. intros n. rewrite elem_of_final_sizes. split.
  - intros (x & Hx & Hlen). unfold sized_len in Hlen.
    rewrite (Hnone x Hx) in Hlen. discriminate.
  - intros Hn. now apply not_elem_of_empty in Hn.
Qed.

(** X2: when the sized operands share one length, every operand is
    promoted to a sequence of that length (a series to its values, a scalar
    to that many copies) and the reduction is applied; its result is then
    passed to [dd.Series], which raises a [TypeError], so that a row-wise
    reduction with a sized operand never returns. *)
Lemma reduction_of_common_length (value : list Values.value) (n : nat) :
  (exists x, x ∈ value /\ sized_len x = Some n) ->
  (forall x m, x ∈ value -> sized_len x = Some m -> m = n) ->
  reduction value
  = (promoted <- traverse (promote_to_sequence np_repeat_object n) value ;;
     _ <- func promoted ;;
     Raise (TypeError "__init__() missing required positional arguments")) /\
  returns (reduction value) = false.
Proof.
  intros Hsome Hall. unfold compute_row_reduction.
  assert (Hset : final_sizes value = {[n]}).
  { apply set_eq. intros m. rewrite elem_of_final_sizes, elem_of_singleton.
    split.
    - intros (x & Hx & Hlen). eauto.
    - intros ->. exact Hsome. }
  rewrite Hset. rewrite bool_decide_eq_false_2.
  - rewrite elements_singleton.
    destruct (traverse (promote_to_sequence np_repeat_object n) value)
      as [promoted|e]; [|split; reflexivity].
    cbn [bind]. destruct (func promoted); split; reflexivity.
  - intros Hempty. apply (non_empty_singleton_L (C:=gset nat) n). exact Hempty.
Qed.

(** Two sized operands of different lengths make the unpacking of
    [final_sizes] fail. *)
Lemma reduction_of_mismatch (value : list Values.value) (x y : Values.value)
    (n m : nat) :
  x ∈ value -> y ∈ value ->
  sized_len x = Some n -> sized_len y = Some m -> n <> m ->
  reduction value = Raise (ValueError "too many values to unpack (expected 1)").
Proof.
  intros Hx Hy Hn Hm Hne. unfold compute_row_reduction.
  assert (Hin_n : n ∈ final_sizes value) by (apply elem_of_final_sizes; eauto).
  assert (Hin_m : m ∈ final_sizes value) by (apply elem_of_final_sizes; eauto).
  rewrite bool_decide_eq_false_2.
  2: { intros Hempty. rewrite Hempty in Hin_n.
       now apply not_elem_of_empty in Hin_n. }
  apply elem_of_elements in Hin_n, Hin_m.
  destruct (elements (final_sizes value)) as [|k [|k' rest]]; try reflexivity.
  apply list_elem_of_singleton in Hin_n, Hin_m. congruence.
Qed.

End Facts.

Lemma reduction_of_scalars_witness :
  execute_node_coalesce (fun _ _ => Raise (NotImplementedError "repeat"))
    [VScalar PyNone; VScalar (PyInt 2); VScalar (PyInt 3)]
  = Ok (Plain (VScalar (PyInt 2))).
Proof.
  unfold execute_node_coalesce. rewrite reduction_of_scalars.
  - reflexivity.
  - intros x Hx. repeat (apply elem_of_cons in Hx as [->|Hx]; [reflexivity|]).
    now apply elem_of_nil in Hx.
Defined.

Lemma reduction_of_common_length_witness :
  execute_node_coalesce (fun _ _ => Raise (NotImplementedError "repeat"))
    [VSeries (mkSeries None (NumpyDtype np_object) [0] [PyNone]);
     VScalar (PyInt 7)]
  = Raise (TypeError "__init__() missing required positional arguments").
Proof.
  unfold execute_node_coalesce.
  destruct (reduction_of_common_length
              (fun _ _ => Raise (NotImplementedError "repeat")) coalesce
              [VSeries (mkSeries None (NumpyDtype np_object) [0] [PyNone]);
               VScalar (PyInt 7)] 1%nat) as [E _].
  - eexists. split; [constructor|reflexivity].
  - intros x m Hx.
    repeat (apply elem_of_cons in Hx as [->|Hx];
            [cbn; congruence|]).
    now apply elem_of_nil in Hx.
  - rewrite E. reflexivity.
Defined.

(** C7 at the input where the code departs from it: a series of three
    strings and the scalar string ["na"].  The string has a length, so it
    counts as a second size and the unpacking of [final_sizes] fails before
    any reduction is applied. *)
Theorem coalesce_series_and_string_fails :
  forall np_maximum_reduce np_minimum_reduce np_repeat_object,
    let column :=
      mkSeries (Some "s") (NumpyDtype np_object) [0; 1; 2]
        [PyNone; PyStr "b"; PyNone] in
    let value := [VSeries column; VScalar (PyStr "na")] in
    execute_node_coalesce np_repeat_object value
    = Raise (ValueError "too many values to unpack (expected 1)") /\
    execute_node_greatest_list np_maximum_reduce np_repeat_object value
    = Raise (ValueError "too many values to unpack (expected 1)") /\
    execute_node_least_list np_minimum_reduce np_repeat_object value
    = Raise (ValueError "too many values to unpack (expected 1)").
Proof.
  intros mx mn rep column value.
  repeat split;
    apply (reduction_of_mismatch rep _ value (VSeries column)
             (VScalar (PyStr "na")) 3%nat 2%nat);
    try (subst value; set_solver); try reflexivity; lia.
Qed.

End RowReductionFacts.

(** ** The table leaf under a time context *)

Module LeafFacts.
Import Datatypes Values Frames.

Lemma cell_le_timestamps (x y : scalar) (tx ty : Z) (aware : bool) :
  instant x = Some (tx, aware) -> instant y = Some (ty, aware) ->
  cell_le x y = Ok (tx <=? ty).
Proof.
  destruct x as [| | | | | | | |vx zx|]; try discriminate.
  destruct y as [| | | | | | | |vy zy|]; try discriminate.
  cbn. intros [= -> <-] [= -> Haware].
  unfold cell_le, cell_compare. cbn.
  rewrite bool_decide_eq_true_2.
  - cbn. unfold Z.leb. destruct (tx ?= ty); reflexivity.
  - destruct zx, zy; cbn in Haware; try discriminate Haware;
      [split; intros _; eexists; reflexivity | reflexivity].
Qed.

Lemma between_timestamps (name : option string) (d : native)
    (index : list Z) (cells : list scalar) (begin end_ : scalar) (b e : Z)
    (aware : bool) :
  instant begin = Some (b, aware) -> instant end_ = Some (e, aware) ->
  Forall (fun c => exists t, instant c = Some (t, aware)) cells ->
  between (mkSeries name d index cells) begin end_
  = Ok (mkSeries name (NumpyDtype np_bool) index
          (map (fun c => NpBool (within b e c)) cells)).
Proof.
  intros Hb He Hcells. unfold between. cbn [s_values s_name s_index].
  assert (Hmask :
    traverse (fun x =>
                ge <- cell_le begin x ;;
                le <- cell_le x end_ ;;
                Ok (NpBool (ge && le))) cells
    = Ok (map (fun c => NpBool (within b e c)) cells)).
  { induction Hcells as [|c cells [t Ht] _ IH]; [reflexivity|].
    cbn [traverse map].
    rewrite (cell_le_timestamps _ _ _ _ _ Hb Ht).
    rewrite (cell_le_timestamps _ _ _ _ _ Ht He).
    cbn [bind]. rewrite IH. unfold within. rewrite Ht. reflexivity. }
  rewrite Hmask. reflexivity.
Qed.

Lemma select_map {A : Type} (f : A -> bool) (rows : list A) :
  select rows (map f rows) = List.filter f rows.
Proof.
  induction rows as [|r rows IH]; [reflexivity|].
  cbn. rewrite IH. reflexivity.
Qed.

Lemma bool_cells {A : Type} (f : A -> bool) (xs : list A) :
  forallb is_bool_cell (map (fun x => NpBool (f x)) xs) = true.
Proof. induction xs as [|x xs IH]; [reflexivity|exact IH]. Qed.

Lemma select_other (name : string) :
  forall columns : list string,
    name ∉ columns ->
    select columns (map (fun c => bool_decide (c = name)) columns) = [].
Proof.
  induction columns as [|c columns IH]; intros Hnot; [reflexivity|].
  apply not_elem_of_cons in Hnot as [Hne Hnot]. cbn [map select].
  rewrite bool_decide_eq_false_2 by congruence. now apply IH.
Qed.

Lemma select_once (name : string) :
  forall columns : list string,
    NoDup columns ->
    (length (select columns (map (fun c => bool_decide (c = name)) columns))
     <= 1)%nat.
Proof.
  induction columns as [|c columns IH]; intros Hnodup; [cbn; lia|].
  apply NoDup_cons in Hnodup as [Hnot Hnodup]. cbn [map select].
  destruct (bool_decide (c = name)) eqn:Hc.
  - apply bool_decide_eq_true in Hc. subst c.
    rewrite (select_other name columns Hnot). cbn. lia.
  - now apply IH.
Qed.

(** In a table whose column names are distinct, a name selects a
    series. *)
Lemma getitem_value_series (df : DataFrame) (name : string) :
  NoDup (df_columns df) ->
  getitem_value df name = (s <- getitem df name ;; Ok (VSeries s)).
Proof.
  intros Hnodup. unfold getitem_value, columns_named. cbn [df_columns].
  pose proof (select_once name (df_columns df) Hnodup) as Hlen.
  destruct (length _) as [|[|n]]; [reflexivity|reflexivity|lia].
Qed.

(** C2, as stated, fails: [between] includes both bounds.  With rows at
    the timestamps 10, 20 and 30 and the range from 15 to 30, the leaf
    returns the rows at 20 and at 30 (the table is one of one partition,
    whose rows come back labelled from zero). *)
Lemma time_context_includes_end :
  execute_database_table_client no_loc_labels reset_index_one_partition
    "time" (mkDaskTable "t")
    (mkDaskClient {[ "t" := timed_table [(10, 1); (20, 2); (30, 3)] ]})
    (Some (PdTimestamp 15 None, PdTimestamp 30 None))
  = Ok (timed_table [(20, 2); (30, 3)]) /\
  timed_table [(20, 2); (30, 3)] <> timed_table [(20, 2)].
Proof. split; [vm_compute; reflexivity|discriminate]. Qed.

(** C2, amended: under a time context [(begin, end)] the leaf returns
    exactly the rows whose time [t] satisfies [begin <= t <= end], both
    bounds included, in their order and with the index reset by
    [reset_index(drop=True)] (stated for a table whose column names are
    distinct and a time column of timestamps that agree with the two
    bounds on carrying a timezone or not); with rows at 10, 20 and 30 and
    the range from 15 to 30 it returns the rows at 20 and 30. *)
Theorem time_context_filter :
  forall loc_labels reset_index_drop TIME_COL op client df k begin end_ b e
         aware,
    dictionary client !! name op = Some df ->
    NoDup (df_columns df) ->
    column_position TIME_COL (df_columns df) = Some k ->
    instant begin = Some (b, aware) ->
    instant end_ = Some (e, aware) ->
    Forall (fun row => exists t, instant (cell k row) = Some (t, aware))
      (df_rows df) ->
    execute_database_table_client loc_labels reset_index_drop TIME_COL op
      client (Some (begin, end_))
    = Ok (reset_index_drop
            (mkDataFrame (df_columns df) (df_dtypes df)
               (List.filter (fun row => within b e (cell k row))
                  (df_rows df)))).
Proof.
  intros loc_labels reset_index_drop TIME_COL op client df k begin end_ b e
    aware Hdf Hnodup Hk Hb He Hrows.
  unfold execute_database_table_client. rewrite Hdf.
  rewrite (getitem_value_series df TIME_COL Hnodup).
  unfold has_column, getitem. rewrite Hk.
  rewrite bool_decide_eq_true_2 by eauto. cbn [negb bind].
  rewrite (between_timestamps _ _ _ _ _ _ b e aware Hb He).
  2: { rewrite Forall_map. exact Hrows. }
  cbn [bind]. unfold loc_series. cbn [s_values s_index].
  rewrite !map_map.
  rewrite (bool_cells (fun row => within b e (nth k (snd row) PyNone))).
  rewrite bool_decide_eq_true_2 by reflexivity.
  cbn [truth bind].
  rewrite (select_map (fun row => within b e (cell k row))).
  reflexivity.
Qed.

Lemma time_context_filter_witness :
  execute_database_table_client no_loc_labels reset_index_one_partition
    "time" (mkDaskTable "t")
    (mkDaskClient {[ "t" := timed_table [(10, 1); (20, 2); (30, 3)] ]})
    (Some (PdTimestamp 15 None, PdTimestamp 30 None))
  = Ok (timed_table [(20, 2); (30, 3)]).
Proof.
  apply (time_context_filter no_loc_labels reset_index_one_partition "time"
           (mkDaskTable "t")
           (mkDaskClient {[ "t" := timed_table [(10, 1); (20, 2); (30, 3)] ]})
           (timed_table [(10, 1); (20, 2); (30, 3)]) 0%nat
           (PdTimestamp 15 None) (PdTimestamp 30 None) 15 30 false).
  - reflexivity.
  - apply (bool_decide_unpack _). vm_compute. exact I.
  - reflexivity.
  - reflexivity.
  - reflexivity.
  - repeat constructor; eexists; reflexivity.
Defined.

(** X6: without a time context the leaf returns the table of the client
    as it is, and under a time context a table without the time column
    raises [IbisError]. *)
Theorem leaf_without_time_column :
  forall loc_labels reset_index_drop TIME_COL op client df timecontext,
    dictionary client !! name op = Some df ->
    execute_database_table_client loc_labels reset_index_drop TIME_COL op
      client None = Ok df /\
    (column_position TIME_COL (df_columns df) = None ->
     execute_database_table_client loc_labels reset_index_drop TIME_COL op
       client (Some timecontext)
     = Raise (IbisError
                "Table must have a time column to execute with time context.")).
Proof.
  intros loc_labels reset_index_drop TIME_COL op client df [begin end_] Hdf.
  unfold execute_database_table_client. rewrite Hdf.
  split; [reflexivity|]. intros Hk. unfold has_column. rewrite Hk.
  rewrite bool_decide_eq_false_2; [reflexivity|].
  intros [x Hx]. discriminate Hx.
Qed.

Lemma leaf_without_time_column_witness :
  execute_database_table_client no_loc_labels reset_index_one_partition
    "when" (mkDaskTable "t")
    (mkDaskClient {[ "t" := timed_table [(10, 1)] ]})
    (Some (PdTimestamp 0 None, PdTimestamp 20 None))
  = Raise (IbisError
             "Table must have a time column to execute with time context.").
Proof.
  refine (proj2 (leaf_without_time_column no_loc_labels
                   reset_index_one_partition "when"
                   (mkDaskTable "t")
                   (mkDaskClient {[ "t" := timed_table [(10, 1)] ]})
                   (timed_table [(10, 1)])
                   (PdTimestamp 0 None, PdTimestamp 20 None) _) _).
  - vm_compute. reflexivity.
  - reflexivity.
Defined.

End LeafFacts.

(** ** The aggregation rule *)

Module AggregationFacts.
Import Datatypes Values Frames Aggregations.

Section Facts.
Context {Expr Scope : Type}.
Variable E : evaluator Expr Scope.
Variable P : pandas.

(** With a having clause and no grouping key, the rule raises what the
    aggregation raised, or else the error of the having clause. *)
Lemma having_without_keys (op : Aggregation Expr) (data : DataFrame)
    (scope : Scope) (timecontext : option TimeContext) :
  having op <> [] -> by_ op = [] ->
  execute_aggregation_dataframe E P op data scope timecontext
  = match aggregate E P op data scope timecontext with
    | Ok _ => Raise (ValueError having_message)
    | Raise e => Raise e
    end.
Proof.
  intros Hhaving Hby. unfold execute_aggregation_dataframe.
  destruct (aggregate E P op data scope timecontext) as [r|e]; [|reflexivity].
  cbn [bind]. unfold filter_having.
  destruct (having op); [contradiction|]. now rewrite Hby.
Qed.

Lemma zip_and_masks (a b : list bool) :
  zip_and (map NpBool a) (map NpBool b) = Ok (map NpBool (mask_and a b)).
Proof.
  revert b. induction a as [|x a IH]; intros [|y b]; try reflexivity.
  cbn. rewrite IH. reflexivity.
Qed.

Lemma truth_of_masks (mask : list bool) : map truth (map NpBool mask) = mask.
Proof. induction mask as [|b mask IH]; [reflexivity|]. cbn. now rewrite IH. Qed.

Lemma masks_are_boolean (mask : list bool) :
  forallb is_bool_cell (map NpBool mask) = true.
Proof. induction mask as [|b mask IH]; [reflexivity|exact IH]. Qed.

Lemma reduce_and_masks (data : DataFrame) (scope : Scope)
    (timecontext : option TimeContext) (rest : list Expr)
    (masks : list (list bool)) :
  Forall2 (evaluates_to_mask E data scope timecontext) rest masks ->
  forall (s : Series) (a : list bool),
    s_index s = frame_index data ->
    s_values s = map NpBool a ->
    exists s',
      reduce_and E P (VSeries s) rest scope timecontext = Ok (VSeries s') /\
      s_index s' = frame_index data /\
      s_values s' = map NpBool (all_masks a masks).
Proof.
  induction 1 as [|e m rest masks (se & He & Hie & Hve & _) _ IH];
    intros s a Hindex Hvalues.
  - exists s. auto.
  - cbn [reduce_and]. rewrite He. cbn [bind and_].
    rewrite Hindex, Hie, bool_decide_eq_true_2 by reflexivity.
    rewrite Hvalues, Hve, zip_and_masks. cbn [bind].
    apply IH; reflexivity.
Qed.

(** The predicates, combined by [&], select the rows of the input table
    at the positions where every mask holds. *)
Lemma filter_predicates_masks (op : Aggregation Expr) (data : DataFrame)
    (scope : Scope) (timecontext : option TimeContext)
    (mask : list bool) (masks : list (list bool)) :
  Forall2 (evaluates_to_mask E data scope timecontext) (predicates op)
    (mask :: masks) ->
  filter_predicates E P op data scope timecontext
  = Ok (mkDataFrame (df_columns data) (df_dtypes data)
          (select (df_rows data) (all_masks mask masks))).
Proof.
  intros Hmasks. unfold filter_predicates.
  destruct (predicates op) as [|p ps]; [inversion Hmasks|].
  apply Forall2_cons_1 in Hmasks as [(s & Hs & Hindex & Hvalues & _) Hrest].
  unfold conjunction. rewrite Hs. cbn [bind].
  destruct (reduce_and_masks data scope timecontext ps masks Hrest s mask
              Hindex Hvalues) as (s' & -> & Hindex' & Hvalues').
  cbn [bind loc]. unfold loc_series.
  rewrite Hvalues', masks_are_boolean, Hindex'.
  rewrite bool_decide_eq_true_2 by reflexivity.
  now rewrite truth_of_masks.
Qed.

Lemma group_frame (op : Aggregation Expr) (data : DataFrame)
    (scope : Scope) (timecontext : option TimeContext) (source : value) :
  group E op data scope timecontext = Ok source ->
  frame_of source = Some data.
Proof.
  unfold group. destruct (by_ op); [intros [= <-]; reflexivity|].
  destruct (traverse _ _); cbn [bind]; [intros [= <-]; reflexivity|].
  discriminate.
Qed.

(** The grouping is applied to the table the predicates have filtered,
    and the metrics are computed in the scope extended with that source. *)
Lemma aggregate_source (op : Aggregation Expr) (data : DataFrame)
    (scope : Scope) (timecontext : option TimeContext)
    (result : DataFrame) (scope' : Scope) :
  aggregate E P op data scope timecontext = Ok (result, scope') ->
  exists filtered source,
    filter_predicates E P op data scope timecontext = Ok filtered /\
    group E op filtered scope timecontext = Ok source /\
    frame_of source = Some filtered /\
    scope' = merge_scope E scope
               (make_scope E (table op) source timecontext).
Proof.
  unfold aggregate. destruct (metrics op); [discriminate|].
  destruct (sort_keys op); [|discriminate].
  destruct (filter_predicates E P op data scope timecontext)
    as [filtered|]; [|discriminate].
  cbn [bind].
  destruct (group E op filtered scope timecontext) as [source|] eqn:Hgroup;
    [|discriminate].
  cbn [bind]. destruct (traverse _ _); [|discriminate]. cbn [bind].
  destruct (concat P _); [|discriminate]. cbn [bind].
  intros [= _ <-]. exists filtered, source.
  split; [reflexivity|]. split; [exact Hgroup|].
  split; [exact (group_frame _ _ _ _ _ Hgroup)|reflexivity].
Qed.

Lemma select_length {A B : Type} (f : B -> bool) (rows : list A)
    (mask : list B) :
  length mask = length rows ->
  length (select rows (map f mask)) = length (List.filter f mask).
Proof.
  revert rows. induction mask as [|m mask IH]; intros [|r rows] Hlen;
    try discriminate; [reflexivity|].
  cbn. destruct (f m); cbn; rewrite IH; auto.
Qed.

(** When the rule returns under a having clause, the combined predicate
    had the length of the aggregated table, and a boolean predicate kept
    the rows at its true positions. *)
Lemma having_filter (op : Aggregation Expr) (data : DataFrame)
    (scope : Scope) (timecontext : option TimeContext) (result : DataFrame) :
  having op <> [] ->
  execute_aggregation_dataframe E P op data scope timecontext = Ok result ->
  exists aggregated scope' predicate,
    aggregate E P op data scope timecontext = Ok (aggregated, scope') /\
    conjunction E P (having op) scope' timecontext = Ok (VSeries predicate) /\
    series_len predicate = frame_len aggregated /\
    (forallb is_bool_cell (s_values predicate) = true ->
     df_rows result
     = select (df_rows aggregated) (map truth (s_values predicate)) /\
     frame_len result = true_count (s_values predicate)).
Proof.
  intros Hhaving. unfold execute_aggregation_dataframe.
  destruct (aggregate E P op data scope timecontext)
    as [[aggregated scope']|]; [|discriminate].
  cbn [bind fst snd]. unfold filter_having.
  destruct (having op) as [|h hs] eqn:Hh; [contradiction|].
  destruct (by_ op); [discriminate|].
  destruct (conjunction E P (h :: hs) scope' timecontext)
    as [predicate|] eqn:Hpred; [|discriminate].
  cbn [bind].
  destruct (py_len predicate) as [n|] eqn:Hlen; [|discriminate].
  cbn [bind]. destruct (bool_decide (n = frame_len aggregated)) eqn:Hn;
    [|discriminate].
  apply bool_decide_eq_true in Hn. cbn [negb].
  destruct predicate as [|s| | |]; try discriminate.
  cbn [values bind]. cbn in Hlen. injection Hlen as <-.
  intros Hloc. exists aggregated, scope', s.
  split; [reflexivity|]. split; [exact Hpred|]. split; [exact Hn|].
  intros Hbool. unfold loc_array in Hloc. rewrite Hbool in Hloc.
  rewrite bool_decide_eq_true_2 in Hloc by exact Hn.
  injection Hloc as <-. split; [reflexivity|].
  unfold frame_len at 1. cbn [df_rows].
  unfold true_count. apply select_length. exact Hn.
Qed.

(** A predicate of another length than the aggregated table fails the
    assertion. *)
Lemma having_length_asserted (op : Aggregation Expr) (data : DataFrame)
    (scope : Scope) (timecontext : option TimeContext)
    (aggregated : DataFrame) (scope' : Scope) (predicate : Series) :
  having op <> [] -> by_ op <> [] ->
  aggregate E P op data scope timecontext = Ok (aggregated, scope') ->
  conjunction E P (having op) scope' timecontext = Ok (VSeries predicate) ->
  series_len predicate <> frame_len aggregated ->
  execute_aggregation_dataframe E P op data scope timecontext
  = Raise (AssertionError
             "length of predicate does not match length of DataFrame").
Proof.
  intros Hhaving Hby Hagg Hpred Hlen. unfold execute_aggregation_dataframe.
  rewrite Hagg. cbn [bind fst snd]. unfold filter_having.
  destruct (having op); [contradiction|].
  destruct (by_ op); [contradiction|].
  rewrite Hpred. cbn [bind py_len].
  now rewrite bool_decide_eq_false_2.
Qed.

(** The aggregation before the having clause, from its steps. *)
Lemma aggregate_result (op : Aggregation Expr) (data : DataFrame)
    (scope : Scope) (timecontext : option TimeContext)
    (filtered : DataFrame) (source : value) (pieces : list value)
    (result : DataFrame) :
  metrics op <> [] -> sort_keys op = [] ->
  filter_predicates E P op data scope timecontext = Ok filtered ->
  group E op filtered scope timecontext = Ok source ->
  traverse
    (fun metric =>
       piece <- execute E metric
                  (merge_scope E scope
                     (make_scope E (table op) source timecontext))
                  timecontext ;;
       set_name piece (get_name E metric))
    (metrics op) = Ok pieces ->
  concat P pieces = Ok result ->
  aggregate E P op data scope timecontext
  = Ok (aggregated_table E P op result,
        merge_scope E scope (make_scope E (table op) source timecontext)).
Proof.
  intros Hmetrics Hsort Hfilter Hgroup Hpieces Hconcat. unfold aggregate.
  destruct (metrics op) as [|m ms] eqn:Hm; [contradiction|].
  rewrite Hsort, Hfilter. cbn [bind]. rewrite Hgroup. cbn [bind].
  rewrite Hpieces. cbn [bind]. rewrite Hconcat. reflexivity.
Qed.

(** The rule, from the aggregated table: without a having clause it
    returns the table, and with one whose combined predicate is a boolean
    series of the length of the table it returns the rows at the true
    positions of the predicate, as many as the predicate has true
    values. *)
Lemma rule_result (op : Aggregation Expr) (data : DataFrame)
    (scope : Scope) (timecontext : option TimeContext)
    (aggregated : DataFrame) (scope' : Scope) :
  aggregate E P op data scope timecontext = Ok (aggregated, scope') ->
  (having op = [] ->
   execute_aggregation_dataframe E P op data scope timecontext
   = Ok aggregated) /\
  (forall predicate : Series,
     having op <> [] -> by_ op <> [] ->
     conjunction E P (having op) scope' timecontext
     = Ok (VSeries predicate) ->
     forallb is_bool_cell (s_values predicate) = true ->
     series_len predicate = frame_len aggregated ->
     let kept :=
       mkDataFrame (df_columns aggregated) (df_dtypes aggregated)
         (select (df_rows aggregated) (map truth (s_values predicate))) in
     execute_aggregation_dataframe E P op data scope timecontext = Ok kept /\
     frame_len kept = true_count (s_values predicate)).
Proof.
  intros Hagg. unfold execute_aggregation_dataframe. rewrite Hagg.
  cbn [bind fst snd]. unfold filter_having. split.
  - intros ->. reflexivity.
  - intros predicate Hhaving Hby Hpred Hbool Hlen.
    destruct (having op); [contradiction|].
    destruct (by_ op); [contradiction|].
    rewrite Hpred. cbn [bind py_len].
    rewrite bool_decide_eq_true_2 by exact Hlen. cbn [negb values bind].
    unfold loc_array. rewrite Hbool.
    rewrite bool_decide_eq_true_2 by exact Hlen.
    split; [reflexivity|].
    unfold frame_len at 1. cbn [df_rows].
    unfold true_count. apply select_length. exact Hlen.
Qed.

End Facts.

(** C3, as stated, fails: the check of the having clause comes last, after
    the metrics are evaluated.  A node with a having clause, no grouping
    key, no sort key and the metric [arbitrary(how='heavy')] raises the
    [OperationNotDefinedError] of the rule for [Arbitrary], not the error
    of the having clause. *)
Lemma having_after_failing_metric :
  having sample_ungrouped_arbitrary <> [] /\
  by_ sample_ungrouped_arbitrary = [] /\
  sort_keys sample_ungrouped_arbitrary = [] /\
  execute_aggregation_dataframe (sample_evaluator sample_env) sample_pandas
    sample_ungrouped_arbitrary sample_table tt None
  = Raise (OperationNotDefinedError "Arbitrary 'heavy' is not supported").
Proof.
  split; [discriminate|]. split; [reflexivity|].
  split; [reflexivity|vm_compute; reflexivity].
Qed.

(** C3, amended: an aggregation with a having clause and no grouping key
    never returns a result; it raises the [ValueError] of the having
    clause whenever the aggregation before the clause succeeds, and
    otherwise the error that the aggregation raised first (that of a
    predicate or of a metric that fails). *)
Theorem having_requires_grouping :
  forall (Expr Scope : Type) (E : evaluator Expr Scope) (P : pandas)
         (op : Aggregation Expr) (data : DataFrame) (scope : Scope)
         (timecontext : option TimeContext),
    having op <> [] -> by_ op = [] ->
    let run := execute_aggregation_dataframe E P op data scope timecontext in
    returns run = false /\
    (forall r, aggregate E P op data scope timecontext = Ok r ->
               run = Raise (ValueError having_message)) /\
    (forall e, aggregate E P op data scope timecontext = Raise e ->
               run = Raise e).
Proof.
  intros Expr Scope E P op data scope timecontext Hhaving Hby run.
  subst run. rewrite (having_without_keys E P op data scope timecontext
                        Hhaving Hby).
  destruct (aggregate E P op data scope timecontext) as [r|e].
  - split; [reflexivity|]. split; [reflexivity|discriminate].
  - split; [reflexivity|]. split; [discriminate|now intros ? [= <-]].
Qed.

Lemma having_requires_grouping_witness :
  execute_aggregation_dataframe (sample_evaluator sample_env) sample_pandas
    sample_ungrouped sample_table tt None
  = Raise (ValueError having_message).
Proof.
  apply (proj1 (proj2 (having_requires_grouping _ _
                         (sample_evaluator sample_env) sample_pandas
                         sample_ungrouped sample_table tt None
                         ltac:(discriminate) eq_refl))
           (mkDataFrame ["m"] [NumpyDtype np_int64]
              [(0, [NpInt64 1]); (1, [NpInt64 2])], tt)).
  vm_compute. reflexivity.
Defined.

(** C6: the predicates are combined by [&] and select the rows of the
    input table where every predicate holds; the grouping is applied to
    the table so filtered, which is the source the metrics are computed
    on; and the having clause is applied under the assertion that the
    combined having predicate has as many entries as the aggregated table
    has rows: when the rule returns, the lengths agreed and the result
    holds the rows at the true positions of the predicate, as many as the
    predicate has true values, while a predicate of another length raises
    the [AssertionError].  The result of the rule follows from its steps:
    the aggregated table is what [concat] makes of the metrics evaluated
    on the grouped source, with the group keys as columns; without a
    having clause the rule returns that table, and with a having clause
    whose combined predicate is a boolean series of the length of the
    table it returns the rows of the table at the true positions of the
    predicate. *)
Theorem aggregation_filters :
  forall (Expr Scope : Type) (E : evaluator Expr Scope) (P : pandas)
         (op : Aggregation Expr) (data : DataFrame) (scope : Scope)
         (timecontext : option TimeContext),
    let run := execute_aggregation_dataframe E P op data scope timecontext in
    (forall mask masks,
       Forall2 (evaluates_to_mask E data scope timecontext) (predicates op)
         (mask :: masks) ->
       filter_predicates E P op data scope timecontext
       = Ok (mkDataFrame (df_columns data) (df_dtypes data)
               (select (df_rows data) (all_masks mask masks)))) /\
    (forall result scope',
       aggregate E P op data scope timecontext = Ok (result, scope') ->
       exists filtered source,
         filter_predicates E P op data scope timecontext = Ok filtered /\
         group E op filtered scope timecontext = Ok source /\
         frame_of source = Some filtered /\
         scope' = merge_scope E scope
                    (make_scope E (table op) source timecontext)) /\
    (forall result,
       having op <> [] -> run = Ok result ->
       exists aggregated scope' predicate,
         aggregate E P op data scope timecontext = Ok (aggregated, scope') /\
         conjunction E P (having op) scope' timecontext
         = Ok (VSeries predicate) /\
         series_len predicate = frame_len aggregated /\
         (forallb is_bool_cell (s_values predicate) = true ->
          df_rows result
          = select (df_rows aggregated) (map truth (s_values predicate)) /\
          frame_len result = true_count (s_values predicate))) /\
    (forall aggregated scope' predicate,
       having op <> [] -> by_ op <> [] ->
       aggregate E P op data scope timecontext = Ok (aggregated, scope') ->
       conjunction E P (having op) scope' timecontext
       = Ok (VSeries predicate) ->
       series_len predicate <> frame_len aggregated ->
       run = Raise (AssertionError
                      "length of predicate does not match length of DataFrame")) /\
    (forall filtered source pieces result,
       metrics op <> [] -> sort_keys op = [] ->
       filter_predicates E P op data scope timecontext = Ok filtered ->
       group E op filtered scope timecontext = Ok source ->
       traverse
         (fun metric =>
            piece <- execute E metric
                       (merge_scope E scope
                          (make_scope E (table op) source timecontext))
                       timecontext ;;
            set_name piece (get_name E metric))
         (metrics op) = Ok pieces ->
       concat P pieces = Ok result ->
       aggregate E P op data scope timecontext
       = Ok (aggregated_table E P op result,
             merge_scope E scope
               (make_scope E (table op) source timecontext))) /\
    (forall aggregated scope',
       aggregate E P op data scope timecontext = Ok (aggregated, scope') ->
       (having op = [] -> run = Ok aggregated) /\
       (forall predicate : Series,
          having op <> [] -> by_ op <> [] ->
          conjunction E P (having op) scope' timecontext
          = Ok (VSeries predicate) ->
          forallb is_bool_cell (s_values predicate) = true ->
          series_len predicate = frame_len aggregated ->
          let kept :=
            mkDataFrame (df_columns aggregated) (df_dtypes aggregated)
              (select (df_rows aggregated)
                 (map truth (s_values predicate))) in
          run = Ok kept /\
          frame_len kept = true_count (s_values predicate))).
Proof.
  intros Expr Scope E P op data scope timecontext run. subst run.
  split; [|split; [|split; [|split; [|split]]]].
  - intros mask masks. apply filter_predicates_masks.
  - intros result scope'. apply aggregate_source.
  - intros result. apply having_filter.
  - intros aggregated scope' predicate. apply having_length_asserted.
  - intros filtered source pieces result. apply aggregate_result.
  - intros aggregated scope'. apply rule_result.
Qed.

Lemma aggregation_filters_witness :
  filter_predicates (sample_evaluator sample_env) sample_pandas
    sample_aggregation sample_table tt None
  = Ok (mkDataFrame ["g"; "v"] [NumpyDtype np_int64; NumpyDtype np_int64]
          [(0, [NpInt64 1; NpInt64 1]); (1, [NpInt64 2; NpInt64 2])]) /\
  execute_aggregation_dataframe (sample_evaluator sample_env) sample_pandas
    sample_aggregation sample_table tt None
  = Ok (mkDataFrame ["m"] [NumpyDtype np_int64] [(0, [NpInt64 1])]).
Proof.
  split.
  - apply (proj1 (aggregation_filters _ _ (sample_evaluator sample_env)
                    sample_pandas sample_aggregation sample_table tt None)
             [true; true; false] []).
    repeat constructor. eexists. repeat split; reflexivity.
  - refine (proj1
              (proj2
                 (proj2 (proj2 (proj2 (proj2 (proj2
                    (aggregation_filters _ _ (sample_evaluator sample_env)
                       sample_pandas sample_aggregation sample_table tt
                       None)))))
                    (mkDataFrame ["m"] [NumpyDtype np_int64]
                       [(0, [NpInt64 1]); (1, [NpInt64 2])]) tt _)
                 (mkSeries None (NumpyDtype np_bool) [0; 1]
                    [NpBool true; NpBool false]) _ _ _ _ _)).
    + vm_compute. reflexivity.
    + discriminate.
    + discriminate.
    + vm_compute. reflexivity.
    + reflexivity.
    + reflexivity.
Defined.

End AggregationFacts.

(** ** Schemas and the client *)

Module SchemaFacts.
Import Datatypes Values Frames Schemas.

Lemma traverse_ok {A B : Type} (f : A -> result B) :
  forall (xs : list A) (ys : list B),
    traverse f xs = Ok ys -> Forall2 (fun x y => f x = Ok y) xs ys.
Proof.
  induction xs as [|x xs IH]; intros ys H.
  - injection H as <-. constructor.
  - cbn in H. destruct (f x) as [y|e] eqn:Hx; [|discriminate].
    cbn in H. destruct (traverse f xs) as [ys'|e]; [|discriminate].
    injection H as <-. constructor; [exact Hx|now apply IH].
Qed.

Lemma traverse_raises {A B : Type} (f : A -> result B) :
  forall (xs : list A) (x : A),
    In x xs -> returns (f x) = false -> returns (traverse f xs) = false.
Proof.
  induction xs as [|x' xs IH]; intros x Hin Hx; [contradiction|].
  cbn. destruct (f x') as [y|e] eqn:Hx'; [|reflexivity].
  cbn. destruct Hin as [->|Hin].
  - rewrite Hx' in Hx. discriminate.
  - specialize (IH x Hin Hx). destruct (traverse f xs); [discriminate|].
    reflexivity.
Qed.

(** X8: native to logical and back.  The native dtype of the logical
    type of a native dtype is again that dtype for the boolean, the
    integers, the floats of 32 and 64 bits, the datetime in nanoseconds
    and the categorical.  A datetime with a timezone comes back as the
    dtype that pandas builds, in nanoseconds, from the printed name of its
    zone, or raises what pandas raises for that name.  The timedelta in
    nanoseconds and the timedelta without a unit come back as the dtype
    numpy builds for the units ns and s.  Half-precision floats and
    strings come back as objects and the datetime without a unit comes
    back in nanoseconds; the object dtype and the datetimes and timedeltas
    of another unit have no logical type, and raise a [TypeError]. *)
Theorem native_round_trip_exact (D : dtype_kernels) :
  (forall d, native_round_trips d = true ->
     native_round_trip D (NumpyDtype d) = Ok (NumpyDtype d)) /\
  native_round_trip D CategoricalDtype = Ok CategoricalDtype /\
  (forall unit tz,
     tz <> "" ->
     native_round_trip D (DatetimeTZDtype unit tz)
     = (name <- zone_name D tz ;; Ok (DatetimeTZDtype "ns" name))) /\
  native_round_trip D (NumpyDtype (np_timedelta64 (Some "ns")))
  = (unit <- timedelta64_unit D "ns" ;;
     Ok (NumpyDtype (np_timedelta64 (Some unit)))) /\
  native_round_trip D (NumpyDtype (np_timedelta64 None))
  = (unit <- timedelta64_unit D "s" ;;
     Ok (NumpyDtype (np_timedelta64 (Some unit)))) /\
  native_round_trip D (NumpyDtype np_float16) = Ok (NumpyDtype np_object) /\
  native_round_trip D (NumpyDtype np_str) = Ok (NumpyDtype np_object) /\
  native_round_trip D (NumpyDtype (np_datetime64 None))
  = Ok (NumpyDtype (np_datetime64 (Some "ns"))) /\
  native_round_trip D (NumpyDtype np_object)
  = Raise (TypeError "numpy dtype is not supported in the dask backend") /\
  (forall unit,
     unit <> "ns" ->
     native_round_trip D (NumpyDtype (np_datetime64 (Some unit)))
     = Raise (TypeError "numpy dtype is not supported in the dask backend") /\
     native_round_trip D (NumpyDtype (np_timedelta64 (Some unit)))
     = Raise (TypeError "numpy dtype is not supported in the dask backend")).
Proof.
  repeat match goal with |- _ /\ _ => split end; try reflexivity.
  - intros d Hd.
    destruct d as [| | | | | | | | | | | | | |u|u];
      try discriminate Hd; try reflexivity.
    cbn in Hd. apply bool_decide_eq_true in Hd. subst u. reflexivity.
  - intros unit tz Htz.
    unfold native_round_trip, dt_dtype, from_dask_tzdtype. cbn [bind].
    unfold ibis_dtype_to_dask, make_datetimetz.
    change (isinstance (Timestamp (Some tz)) Classes.Timestamp) with true.
    change (default "" (timezone (Timestamp (Some tz)))) with tz.
    cbn [timezone truthy].
    rewrite bool_decide_eq_false_2 by exact Htz. reflexivity.
  - intros unit Hunit.
    unfold native_round_trip, dt_dtype, from_numpy_dtype.
    cbn [_numpy_dtypes dict_get].
    rewrite !bool_decide_eq_false_2 by congruence.
    split; reflexivity.
Qed.

Lemma native_round_trip_exact_witness :
  native_round_trip sample_dtype_kernels (DatetimeTZDtype "ns" "UTC")
  = Ok (DatetimeTZDtype "ns" "UTC") /\
  native_round_trip sample_dtype_kernels (NumpyDtype np_int64)
  = Ok (NumpyDtype np_int64) /\
  native_round_trip sample_dtype_kernels
    (NumpyDtype (np_timedelta64 (Some "us")))
  = Raise (TypeError "numpy dtype is not supported in the dask backend").
Proof.
  pose proof (native_round_trip_exact sample_dtype_kernels)
    as (Hplain & _ & Hzone & _ & _ & _ & _ & _ & _ & Hunit).
  split; [|split].
  - rewrite (Hzone "ns" "UTC") by discriminate. reflexivity.
  - apply (Hplain np_int64). reflexivity.
  - apply (Hunit "us"). discriminate.
Defined.

Section Inference.
Variable infer_dask_dtype : value -> string.

Local Abbreviation infer := (infer_dask_schema infer_dask_dtype).
Local Abbreviation column_type := (infer_column infer_dask_dtype).

Lemma inferred_columns (df : DataFrame) (schema : option (gmap string dtype))
    (sch : Schema) :
  infer df schema = Ok sch ->
  Forall2 (fun cd ct =>
             fst ct = fst cd /\
             column_type df (default ∅ schema) (fst cd) (snd cd)
             = Ok (snd ct))
    (frame_dtypes df) sch.
Proof.
  intros H. apply traverse_ok in H.
  eapply Forall2_impl; [exact H|].
  intros [c d] [c' t] Hc. cbn [fst snd].
  destruct (column_type df (default ∅ schema) c d) as [t0|e];
    [|discriminate]. cbn in Hc. injection Hc as <- <-. split; reflexivity.
Qed.

(** X9: the schema inferred for a table has the column names of the
    table, in order; a column for which the caller gave a type has that
    type; an object column without a given type is boolean or string; and
    any other column has the logical type of its dtype. *)
Theorem inferred_schema (df : DataFrame) (schema : option (gmap string dtype))
    (sch : Schema) :
  infer df schema = Ok sch ->
  map fst sch = map fst (frame_dtypes df) /\
  Forall2 (fun cd ct =>
             match default ∅ schema !! fst cd with
             | Some given => snd ct = given
             | None =>
                 if bool_decide (snd cd = NumpyDtype np_object)
                 then snd ct = Boolean \/ snd ct = String
                 else dt_dtype (snd cd) = Ok (snd ct)
             end)
    (frame_dtypes df) sch.
Proof.
  intros H. apply inferred_columns in H. split.
  - induction H as [|cd ct l l' [Hname _] _ IH]; [reflexivity|].
    cbn [map]. now rewrite Hname, IH.
  - eapply Forall2_impl; [exact H|].
    intros [c d] [c' t] [_ Ht]. cbn [fst snd] in *.
    unfold infer_column in Ht.
    destruct (default ∅ schema !! c) as [given|]; [now injection Ht|].
    destruct (bool_decide (d = NumpyDtype np_object)); [|exact Ht].
    destruct (getitem_value df c) as [column|e]; [|discriminate].
    cbn [bind] in Ht.
    destruct (bool_decide (infer_dask_dtype column = "mixed")
              || bool_decide (infer_dask_dtype column = "decimal"));
      [discriminate|].
    destruct (dict_get _inferable_dask_dtypes (infer_dask_dtype column))
      as [t0|] eqn:Hget; [|discriminate].
    injection Ht as <-. revert Hget. cbn [_inferable_dask_dtypes dict_get].
    repeat (destruct (bool_decide (_ = infer_dask_dtype column));
            [intros [= <-]; auto|]).
    discriminate.
Qed.

Lemma traverse_prefix {A B : Type} (f : A -> result B) (e : exn) (x : A) :
  forall (pre post : list A),
    Forall (fun y => returns (f y) = true) pre ->
    f x = Raise e ->
    traverse f (pre ++ x :: post) = Raise e.
Proof.
  induction pre as [|y pre IH]; intros post Hpre Hx.
  - cbn. now rewrite Hx.
  - cbn. inversion Hpre as [|? ? Hy Hrest]; subst.
    destruct (f y); [|discriminate]. cbn [bind].
    now rewrite (IH post Hrest Hx).
Qed.

(** X10: inference stops at the first object column without a given type
    whose values are of none of the kinds boolean, string, unicode, bytes
    and empty: with a [TypeError] for the kinds mixed and decimal, and
    with a [KeyError] of the kind for any other kind, such as integer. *)
Theorem uninferable_column_raises (df : DataFrame)
    (schema : option (gmap string dtype)) (c : string) (column : value)
    (pre post : list (string * native)) :
  frame_dtypes df = pre ++ (c, NumpyDtype np_object) :: post ->
  Forall (fun cd =>
            returns (column_type df (default ∅ schema) (fst cd) (snd cd))
            = true) pre ->
  default ∅ schema !! c = None ->
  getitem_value df c = Ok column ->
  dict_get _inferable_dask_dtypes (infer_dask_dtype column) = None ->
  infer df schema
  = Raise (if bool_decide (infer_dask_dtype column = "mixed")
              || bool_decide (infer_dask_dtype column = "decimal")
           then TypeError "Unable to infer type of column"
           else KeyError (infer_dask_dtype column)).
Proof.
  intros Hcols Hpre Hnone Hcol Hkind. unfold infer_dask_schema.
  rewrite Hcols. apply traverse_prefix.
  - eapply Forall_impl; [exact Hpre|]. intros [c' d'] Hr. cbn [fst snd] in Hr.
    destruct (column_type df (default ∅ schema) c' d'); [reflexivity|].
    discriminate.
  - unfold infer_column. rewrite Hnone.
    rewrite bool_decide_eq_true_2 by reflexivity.
    rewrite Hcol. cbn [bind]. rewrite Hkind.
    destruct (bool_decide (infer_dask_dtype column = "mixed")
              || bool_decide (infer_dask_dtype column = "decimal"));
      reflexivity.
Qed.

End Inference.

Lemma traverse_ext {A B : Type} (f g : A -> result B) :
  forall xs : list A,
    Forall (fun x => f x = g x) xs -> traverse f xs = traverse g xs.
Proof.
  induction xs as [|x xs IH]; intros H; [reflexivity|].
  inversion H as [|? ? Hx Hrest]; subst. cbn. now rewrite Hx, (IH Hrest).
Qed.

(** X11: when the caller gives a type for every object column, the values
    of the table are never inspected: the inferred schema is the same
    whatever the inference of kinds would answer. *)
Theorem given_types_bypass_inference
    (infer1 infer2 : value -> string) (df : DataFrame)
    (schema : gmap string dtype) :
  Forall (fun cd => snd cd = NumpyDtype np_object -> is_Some (schema !! fst cd))
    (frame_dtypes df) ->
  infer_dask_schema infer1 df (Some schema)
  = infer_dask_schema infer2 df (Some schema).
Proof.
  intros H. unfold infer_dask_schema. apply traverse_ext.
  change (default ∅ (Some schema)) with schema.
  eapply Forall_impl; [exact H|]. intros [c d] Hc. cbn [fst snd] in *.
  unfold infer_column.
  destruct (schema !! c) as [given|] eqn:Hget; [reflexivity|].
  destruct (bool_decide (d = NumpyDtype np_object)) eqn:Hd; [|reflexivity].
  apply bool_decide_eq_true in Hd. destruct (Hc Hd) as [t Ht]. discriminate.
Qed.


Lemma inferred_schema_witness :
  map fst [("a", Int64); ("s", String)]
  = map fst (frame_dtypes sample_frame).
Proof.
  refine (proj1 (inferred_schema (fun _ => "string") sample_frame None
                   [("a", Int64); ("s", String)] _)).
  vm_compute. reflexivity.
Defined.

Lemma uninferable_column_raises_witness :
  infer_dask_schema always_mixed sample_frame None
  = Raise (TypeError "Unable to infer type of column").
Proof.
  refine (uninferable_column_raises always_mixed sample_frame None "s"
            (VSeries (mkSeries (Some "s") (NumpyDtype np_object) [0; 1]
                        [PyStr "x"; PyInt 5]))
            [("a", NumpyDtype np_int64)] [] _ _ _ _ _).
  - reflexivity.
  - constructor; [vm_compute; reflexivity|constructor].
  - vm_compute. reflexivity.
  - vm_compute. reflexivity.
  - vm_compute. reflexivity.
Defined.

Lemma given_types_bypass_inference_witness :
  infer_dask_schema always_mixed sample_frame (Some {[ "s" := String ]})
  = infer_dask_schema (fun _ => "string") sample_frame
      (Some {[ "s" := String ]}).
Proof.
  apply given_types_bypass_inference.
  constructor; [intros H; discriminate H|].
  constructor; [|constructor].
  intros _. exists String. vm_compute. reflexivity.
Defined.

Section Client.
Variable infer_dask_dtype : value -> string.
Variable loc_labels : DataFrame -> list scalar -> result DataFrame.
Variable reset_index_drop : DataFrame -> DataFrame.
Variable TIME_COL : string.

Local Abbreviation leaf :=
  (execute_database_table_client loc_labels reset_index_drop TIME_COL).

(** X12: a table stored in a client, by [load_data] or by [create_table]
    with a table (whatever schema comes with it), is what the table leaf
    evaluates to without a time context, and the other tables of the
    client evaluate as before. *)
Theorem loaded_table_is_read_back (client : DaskClient) (table_name : string)
    (obj : DataFrame) :
  leaf (mkDaskTable table_name) (load_data client table_name obj) None
  = Ok obj /\
  (forall D (Converted : Type) convert setitem new_frame
          (schema : option Schema),
     create_table D Converted convert setitem new_frame client table_name
       (Some obj) schema
     = Ok (load_data client table_name obj)) /\
  forall (other : string) (timecontext : option TimeContext),
    other <> table_name ->
    leaf (mkDaskTable other) (load_data client table_name obj) timecontext
    = leaf (mkDaskTable other) client timecontext.
Proof.
  split; [|split].
  - unfold execute_database_table_client, load_data. cbn [dictionary name].
    now rewrite lookup_insert_eq.
  - reflexivity.
  - intros other timecontext Hne.
    unfold execute_database_table_client, load_data. cbn [dictionary name].
    rewrite lookup_insert_ne by congruence. reflexivity.
Qed.

(** X13: [from_dataframe] leaves the table in the client under its name,
    whether the client is new or given; when it returns an expression, the
    node of the expression evaluates to the table, and the schema of the
    expression is the one [get_schema] reports for the name. *)
Theorem from_dataframe_table (df : DataFrame) (table_name : string)
    (given : option DaskClient) :
  let client := fst (from_dataframe infer_dask_dtype df table_name given) in
  let outcome := snd (from_dataframe infer_dask_dtype df table_name given) in
  dictionary client !! table_name = Some df /\
  outcome
  = (schema <- infer_dask_schema infer_dask_dtype df None ;;
     Ok (mkTableExpr (mkDaskTable table_name) schema)) /\
  forall expr : TableExpr,
    outcome = Ok expr ->
    leaf (expr_op expr) client None = Ok df /\
    get_schema infer_dask_dtype client table_name = Ok (expr_schema expr).
Proof.
  intros client outcome.
  assert (Hdf : dictionary client !! table_name = Some df).
  { subst client. destruct given as [given|]; cbn.
    - apply lookup_insert_eq.
    - apply lookup_singleton_eq. }
  assert (Hout : outcome
                 = (schema <- infer_dask_schema infer_dask_dtype df None ;;
                    Ok (mkTableExpr (mkDaskTable table_name) schema))).
  { subst outcome.
    replace (snd (from_dataframe infer_dask_dtype df table_name given))
      with (table infer_dask_dtype client table_name None)
      by (subst client; destruct given; reflexivity).
    unfold table. now rewrite Hdf. }
  split; [exact Hdf|]. split; [exact Hout|].
  intros expr Hexpr. rewrite Hout in Hexpr.
  destruct (infer_dask_schema infer_dask_dtype df None) as [schema|e] eqn:Hs;
    [|discriminate].
  injection Hexpr as <-. cbn [expr_op expr_schema]. split.
  - unfold execute_database_table_client. cbn [name]. now rewrite Hdf.
  - unfold get_schema. now rewrite Hdf.
Qed.

End Client.

Lemma from_dataframe_table_witness :
  execute_database_table_client no_loc_labels reset_index_one_partition
    "time" (mkDaskTable "df")
    (fst (from_dataframe (fun _ => "string") sample_frame "df" None)) None
  = Ok sample_frame /\
  get_schema (fun _ => "string")
    (fst (from_dataframe (fun _ => "string") sample_frame "df" None)) "df"
  = Ok [("a", Int64); ("s", String)].
Proof.
  refine (proj2 (proj2 (from_dataframe_table (fun _ => "string")
                          no_loc_labels reset_index_one_partition "time"
                          sample_frame "df" None))
            (mkTableExpr (mkDaskTable "df") [("a", Int64); ("s", String)])
            _).
  vm_compute. reflexivity.
Defined.

Lemma loaded_table_is_read_back_witness :
  execute_database_table_client no_loc_labels reset_index_one_partition
    "time" (mkDaskTable "t")
    (load_data (connect {[ "t" := sample_frame ]}) "u" sample_frame) None
  = execute_database_table_client no_loc_labels reset_index_one_partition
      "time" (mkDaskTable "t") (connect {[ "t" := sample_frame ]}) None.
Proof.
  refine (proj2 (proj2 (loaded_table_is_read_back no_loc_labels
                          reset_index_one_partition "time"
                          (connect {[ "t" := sample_frame ]}) "u"
                          sample_frame))
            "t" None _).
  intros H. discriminate H.
Defined.


Section Apply.
Variable D : dtype_kernels.
Variable Converted : Type.
Variable convert : native -> dtype -> Series -> result Converted.
Variable setitem : DataFrame -> string -> Converted -> result DataFrame.

Local Abbreviation apply_to :=
  (ibis_schema_apply_to D Converted convert setitem).

Lemma apply_settled_column (df : DataFrame) (ct : string * dtype) :
  settled D df ct ->
  apply_column D Converted convert setitem df (fst ct) (snd ct) = Ok df.
Proof.
  intros (col & Hcol & Hdtype & Hstr). unfold apply_column.
  rewrite Hdtype. cbn [bind]. rewrite Hcol. cbn [bind]. rewrite Hstr.
  now rewrite bool_decide_eq_true_2.
Qed.

Lemma apply_settled_prefix (df : DataFrame) (pre rest : Schema) :
  Forall (settled D df) pre ->
  apply_to (pre ++ rest) df = apply_to rest df.
Proof.
  induction pre as [|[c t] pre IH]; intros H; [reflexivity|].
  inversion H as [|? ? Hct Hpre]; subst.
  cbn [app ibis_schema_apply_to].
  pose proof (apply_settled_column df (c, t) Hct) as E.
  cbn [fst snd] in E. rewrite E. cbn [bind]. now apply IH.
Qed.

(** X14: applying a schema to a table whose columns are already stored as
    the schema asks, none of them a string column, returns the table as it
    is: nothing is converted and nothing is assigned. *)
Theorem apply_to_settled_table (schema : Schema) (df : DataFrame) :
  Forall (settled D df) schema -> apply_to schema df = Ok df.
Proof.
  intros H. rewrite <- (app_nil_r schema).
  now rewrite (apply_settled_prefix df schema [] H).
Qed.

Lemma select_absent (name : string) :
  forall columns : list string,
    column_position name columns = None ->
    select columns (map (fun c => bool_decide (c = name)) columns) = [].
Proof.
  induction columns as [|c columns IH]; intros H; [reflexivity|].
  cbn in H |- *. destruct (bool_decide (c = name)); [discriminate|].
  apply IH. now destruct (column_position name columns).
Qed.

Lemma getitem_absent (df : DataFrame) (name : string) :
  has_column df name = false ->
  getitem_value df name = Raise (KeyError name).
Proof.
  intros H. unfold has_column in H. apply bool_decide_eq_false in H.
  assert (Hpos : column_position name (df_columns df) = None).
  { destruct (column_position name (df_columns df)); [|reflexivity].
    exfalso. apply H. now eexists. }
  unfold getitem_value, columns_named. cbn [df_columns].
  rewrite (select_absent name _ Hpos). cbn [length Nat.leb].
  unfold getitem. now rewrite Hpos.
Qed.

(** X15: for a schema that names a column the table does not have,
    [apply_to] first asks for the native dtype of the type of that column,
    once the columns named before it are passed over: it raises what
    [to_dask] raises for the type, and the [KeyError] of the column when
    the type has a native dtype. *)
Theorem apply_to_missing_column (df : DataFrame) (pre post : Schema)
    (column : string) (type : dtype) :
  Forall (settled D df) pre ->
  has_column df column = false ->
  apply_to (pre ++ (column, type) :: post) df
  = (_ <- ibis_dtype_to_dask D type ;; Raise (KeyError column)).
Proof.
  intros Hpre Hmissing. rewrite (apply_settled_prefix df pre _ Hpre).
  cbn [ibis_schema_apply_to]. unfold apply_column.
  destruct (ibis_dtype_to_dask D type); [|reflexivity]. cbn [bind].
  now rewrite (getitem_absent df column Hmissing).
Qed.

End Apply.


(** A conversion and an assignment that are never reached. *)
Lemma apply_to_settled_table_witness :
  ibis_schema_apply_to sample_dtype_kernels Series
    (fun _ _ _ => Raise (NotImplementedError "convert"))
    (fun _ _ _ => Raise (NotImplementedError "setitem"))
    [("a", Int64)] sample_frame
  = Ok sample_frame.
Proof.
  apply apply_to_settled_table.
  constructor; [|constructor].
  exists (mkSeries (Some "a") (NumpyDtype np_int64) [0; 1]
            [NpInt64 1; NpInt64 2]).
  split; [vm_compute; reflexivity|]. split; vm_compute; reflexivity.
Defined.

Lemma apply_to_missing_column_witness :
  ibis_schema_apply_to sample_dtype_kernels Series
    (fun _ _ _ => Raise (NotImplementedError "convert"))
    (fun _ _ _ => Raise (NotImplementedError "setitem"))
    ([("a", Int64)] ++ [("b", Float64); ("s", String)]) sample_frame
  = Raise (KeyError "b") /\
  ibis_schema_apply_to sample_dtype_kernels Series
    (fun _ _ _ => Raise (NotImplementedError "convert"))
    (fun _ _ _ => Raise (NotImplementedError "setitem"))
    ([("a", Int64)] ++ [("b", Interval "Q"); ("s", String)]) sample_frame
  = Raise (TypeError "Invalid datetime unit in metadata string").
Proof.
  assert (Ha : Forall (settled sample_dtype_kernels sample_frame)
                 [("a", Int64)]).
  { constructor; [|constructor].
    exists (mkSeries (Some "a") (NumpyDtype np_int64) [0; 1]
              [NpInt64 1; NpInt64 2]).
    split; [vm_compute; reflexivity|]. split; vm_compute; reflexivity. }
  split.
  - rewrite (apply_to_missing_column sample_dtype_kernels Series _ _
               sample_frame [("a", Int64)] [("s", String)] "b" Float64 Ha)
      by (vm_compute; reflexivity).
    reflexivity.
  - rewrite (apply_to_missing_column sample_dtype_kernels Series _ _
               sample_frame [("a", Int64)] [("s", String)] "b"
               (Interval "Q") Ha)
      by (vm_compute; reflexivity).
    vm_compute. reflexivity.
Defined.

End SchemaFacts.

(** ** Limit *)

Module LimitFacts.
Import Datatypes Values Frames Limits.

Lemma range_is_monotonic (n : nat) :
  forall k : nat, is_monotonic_increasing (map Z.of_nat (seq k n)) = true.
Proof.
  induction n as [|n IH]; intros k; [reflexivity|].
  cbn [seq map is_monotonic_increasing].
  specialize (IH (S k)). destruct n as [|n]; [reflexivity|].
  cbn [seq map] in IH |- *. rewrite IH, andb_true_r. apply Z.leb_le. lia.
Qed.

Section Slice.
Context {A : Type}.
Variables (offset nrows : nat).

Local Abbreviation inside :=
  (fun row : Z * A =>
     (Z.of_nat offset <=? fst row)
     && (fst row <=? Z.of_nat offset + Z.of_nat nrows)).

Lemma filter_from (rows : list (Z * A)) :
  forall k : nat,
    (offset <= k)%nat ->
    map fst rows = map Z.of_nat (seq k (length rows)) ->
    List.filter inside rows = take (offset + nrows + 1 - k) rows.
Proof.
  induction rows as [|[label cells] rows IH]; intros k Hk Hidx.
  - now rewrite take_nil.
  - cbn [length seq map fst] in Hidx. injection Hidx as -> Hidx.
    specialize (IH (S k) ltac:(lia) Hidx).
    cbn [List.filter fst]. rewrite IH.
    replace (Z.of_nat offset <=? Z.of_nat k) with true
      by (symmetry; apply Z.leb_le; lia).
    cbn [andb].
    destruct (Z.of_nat k <=? Z.of_nat offset + Z.of_nat nrows) eqn:Hle.
    + apply Z.leb_le in Hle.
      replace (offset + nrows + 1 - k)%nat
        with (S (offset + nrows + 1 - S k)) by lia.
      reflexivity.
    + apply Z.leb_gt in Hle.
      replace (offset + nrows + 1 - k)%nat with 0%nat by lia.
      replace (offset + nrows + 1 - S k)%nat with 0%nat by lia.
      reflexivity.
Qed.

Lemma filter_slice (rows : list (Z * A)) :
  forall k : nat,
    (k <= offset)%nat ->
    map fst rows = map Z.of_nat (seq k (length rows)) ->
    List.filter inside rows = take (S nrows) (drop (offset - k) rows).
Proof.
  induction rows as [|[label cells] rows IH]; intros k Hk Hidx.
  - now rewrite drop_nil, take_nil.
  - destruct (decide (k = offset)) as [->|Hne].
    + rewrite (filter_from _ offset (Nat.le_refl _) Hidx).
      replace (offset - offset)%nat with 0%nat by lia.
      replace (offset + nrows + 1 - offset)%nat with (S nrows) by lia.
      reflexivity.
    + cbn [length seq map fst] in Hidx. injection Hidx as -> Hidx.
      specialize (IH (S k) ltac:(lia) Hidx).
      cbn [List.filter fst].
      replace (Z.of_nat offset <=? Z.of_nat k) with false
        by (symmetry; apply Z.leb_gt; lia).
      cbn [andb]. rewrite IH.
      replace (offset - k)%nat with (S (offset - S k)) by lia.
      reflexivity.
Qed.

End Slice.

Section Limit.
Variable loc_slice_unsorted : DataFrame -> Z -> Z -> result DataFrame.

(** X17: on a table labelled from zero, a limit of [nrows] rows from
    [offset] returns the rows at the positions [offset] to
    [offset + nrows], both included: one row more than [nrows] when the
    table is long enough. *)
Theorem limit_includes_end (data : DataFrame) (nrows offset : nat) :
  frame_index data = range_index (frame_len data) ->
  execute_limit_frame loc_slice_unsorted data
    (Z.of_nat nrows) (Z.of_nat offset)
  = Ok (mkDataFrame (df_columns data) (df_dtypes data)
          (take (S nrows) (drop offset (df_rows data)))) /\
  length (take (S nrows) (drop offset (df_rows data)))
  = Nat.min (S nrows) (frame_len data - offset).
Proof.
  intros Hidx. split.
  - unfold execute_limit_frame, loc_slice. rewrite Hidx.
    unfold range_index. rewrite range_is_monotonic.
    rewrite (filter_slice offset nrows (df_rows data) 0 ltac:(lia) Hidx).
    now rewrite Nat.sub_0_r.
  - rewrite length_take, length_drop. reflexivity.
Qed.

End Limit.

Lemma limit_includes_end_witness :
  execute_limit_frame no_loc_slice (counted_table [10; 20; 30; 40; 50]) 2 1
  = Ok (mkDataFrame ["v"] [NumpyDtype np_int64]
          [ (1, [NpInt64 20]); (2, [NpInt64 30]); (3, [NpInt64 40]) ]).
Proof.
  refine (proj1 (limit_includes_end no_loc_slice
                   (counted_table [10; 20; 30; 40; 50]) 2 1 _)).
  reflexivity.
Defined.

End LimitFacts.

(** ** Null handling on scalars *)

Module NullFacts.
Import Datatypes Values RowReductions Nulls.

Lemma nan_is_null : isnull Wheres.nan = true.
Proof. vm_compute. reflexivity. Qed.

(** X18: [IfNull] on two scalars is [Coalesce] on the two, and
    [IfNull(NullIf(a, b), r)] is [r] exactly when [a == b] or [a] is null,
    and [a] otherwise. *)
Theorem ifnull_of_nullif (eq : scalar -> scalar -> bool) (a b r : scalar) :
  coalesce [Plain (VScalar a); Plain (VScalar r)]
  = Ok (Plain (VScalar (execute_node_if_scalars a r))) /\
  execute_node_if_scalars (execute_node_nullif_scalars eq a b) r
  = if eq a b || isnull a then r else a.
Proof.
  split.
  - unfold execute_node_if_scalars. cbn. now destruct (isnull a).
  - unfold execute_node_if_scalars, execute_node_nullif_scalars.
    destruct (eq a b); [now rewrite nan_is_null|reflexivity].
Qed.

Lemma reduce_from_value (v : scalar) (post : list scalar) :
  isnull v = false ->
  reduce_first_not_null (Plain (VScalar v))
    (map Plain (map VScalar post))
  = Ok (Plain (VScalar v)).
Proof.
  intros Hv. induction post as [|y post IH]; [reflexivity|].
  cbn [map reduce_first_not_null first_not_null]. rewrite Hv. exact IH.
Qed.

Lemma reduce_from_null (v : scalar) (post : list scalar) :
  isnull v = false ->
  forall (pre : list scalar) (acc : scalar),
    isnull acc = true ->
    Forall (fun x => isnull x = true) pre ->
    reduce_first_not_null (Plain (VScalar acc))
      (map Plain (map VScalar (pre ++ v :: post)))
    = Ok (Plain (VScalar v)).
Proof.
  intros Hv. induction pre as [|x pre IH]; intros acc Hacc Hpre.
  - cbn [app map reduce_first_not_null first_not_null]. rewrite Hacc.
    cbn [negb bind]. now apply reduce_from_value.
  - inversion Hpre as [|? ? Hx Hrest]; subst.
    cbn [app map reduce_first_not_null first_not_null]. rewrite Hacc.
    cbn [negb bind]. now apply IH.
Qed.

Lemma coalesce_first_not_null (pre post : list scalar) (v : scalar) :
  Forall (fun x => isnull x = true) pre ->
  isnull v = false ->
  coalesce (map Plain (map VScalar (pre ++ v :: post)))
  = Ok (Plain (VScalar v)).
Proof.
  intros Hpre Hv. destruct pre as [|x pre].
  - cbn [app map coalesce]. now apply reduce_from_value.
  - inversion Hpre as [|? ? Hx Hrest]; subst.
    cbn [app map coalesce]. now apply reduce_from_null.
Qed.

Section Coalesce.
Variable np_repeat_object : value -> nat -> result (list scalar).

(** X19: [Coalesce] on scalars, none of them a string, evaluates to the
    first operand that is not null. *)
Theorem coalesce_of_scalars (pre post : list scalar) (v : scalar) :
  Forall (fun x => isnull x = true) pre ->
  isnull v = false ->
  Forall (fun x => is_sized (VScalar x) = false) (v :: post) ->
  execute_node_coalesce np_repeat_object
    (map VScalar (pre ++ v :: post))
  = Ok (Plain (VScalar v)).
Proof.
  intros Hpre Hv Hsized.
  unfold execute_node_coalesce, compute_row_reduction.
  rewrite bool_decide_eq_true_2.
  - now apply coalesce_first_not_null.
  - apply set_eq. intros n.
    rewrite RowReductionFacts.elem_of_final_sizes. split.
    + intros (x & Hx & Hlen). exfalso.
      apply list_elem_of_fmap in Hx as (c & -> & Hc).
      unfold sized_len in Hlen.
      apply elem_of_app in Hc as [Hc|Hc].
      * rewrite Forall_forall in Hpre. specialize (Hpre c Hc).
        destruct c; try discriminate.
      * rewrite Forall_forall in Hsized. rewrite (Hsized c Hc) in Hlen.
        discriminate.
    + intros Hn. now apply not_elem_of_empty in Hn.
Qed.

End Coalesce.

Lemma coalesce_of_scalars_witness :
  execute_node_coalesce (fun _ _ => Raise (NotImplementedError "repeat"))
    (map VScalar ([PyNone; Wheres.nan] ++ PyInt 4 :: [PyNone; PyInt 5]))
  = Ok (Plain (VScalar (PyInt 4))).
Proof.
  apply coalesce_of_scalars.
  - repeat constructor.
  - reflexivity.
  - repeat constructor.
Defined.

End NullFacts.

(** ** String concatenation *)

Module StringFacts.
Import Datatypes Values Strings.

Lemma append_empty (s : string) : (s ++ "")%string = s.
Proof.
  induction s as [|a s IH]; [reflexivity|].
  change (String.String a (s ++ "")%string = String.String a s).
  f_equal. exact IH.
Qed.

Lemma append_assoc (a b c : string) :
  ((a ++ b) ++ c)%string = (a ++ (b ++ c))%string.
Proof.
  induction a as [|x a IH]; [reflexivity|].
  change (String.String x ((a ++ b) ++ c)%string
          = String.String x (a ++ (b ++ c))%string).
  f_equal. exact IH.
Qed.

Lemma concat_cons (x : string) (rest : list string) :
  String.concat "" (x :: rest) = (x ++ String.concat "" rest)%string.
Proof.
  destruct rest as [|y rest]; [|reflexivity].
  cbn [String.concat]. now rewrite append_empty.
Qed.

Section Rules.
Variable add_other : scalar -> scalar -> result scalar.

Lemma reduce_add_strings (rest : list string) :
  forall acc : string,
    reduce_add add_other (PyStr acc) (map PyStr rest)
    = Ok (PyStr (acc ++ String.concat "" rest)).
Proof.
  induction rest as [|y rest IH]; intros acc.
  - cbn [map reduce_add String.concat]. now rewrite append_empty.
  - cbn [map reduce_add add bind]. rewrite IH, concat_cons.
    now rewrite append_assoc.
Qed.

(** X20: [StringConcat] on a list of strings that is not empty evaluates
    to the strings put one after the other, in their order; on the empty
    list it raises the [TypeError] of a reduction without an initial
    value. *)
Theorem concat_of_strings (x : string) (rest : list string) :
  execute_node_string_concat add_other (map PyStr (x :: rest))
  = Ok (PyStr (String.concat "" (x :: rest))) /\
  execute_node_string_concat add_other []
  = Raise (TypeError "reduce() of empty sequence with no initial value").
Proof.
  split; [|reflexivity].
  cbn [map execute_node_string_concat].
  now rewrite reduce_add_strings, concat_cons.
Qed.

End Rules.

End StringFacts.

(** ** The sign of a number *)

Module MathFacts.
Import Datatypes Values Frames Maths.

Section Rule.
Variable libm : math_op -> scalar -> result scalar.

Local Abbreviation sign_of := (execute_node_math_function_number libm Sign).

(** X21: [Sign] of an integer is its sign as a Python integer, for a
    Python integer and for a numpy integer; of a float zero of either sign
    it is 0; and of a NaN it is 1. *)
Theorem sign_of_number :
  (forall z : Z,
     sign_of (PyInt z) = Ok (PyInt (Z.sgn z)) /\
     sign_of (NpInt64 z) = Ok (PyInt (Z.sgn z))) /\
  (forall bits : Z,
     float_is_zero bits = true -> sign_of (PyFloat bits) = Ok (PyInt 0)) /\
  (forall bits : Z,
     float_is_nan bits = true -> sign_of (PyFloat bits) = Ok (PyInt 1)).
Proof.
  split; [|split].
  - intros z.
    assert (H : sign (PyInt z) = Ok (PyInt (Z.sgn z))).
    { unfold sign, lt_zero. cbn [truth numeric number_compare bind].
      destruct (Z.eqb_spec z 0) as [->|Hz]; [reflexivity|]. cbn [negb].
      rewrite Z.mul_1_r.
      change (0 * 2 ^ (0 - Z.min 0 0)) with 0.
      destruct (Z.compare_spec z 0) as [E|E|E]; [contradiction| |].
      - rewrite bool_decide_eq_true_2 by reflexivity.
        now rewrite (Z.sgn_neg z E).
      - rewrite bool_decide_eq_false_2 by discriminate.
        now rewrite (Z.sgn_pos z E). }
    split; [exact H|].
    unfold execute_node_math_function_number, MATH_FUNCTIONS.
    unfold sign, lt_zero in *. exact H.
  - intros bits Hzero.
    unfold execute_node_math_function_number, MATH_FUNCTIONS, sign.
    cbn [truth]. now rewrite Hzero.
  - intros bits Hnan.
    unfold execute_node_math_function_number, MATH_FUNCTIONS, sign.
    cbn [truth].
    assert (Hz : float_is_zero bits = false).
    { unfold float_is_nan in Hnan. unfold float_is_zero.
      apply andb_true_iff in Hnan as [He Hf].
      apply Z.eqb_neq. intros H0. apply Z.eqb_eq in He.
      assert (Hbit : forall n, 0 <= n < 63 -> Z.testbit bits n = false).
      { intros n Hn.
        pose proof (f_equal (fun x => Z.testbit x n) H0) as Hb.
        cbn beta in Hb. rewrite Z.land_spec, Z.bits_0 in Hb.
        replace (2 ^ 63 - 1) with (Z.ones 63) in Hb by reflexivity.
        rewrite Z.ones_spec_low in Hb by lia. now rewrite andb_true_r in Hb. }
      pose proof (f_equal (fun x => Z.testbit x 0) He) as Hb.
      cbn beta in Hb. rewrite Z.land_spec, Z.shiftr_spec in Hb by lia.
      change (0 + 52) with 52 in Hb.
      rewrite (Hbit 52) in Hb by lia. discriminate Hb. }
    rewrite Hz. cbn [negb]. unfold lt_zero. cbn [numeric]. now rewrite Hnan.
Qed.

End Rule.

Lemma sign_of_number_witness :
  execute_node_math_function_number
    (fun _ _ => Raise (NotImplementedError "math")) Sign
    (PyFloat 9221120237041090560)
  = Ok (PyInt 1).
Proof.
  refine (proj2 (proj2 (sign_of_number _)) 9221120237041090560 _).
  reflexivity.
Defined.

End MathFacts.

(** ** Literals of the other types *)

Module LiteralFacts.
Import Datatypes Values Dispatch Literals.

Section Literal.
Variable N : numerics.

(** X22: a literal whose type is not an integer, boolean, floating or
    interval type evaluates to its stored value as it is, whatever the
    class of the value. *)
Theorem literal_as_stored (v : scalar) (t : dtype) :
  isinstance t Classes.Integer = false ->
  isinstance t Classes.Boolean = false ->
  isinstance t Classes.Floating = false ->
  isinstance t Classes.Interval = false ->
  execute_literal N (mkLiteral v t) = Ok v.
Proof.
  destruct t; try discriminate; intros _ _ _ _; destruct v;
    vm_compute; reflexivity.
Qed.

(** X23: a literal of an interval type is built into a [Timedelta] of the
    unit of the type when its stored value is a timedelta, a string or an
    integer (a [bool] included, as a subclass of [int]); a stored value of
    another class, such as a float or [None], is returned as it is. *)
Theorem interval_literal (v : scalar) (u : string) :
  execute_literal N (mkLiteral v (Interval u))
  = match v with
    | PdTimedelta _ | PyStr _ | PyInt _ | NpInt64 _ | PyBool _ =>
        make_timedelta N v u
    | PyNone | PyFloat _ | NpBool _ | NpFloat64 _ | PdTimestamp _ _ => Ok v
    end.
Proof. destruct v; vm_compute; reflexivity. Qed.

(** X26: a literal that holds a numpy scalar, typed with the type inferred
    for the scalar, evaluates to the Python scalar of the same value: a
    numpy integer to an [int], a numpy boolean to a [bool] and a numpy
    float to a [float]. *)
Theorem numpy_literal_unboxed (z : Z) (b : bool) (bits : Z) :
  (t <- Schemas.infer_numpy_scalar (NpInt64 z) ;;
   execute_literal N (mkLiteral (NpInt64 z) t)) = Ok (PyInt z) /\
  (t <- Schemas.infer_numpy_scalar (NpBool b) ;;
   execute_literal N (mkLiteral (NpBool b) t)) = Ok (PyBool b) /\
  (t <- Schemas.infer_numpy_scalar (NpFloat64 bits) ;;
   execute_literal N (mkLiteral (NpFloat64 bits) t)) = Ok (PyFloat bits).
Proof. split; [|split]; vm_compute; reflexivity. Qed.

End Literal.

Lemma literal_as_stored_witness :
  execute_literal no_numerics (mkLiteral (PyInt 3) String) = Ok (PyInt 3).
Proof. apply literal_as_stored; reflexivity. Defined.

End LiteralFacts.

(** ** Casts of scalars *)

Module ScalarCastFacts.
Import Datatypes Values Dispatch Casts ExecuteNode.

Section Cast.
Variable K : kernels.
Variable C : constants.
Variable result_type : native -> native -> native.
Variable op : Cast.

Local Abbreviation cast_ :=
  (fun (v : scalar) (t : dtype) =>
     execute_node K C result_type (NCast op) [AValue (VScalar v); AType t]).

(** X24: the cast of [None] is [None], to every type. *)
Theorem cast_of_null (t : dtype) :
  cast_ PyNone t = Ok (VScalar PyNone).
Proof. destruct t; vm_compute; reflexivity. Qed.

(** X25: a timestamp scalar cast to [int64] is its number of nanoseconds
    as a Python integer, while its cast to any other integer type finds no
    rule.  Cast to a timestamp type, a timestamp with a timezone is passed
    to [tz_convert] with the timezone of the type, whose result, or whose
    exception for a string that names no zone, is the outcome; and one
    without a timezone cast to the type without a timezone is returned as
    it is. *)
Theorem cast_of_timestamp (value : Z) (tz : option string) :
  cast_ (PdTimestamp value tz) Int64 = Ok (VScalar (PyInt value)) /\
  (forall t : dtype,
     isinstance t Classes.Integer = true ->
     t <> Int64 ->
     cast_ (PdTimestamp value tz) t
     = Raise (NotImplementedError "Could not find signature")) /\
  (forall zone target : string,
     cast_ (PdTimestamp value (Some zone)) (Timestamp (Some target))
     = (out <- timestamp_tz_convert K (PdTimestamp value (Some zone)) target ;;
        Ok (VScalar out))) /\
  cast_ (PdTimestamp value None) (Timestamp None)
  = Ok (VScalar (PdTimestamp value None)).
Proof.
  split; [vm_compute; reflexivity|]. split; [|split].
  - intros t Ht Hne. destruct t; try discriminate;
      try (vm_compute; reflexivity).
    contradiction.
  - intros zone target. unfold execute_node.
    cbn [map node_class arg_class class_of scalar_class type_of].
    replace (resolve execute_node_funcs
               [Classes.Cast; Classes.pd_Timestamp; Classes.Timestamp])
      with (Some cast_timestamp_to_timestamp) by (vm_compute; reflexivity).
    reflexivity.
  - vm_compute. reflexivity.
Qed.

(** X16: a timestamp scalar without a timezone cast to the type inferred
    for it is returned as it is.  One with a timezone is not: the rule
    compares the zone of the timestamp, a tzinfo object, with the timezone
    of the type, a string, finds them different and passes the timestamp
    to [tz_convert] with the printed name of its own zone, whose result or
    exception is the outcome. *)
Theorem timestamp_cast_to_inferred_type (value : Z) :
  (t <- Schemas.infer_dask_timestamp (PdTimestamp value None) ;;
   cast_ (PdTimestamp value None) t)
  = Ok (VScalar (PdTimestamp value None)) /\
  forall zone : string,
    (t <- Schemas.infer_dask_timestamp (PdTimestamp value (Some zone)) ;;
     cast_ (PdTimestamp value (Some zone)) t)
    = (out <- timestamp_tz_convert K (PdTimestamp value (Some zone)) zone ;;
       Ok (VScalar out)).
Proof.
  split; [vm_compute; reflexivity|].
  intros zone. cbn [Schemas.infer_dask_timestamp bind].
  unfold execute_node.
  cbn [map node_class arg_class class_of scalar_class type_of].
  replace (resolve execute_node_funcs
             [Classes.Cast; Classes.pd_Timestamp; Classes.Timestamp])
    with (Some cast_timestamp_to_timestamp) by (vm_compute; reflexivity).
  reflexivity.
Qed.

End Cast.

Lemma cast_of_timestamp_witness :
  execute_node no_kernels primitive_constants (fun a _ => a)
    (NCast (mkCast Int64 Int32))
    [AValue (VScalar (PdTimestamp 5 None)); AType Int32]
  = Raise (NotImplementedError "Could not find signature").
Proof.
  refine (proj1 (proj2 (cast_of_timestamp no_kernels primitive_constants
                          (fun a _ => a) (mkCast Int64 Int32) 5 None))
            Int32 _ _).
  - reflexivity.
  - intros H. discriminate H.
Defined.

End ScalarCastFacts.

(** ** Where on three aligned series *)

Module AlignedWhereFacts.
Import Datatypes Values Dispatch Casts Wheres ExecuteNode.

Lemma where_values_series (G : Z -> bool) (H : Z -> scalar) :
  forall (cs : list bool) (vs os : list scalar) (k : nat),
    length vs = length cs ->
    length os = length cs ->
    (forall i c, nth_error cs i = Some c -> G (Z.of_nat (k + i)) = c) ->
    (forall i o, nth_error os i = Some o -> H (Z.of_nat (k + i)) = o) ->
    map (fun '(label, x) => if G label then x else H label)
      (combine (map Z.of_nat (seq k (length vs))) vs)
    = zip_with (fun (c : bool) xo => if c then fst xo else snd xo) cs
        (combine vs os).
Proof.
  induction cs as [|c cs IH]; intros [|v vs] [|o os] k Hv Ho HG HH;
    try discriminate; [reflexivity|].
  cbn [length seq map combine zip_with fst snd].
  pose proof (HG 0%nat c eq_refl) as G0.
  pose proof (HH 0%nat o eq_refl) as H0.
  rewrite Nat.add_0_r in G0, H0. rewrite G0, H0.
  f_equal. apply IH.
  - now injection Hv.
  - now injection Ho.
  - intros i c' Hc'. replace (S k + i)%nat with (k + S i)%nat by lia.
    now apply HG.
  - intros i o' Ho'. replace (S k + i)%nat with (k + S i)%nat by lia.
    now apply HH.
Qed.

Section Where.
Variable K : kernels.
Variable C : constants.
Variable result_type : native -> native -> native.

(** X3: [Where] on three series of one length, each over a [RangeIndex],
    evaluates to the series that holds, position by position, the value of
    the true branch where the condition holds and the value of the false
    branch elsewhere; it keeps the name and the index of the true
    branch. *)
Theorem where_of_aligned_series (cond : list bool) (t f : list scalar)
    (name_t name_f : option string) (dtype_t dtype_f : native) :
  length t = length cond ->
  length f = length cond ->
  execute_where K C result_type (VSeries (bool_series cond))
    (VSeries (mkSeries name_t dtype_t (range_index (length t)) t))
    (VSeries (mkSeries name_f dtype_f (range_index (length f)) f))
  = Ok (VSeries
          (mkSeries name_t (result_type dtype_t dtype_f)
             (range_index (length t))
             (zip_with (fun (c : bool) xo => if c then fst xo else snd xo)
                cond (combine t f)))).
Proof.
  intros Ht Hf. unfold execute_where, execute_node.
  cbn [map arg_class class_of node_class].
  replace (resolve execute_node_funcs
             [Classes.Where; Classes.dd_Series; Classes.dd_Series;
              Classes.dd_Series])
    with (Some where_series_series_series) by (vm_compute; reflexivity).
  cbn [run run_where execute_node_where_series_series_series as_series bind
       series_where s_name s_dtype s_index s_values].
  do 3 f_equal. unfold range_index.
  apply (where_values_series
           (fun label =>
              truth (default (PyBool false)
                       (series_at (bool_series cond) label)))
           (fun label =>
              default nan
                (series_at
                   (mkSeries name_f dtype_f
                      (map Z.of_nat (seq 0 (length f))) f) label))
           cond t f 0%nat Ht Hf).
  - intros i c Hc. unfold series_at, bool_series, range_index.
    cbn [s_index s_values]. rewrite <- (length_map NpBool cond).
    rewrite (WhereFacts.label_get_range (map NpBool cond) 0 i (NpBool c)).
    + reflexivity.
    + rewrite nth_error_map, Hc. reflexivity.
  - intros i o Ho. unfold series_at. cbn [s_index s_values].
    now rewrite (WhereFacts.label_get_range f 0 i o Ho).
Qed.

End Where.

Lemma where_of_aligned_series_witness :
  execute_where no_kernels primitive_constants (fun a _ => a)
    (VSeries (bool_series [true; false]))
    (VSeries (int_series [1; 2])) (VSeries (int_series [9; 9]))
  = Ok (VSeries (int_series [1; 9])).
Proof.
  refine (where_of_aligned_series no_kernels primitive_constants
            (fun a _ => a) [true; false] [NpInt64 1; NpInt64 2]
            [NpInt64 9; NpInt64 9] None None (NumpyDtype np_int64)
            (NumpyDtype np_int64) _ _); reflexivity.
Defined.

End AlignedWhereFacts.
